(** * We Spend Wise backend: scheduling and ledger-consistency core

    A shallow embedding of the recurring / spontaneous income and expense
    processor of the backend:

    - [utils/cronJobs.js]: the due predicates [shouldProcessIncome] and
      [shouldProcessExpense], the per-source processors
      [processIncomeSource] and [processExpenseSource] and the two daily
      cron callbacks [checkIncomeSources] and [checkExpenseSources];
    - the [Income] and [Expense] models: the schemas and their
      [updateRelaxationDate] method;
    - the [Transaction] and [UserWallet] models: the ledger entry with
      its [softDelete] method and the wallet with its [currentAmount]
      balance;
    - the income and expense routes, in the revision that knows
      spontaneous sources ([isFixedIncome], [isFixedExpense]), and the
      transaction routes: the creation handlers and the transaction
      listing / deletion handlers, and the update and deletion handlers
      of the two kinds of source;
    - [middleware/permissions.js]: the four permission checks and
      [getUserPermissions], as functions of what their role query
      returns.

    Conventions of the embedding:
    - the MongoDB collections are finite maps keyed by document id, and
      [create] allocates an id that the collection does not use;
    - an [async] function is state passing over the database, with a
      thrown exception as an error result; every database call may fail,
      as decided by an oracle over the number of the call, and what was
      written before a failure stays written;
    - the functions run one at a time (no interleaving of two requests
      or of the two cron callbacks);
    - the clock is read once per operation: every [new Date()] of one
      handler call, or of one cron run, returns the same [now];
    - a JavaScript [Date] is represented by its local calendar fields;
    - a JavaScript string is the sequence of its code units, taken below
      256;
    - amounts are integers (exact currency units), on which the
      arithmetic of the code's numbers is exact below 2^53. *)

From Stdlib Require Import ZArith Lia Bool String List.
From stdpp Require Import gmap strings list fin_maps pretty sorting.

Open Scope Z_scope.

(* ===================================================================== *)
(** * JavaScript dates, by their local calendar fields *)
(* ===================================================================== *)

Module JsDate.

(** A [Date] is kept as its local-time fields: [getFullYear], [getMonth]
    (0-11), [getDate] (1-31) and the milliseconds elapsed since local
    midnight.  On such normalised fields the order of the underlying time
    values is the lexicographic order. *)
Record Date := MkDate { getFullYear : Z; getMonth : Z; getDate : Z; msOfDay : Z }.

#[global] Instance Date_eq_dec : EqDecision Date.
Proof. solve_decision. Defined.

Definition isLeapYear (y : Z) : bool :=
  (y mod 4 =? 0) && (negb (y mod 100 =? 0) || (y mod 400 =? 0)).

Definition daysInMonth (y m : Z) : Z :=
  if m =? 1 then (if isLeapYear y then 29 else 28)
  else if (m =? 3) || (m =? 5) || (m =? 8) || (m =? 10) then 30
  else 31.

Definition msPerDay : Z := 86400000.

(** The dates a running clock can show. *)
Definition wf_date (d : Date) : Prop :=
  0 <= getMonth d <= 11 /\
  1 <= getDate d <= daysInMonth (getFullYear d) (getMonth d) /\
  0 <= msOfDay d < msPerDay.

Definition wf_dateb (d : Date) : bool :=
  (0 <=? getMonth d) && (getMonth d <=? 11) &&
  (1 <=? getDate d) && (getDate d <=? daysInMonth (getFullYear d) (getMonth d)) &&
  (0 <=? msOfDay d) && (msOfDay d <? msPerDay).

(** [a < b] and [a <= b] on dates (comparison of the time values). *)
Definition date_ltb (a b : Date) : bool :=
  (getFullYear a <? getFullYear b) ||
  ((getFullYear a =? getFullYear b) &&
   ((getMonth a <? getMonth b) ||
    ((getMonth a =? getMonth b) &&
     ((getDate a <? getDate b) ||
      ((getDate a =? getDate b) && (msOfDay a <? msOfDay b)))))).

Definition date_leb (a b : Date) : bool := negb (date_ltb b a).

(** The same order as a proposition. *)
Definition date_lt (a b : Date) : Prop :=
  getFullYear a < getFullYear b \/
  (getFullYear a = getFullYear b /\
   (getMonth a < getMonth b \/
    (getMonth a = getMonth b /\
     (getDate a < getDate b \/
      (getDate a = getDate b /\ msOfDay a < msOfDay b))))).

Definition nextMonth (y m : Z) : Z * Z :=
  if m =? 11 then (y + 1, 0) else (y, m + 1).

Definition prevMonth (y m : Z) : Z * Z :=
  if m =? 0 then (y - 1, 11) else (y, m - 1).

(** Day overflow of the [Date] constructor: a day past the end of the
    month rolls into the following months. *)
Fixpoint rollForward (fuel : nat) (y m d : Z) : Date :=
  match fuel with
  | O => MkDate y m d 0
  | S fuel' =>
      if d <=? daysInMonth y m then MkDate y m d 0
      else let '(y', m') := nextMonth y m in
           rollForward fuel' y' m' (d - daysInMonth y m)
  end.

(** Day underflow: day 0 is the last day of the previous month, and so on. *)
Fixpoint rollBackward (fuel : nat) (y m d : Z) : Date :=
  match fuel with
  | O => MkDate y m d 0
  | S fuel' =>
      if 1 <=? d then MkDate y m d 0
      else let '(y', m') := prevMonth y m in
           rollBackward fuel' y' m' (d + daysInMonth y' m')
  end.

(** [new Date(year, monthIndex, day)]: local midnight of that day, with
    the month index carried into the year and the day carried into the
    month. *)
Definition newDate (y m d : Z) : Date :=
  let ym := y + m / 12 in
  let mn := m mod 12 in
  if 1 <=? d then rollForward (Z.to_nat d) ym mn d
  else rollBackward (Z.to_nat (1 - d)) ym mn d.

(** [date.setHours(0, 0, 0, 0)] *)
Definition setHours0 (d : Date) : Date :=
  MkDate (getFullYear d) (getMonth d) (getDate d) 0.

Definition monthName (m : Z) : string :=
  match m with
  | 0 => "January" | 1 => "February" | 2 => "March" | 3 => "April"
  | 4 => "May" | 5 => "June" | 6 => "July" | 7 => "August"
  | 8 => "September" | 9 => "October" | 10 => "November" | _ => "December"
  end.

(** [date.toLocaleDateString("en-US", {day: "numeric", month: "long",
    year: "numeric"})], as in "January 5, 2025". *)
Definition toLocaleDateString (d : Date) : string :=
  monthName (getMonth d) +:+ " " +:+ pretty (getDate d) +:+ ", " +:+
  pretty (getFullYear d).

End JsDate.

Import JsDate.

(* ===================================================================== *)
(** * The schedule of a recurring source *)
(* ===================================================================== *)

Inductive CycleType := monthly | quarterly | yearly.

#[global] Instance CycleType_eq_dec : EqDecision CycleType.
Proof. solve_decision. Defined.

(** The date computed by [incomeSchema.methods.updateRelaxationDate] and
    [expenseSchema.methods.updateRelaxationDate] (the two bodies are the
    same text) at clock reading [now].  [cycleType = None] is a document
    without a cycle type: no [case] of the [switch] matches. *)
Definition nextRelaxationDate (now : Date) (cycleDate : Z)
    (cycleType : option CycleType) : Date :=
  let nextDate := newDate (getFullYear now) (getMonth now) cycleDate in
  match cycleType with
  | Some monthly =>
      if date_leb nextDate now
      then newDate (getFullYear now) (getMonth now + 1) cycleDate
      else nextDate
  | Some quarterly =>
      let quarter := getMonth now / 3 in
      let nextDate := newDate (getFullYear now) (quarter * 3) cycleDate in
      if date_leb nextDate now
      then newDate (getFullYear now) ((quarter + 1) * 3) cycleDate
      else nextDate
  | Some yearly =>
      let nextDate := newDate (getFullYear now) 0 cycleDate in
      if date_leb nextDate now
      then newDate (getFullYear now + 1) 0 cycleDate
      else nextDate
  | None => nextDate
  end.

(* ===================================================================== *)
(** * JavaScript values read off a document *)
(* ===================================================================== *)

(** The value of a numeric property access: a number, [undefined] when the
    property does not exist, or [NaN]. *)
Inductive JsValue := JsUndefined | JsNumber (z : Z) | JsNaN.

(** [ToNumber]: [undefined] converts to [NaN]. *)
Definition toNumber (v : JsValue) : option Z :=
  match v with JsNumber z => Some z | _ => None end.

(** [a < b]: false as soon as one side is [NaN]. *)
Definition js_lt (a b : JsValue) : bool :=
  match toNumber a, toNumber b with
  | Some x, Some y => x <? y
  | _, _ => false
  end.

Definition js_add (a b : JsValue) : JsValue :=
  match toNumber a, toNumber b with
  | Some x, Some y => JsNumber (x + y)
  | _, _ => JsNaN
  end.

Definition js_sub (a b : JsValue) : JsValue :=
  match toNumber a, toNumber b with
  | Some x, Some y => JsNumber (x - y)
  | _, _ => JsNaN
  end.

(** [s || dflt] on an optional string: [undefined] and the empty string
    are falsy. *)
Definition orElse (s : option string) (dflt : option string) : option string :=
  match s with
  | Some x => if String.eqb x "" then dflt else Some x
  | None => dflt
  end.

(* ===================================================================== *)
(** * JavaScript strings *)
(* ===================================================================== *)

(** The white space of [String.prototype.trim] and of the class [\s]
    among the code units below 256: tab, line feed, vertical tab, form
    feed, carriage return, space and no-break space. *)
Definition isSpace (c : Ascii.ascii) : bool :=
  let n := Ascii.nat_of_ascii c in
  ((9 <=? n) && (n <=? 13) || (n =? 32) || (n =? 160))%nat.

Fixpoint trimStart (s : string) : string :=
  match s with
  | EmptyString => EmptyString
  | String c s' => if isSpace c then trimStart s' else s
  end.

Fixpoint trimEnd (s : string) : string :=
  match s with
  | EmptyString => EmptyString
  | String c s' =>
      match trimEnd s' with
      | EmptyString => if isSpace c then EmptyString else String c EmptyString
      | rest => String c rest
      end
  end.

(** [s.trim()], which is also the [trim()] sanitizer of the validation
    chains. *)
Definition trim (s : string) : string := trimEnd (trimStart s).

(** [s.toLowerCase()] on these code units: the letters A-Z and the
    capital letters of the upper half. *)
Definition lowerChar (c : Ascii.ascii) : Ascii.ascii :=
  let n := Ascii.nat_of_ascii c in
  if ((65 <=? n) && (n <=? 90)
      || (192 <=? n) && (n <=? 222) && negb (n =? 215))%nat
  then Ascii.ascii_of_nat (n + 32) else c.

Fixpoint toLowerCase (s : string) : string :=
  match s with
  | EmptyString => EmptyString
  | String c s' => String (lowerChar c) (toLowerCase s')
  end.

(** [s.lastIndexOf(c)], the string starting at index [i]: -1 when [c]
    does not occur. *)
Fixpoint lastIndexOfFrom (c : Ascii.ascii) (i : Z) (s : string) : Z :=
  match s with
  | EmptyString => -1
  | String x s' =>
      let later := lastIndexOfFrom c (i + 1) s' in
      if 0 <=? later then later else if Ascii.eqb x c then i else -1
  end.

Definition lastIndexOf (c : Ascii.ascii) (s : string) : Z := lastIndexOfFrom c 0 s.

Fixpoint dropChars (n : nat) (s : string) : string :=
  match n, s with
  | O, _ => s
  | S n', String _ s' => dropChars n' s'
  | S _, EmptyString => EmptyString
  end.

(** [s.substring(start)]: a negative [start] counts as 0. *)
Definition substring (start : Z) (s : string) : string :=
  dropChars (Z.to_nat start) s.

(** The character ['.']. *)
Definition dot : Ascii.ascii :=
  Eval cbv in match "."%string with String c _ => c | EmptyString => Ascii.zero end.

(* ===================================================================== *)
(** * Schemas *)
(* ===================================================================== *)

(** Document ids ([ObjectId]). *)
Abbreviation Id := nat.

(** Amounts are exact numbers of currency units.  Of each schema the
    paths read or written by the modelled code are kept.  The string
    paths have the options [trim] and [maxlength]: every string that the
    modelled code stores is trimmed already (the routes trim what they
    receive, and the titles that the code composes begin with a letter
    and end with the name or with the year), and the [maxlength] limits
    are validated where a document takes its strings from a request. *)

Module UserWallet.
(** [models/UserWallet.js].  The balance is [currentAmount]; the schema
    declares no path called [balance]. *)
Record t := Build
  { userId : Id;
    initialAmount : Z;
    currentAmount : Z;
    isDeleted : bool }.

Definition inc_currentAmount (delta : Z) (w : t) : t :=
  Build (userId w) (initialAmount w) (currentAmount w + delta) (isDeleted w).
End UserWallet.

Inductive TransactionType := TxIncome | TxExpense.

#[global] Instance TransactionType_eq_dec : EqDecision TransactionType.
Proof. solve_decision. Defined.

Module Transaction.
(** [models/Transaction.js]: the paths the schema declares.  The
    [createdAt] / [updatedAt] stamps that the [timestamps] option makes
    mongoose maintain by itself are not among them. *)
Record t := Build
  { walletId : Id;
    userId : Id;
    title : string;
    description : option string;
    file : option string;
    transactionDate : Date;
    amount : Z;
    transactionType : TransactionType;
    isDeleted : bool;
    deletedAt : option Date }.

(** Schema validation run by [Transaction.create]: [title] is required
    and [amount] has [min: 0]. *)
Definition validate (d : t) : bool :=
  negb (String.eqb (title d) "") && (0 <=? amount d).

(** The validator of [file]: [null] and the empty string pass, and
    otherwise the lower-cased text from the last dot on (the whole text
    when there is no dot) must be one of the four extensions. *)
Definition allowedExtensions : list string := [".pdf"; ".jpg"; ".jpeg"; ".png"].

Definition fileAllowed (v : string) : bool :=
  if String.eqb v "" then true
  else
    let fileExtension := substring (lastIndexOf dot v) (toLowerCase v) in
    bool_decide (fileExtension ∈ allowedExtensions).

(** The limits of the string paths: [maxlength] 200 of [title], 500 of
    [description], and the validator of [file]. *)
Definition limits (d : t) : bool :=
  (String.length (title d) <=? 200)%nat &&
  match description d with
  | Some s => (String.length s <=? 500)%nat
  | None => true
  end &&
  match file d with
  | Some v => fileAllowed v
  | None => true
  end.

(** The assignments of [transactionSchema.methods.softDelete]:
    [this.isDeleted = true; this.deletedAt = new Date()]. *)
Definition markDeleted (now : Date) (d : t) : t :=
  Build (walletId d) (userId d) (title d) (description d) (file d)
        (transactionDate d) (amount d) (transactionType d)
        true (Some now).
End Transaction.

Module Income.
(** [models/Income.js]: [cycleDate] and [cycleType] are required paths;
    the schema has no [isFixedIncome] and no [entryDate] path. *)
Record t := Build
  { userId : Id;
    walletId : Id;
    name : string;
    description : option string;
    amount : Z;
    cycleDate : Z;
    cycleType : CycleType;
    relaxationDate : option Date;
    isDeleted : bool;
    deletedAt : option Date }.

Definition set_relaxationDate (r : option Date) (d : t) : t :=
  Build (userId d) (walletId d) (name d) (description d) (amount d)
        (cycleDate d) (cycleType d) r (isDeleted d) (deletedAt d).

(** The [maxlength] limits: 100 of [name], 500 of [description]. *)
Definition limits (name : string) (description : option string) : bool :=
  (String.length name <=? 100)%nat &&
  match description with
  | Some s => (String.length s <=? 500)%nat
  | None => true
  end.

(** The object handed to [Income.create] by the route. *)
Record input := BuildInput
  { in_userId : Id;
    in_walletId : Id;
    in_name : string;
    in_description : option string;
    in_amount : Z;
    in_isFixedIncome : bool;
    in_cycleDate : option Z;
    in_cycleType : option CycleType;
    in_entryDate : option Date }.
End Income.

Module Expense.
(** [models/Expense.js]: [cycleDate] and [cycleType] are required when
    [isFixedExpense], [entryDate] when not. *)
Record t := Build
  { userId : Id;
    walletId : Id;
    name : string;
    description : option string;
    amount : Z;
    isFixedExpense : bool;
    cycleDate : option Z;
    cycleType : option CycleType;
    entryDate : option Date;
    relaxationDate : option Date;
    isDeleted : bool;
    deletedAt : option Date }.

Definition set_relaxationDate (r : option Date) (d : t) : t :=
  Build (userId d) (walletId d) (name d) (description d) (amount d)
        (isFixedExpense d) (cycleDate d) (cycleType d) (entryDate d)
        r (isDeleted d) (deletedAt d).

(** The [maxlength] limits: 100 of [name], 500 of [description]. *)
Definition limits (d : t) : bool :=
  (String.length (name d) <=? 100)%nat &&
  match description d with
  | Some s => (String.length s <=? 500)%nat
  | None => true
  end.

(** Schema validation run by [Expense.create]. *)
Definition validate (d : t) : bool :=
  negb (String.eqb (name d) "") && limits d && (0 <=? amount d) &&
  (if isFixedExpense d
   then match cycleDate d with
        | Some c => (1 <=? c) && (c <=? 31)
        | None => false
        end && bool_decide (is_Some (cycleType d))
   else match cycleDate d with
        | Some c => (1 <=? c) && (c <=? 31)
        | None => true
        end && bool_decide (is_Some (entryDate d))).
End Expense.

(** Documents as [find(...).populate("walletId userId")] returns them:
    the stored fields under their [_id], with each reference replaced by
    the referenced document, or by [null] when it no longer exists. *)
Record Populated (T : Type) := MkPopulated
  { _id : Id;
    doc : T;
    populatedWallet : option Id;
    populatedUser : option Id }.
Arguments MkPopulated {T}.
Arguments _id {T}.
Arguments doc {T}.
Arguments populatedWallet {T}.
Arguments populatedUser {T}.

(* ===================================================================== *)
(** * The database and the effects of the code *)
(* ===================================================================== *)

(** One collection per model, the set of existing users, and the number
    of database calls issued so far. *)
Record DB := MkDB
  { wallets : gmap Id UserWallet.t;
    transactions : gmap Id Transaction.t;
    incomes : gmap Id Income.t;
    expenses : gmap Id Expense.t;
    users : gset Id;
    calls : nat }.

Definition with_wallets (f : gmap Id UserWallet.t -> gmap Id UserWallet.t) (db : DB) : DB :=
  MkDB (f (wallets db)) (transactions db) (incomes db) (expenses db) (users db) (calls db).
Definition with_transactions (f : gmap Id Transaction.t -> gmap Id Transaction.t) (db : DB) : DB :=
  MkDB (wallets db) (f (transactions db)) (incomes db) (expenses db) (users db) (calls db).
Definition with_incomes (f : gmap Id Income.t -> gmap Id Income.t) (db : DB) : DB :=
  MkDB (wallets db) (transactions db) (f (incomes db)) (expenses db) (users db) (calls db).
Definition with_expenses (f : gmap Id Expense.t -> gmap Id Expense.t) (db : DB) : DB :=
  MkDB (wallets db) (transactions db) (incomes db) (f (expenses db)) (users db) (calls db).
Definition count_call (db : DB) : DB :=
  MkDB (wallets db) (transactions db) (incomes db) (expenses db) (users db) (S (calls db)).

Inductive Error :=
| TypeError          (* property access on [null] *)
| ValidationError    (* a schema validator rejected the document *)
| CastError          (* a value could not be cast to the path's type *)
| DbError.           (* the database call itself failed *)

Inductive Result (A : Type) := Ok (a : A) | Throw (e : Error).
Arguments Ok {A}.
Arguments Throw {A}.

(** An asynchronous function: it runs on the database, returns or throws,
    and leaves the database as its completed calls made it (nothing is
    rolled back by an exception). *)
Definition Async (A : Type) : Type := DB -> Result A * DB.

Definition ret {A} (a : A) : Async A := fun db => (Ok a, db).
Definition throw {A} (e : Error) : Async A := fun db => (Throw e, db).
Definition bind {A B} (m : Async A) (k : A -> Async B) : Async B :=
  fun db => match m db with
            | (Ok a, db') => k a db'
            | (Throw e, db') => (Throw e, db')
            end.
Definition tryCatch {A} (m : Async A) (handler : Error -> Async A) : Async A :=
  fun db => match m db with
            | (Ok a, db') => (Ok a, db')
            | (Throw e, db') => handler e db'
            end.

Notation "'let*' x ':=' m 'in' k" := (bind m (fun x => k))
  (at level 10, x name, m at level 100, k at level 200).

(** [x._id] on a populated reference: a [TypeError] on [null]. *)
Definition deref {A} (r : option A) : Async A :=
  match r with Some a => ret a | None => throw TypeError end.

Inductive Outcome :=
| Processed (transaction : Id)
| SkippedNotDue
| InsufficientFunds
| Failed (e : Error).

(** The counters of one cron run, with the per-source outcomes in the
    order the sources were visited (the run's console log). *)
Record RunStats := MkRunStats
  { processedCount : nat;
    skippedCount : nat;
    insufficientFundsCount : nat;
    outcomes : list (Id * Outcome) }.

Definition noStats : RunStats := MkRunStats 0 0 0 [].

(** The counter updates of the loop bodies; a caught error updates no
    counter. *)
Definition record (id : Id) (o : Outcome) (st : RunStats) : RunStats :=
  let log := outcomes st ++ [(id, o)] in
  match o with
  | Processed _ =>
      MkRunStats (S (processedCount st)) (skippedCount st) (insufficientFundsCount st) log
  | SkippedNotDue =>
      MkRunStats (processedCount st) (S (skippedCount st)) (insufficientFundsCount st) log
  | InsufficientFunds =>
      MkRunStats (processedCount st) (skippedCount st) (S (insufficientFundsCount st)) log
  | Failed _ =>
      MkRunStats (processedCount st) (skippedCount st) (insufficientFundsCount st) log
  end.

Section Backend.

(** Which database calls fail: call number [n] (counted from the start of
    the database's life) throws when [fault n] holds. *)
Variable fault : nat -> bool.

Definition dbCall : Async unit :=
  fun db => if fault (calls db)
            then (Throw DbError, count_call db)
            else (Ok tt, count_call db).

(** ** Model methods *)

Definition Transaction_create (d : Transaction.t) : Async Id :=
  if Transaction.validate d then
    let* _ := dbCall in
    fun db => let id := fresh (dom (transactions db)) in
              (Ok id, with_transactions (insert id d) db)
  else throw ValidationError.

(** [Transaction.create] on a document that takes its strings from a
    request: the limits of the string paths are validated with the
    rest.  (The titles that the cron processors compose from a stored
    name, of at most 100 characters, and a date stay below the limit.) *)
Definition Transaction_createFromRequest (d : Transaction.t) : Async Id :=
  if Transaction.limits d then Transaction_create d else throw ValidationError.

Definition Transaction_findByIdAndDelete (id : Id) : Async unit :=
  let* _ := dbCall in
  fun db => (Ok tt, with_transactions (delete id) db).

(** [Transaction.findOne({_id, userId, isDeleted: false})] *)
Definition Transaction_findOne (id user : Id) : Async (option Transaction.t) :=
  let* _ := dbCall in
  fun db =>
    (Ok (match transactions db !! id with
         | Some t =>
             if bool_decide (Transaction.userId t = user) && negb (Transaction.isDeleted t)
             then Some t else None
         | None => None
         end), db).

(** [transactionSchema.methods.softDelete], on the document loaded under
    [id]: the two assignments, then [save()] writes the document back. *)
Definition Transaction_softDelete (now : Date) (id : Id) (t : Transaction.t) : Async unit :=
  let t' := Transaction.markDeleted now t in
  let* _ := dbCall in
  fun db => (Ok tt, with_transactions (alter (fun _ => t') id) db).

Definition UserWallet_findById (id : Id) : Async (option UserWallet.t) :=
  let* _ := dbCall in
  fun db => (Ok (wallets db !! id), db).

(** [UserWallet.findOne({_id, userId, isDeleted: false})] *)
Definition UserWallet_findOne (id user : Id) : Async (option UserWallet.t) :=
  let* _ := dbCall in
  fun db =>
    (Ok (match wallets db !! id with
         | Some w =>
             if bool_decide (UserWallet.userId w = user) && negb (UserWallet.isDeleted w)
             then Some w else None
         | None => None
         end), db).

(** [UserWallet.findByIdAndUpdate(id, {$inc: {currentAmount: delta}})];
    a missing wallet is not an error. *)
Definition UserWallet_findByIdAndUpdate_inc (id : Id) (delta : Z) : Async unit :=
  let* _ := dbCall in
  fun db => (Ok tt, with_wallets (alter (UserWallet.inc_currentAmount delta) id) db).

Definition populate {T} (walletOf userOf : T -> Id) (db : DB) (p : Id * T) : Populated T :=
  MkPopulated (fst p) (snd p)
    (match wallets db !! walletOf (snd p) with
     | Some _ => Some (walletOf (snd p))
     | None => None
     end)
    (if bool_decide (userOf (snd p) ∈ users db) then Some (userOf (snd p)) else None).

(** [Income.find({isDeleted: false}).populate("walletId userId")] *)
Definition Income_find : Async (list (Populated Income.t)) :=
  let* _ := dbCall in
  fun db =>
    (Ok (populate Income.walletId Income.userId db <$>
           filter (fun p => Income.isDeleted (snd p) = false)
             (map_to_list (incomes db))), db).

(** [Expense.find({isDeleted: false}).populate("walletId userId")] *)
Definition Expense_find : Async (list (Populated Expense.t)) :=
  let* _ := dbCall in
  fun db =>
    (Ok (populate Expense.walletId Expense.userId db <$>
           filter (fun p => Expense.isDeleted (snd p) = false)
             (map_to_list (expenses db))), db).

(** [incomeSchema.methods.updateRelaxationDate]: the new date is assigned
    to [this.relaxationDate] and [save()] writes it to the stored
    document. *)
Definition Income_updateRelaxationDate (now : Date) (income : Populated Income.t)
    : Async unit :=
  let nextDate :=
    nextRelaxationDate now (Income.cycleDate (doc income))
      (Some (Income.cycleType (doc income))) in
  let* _ := dbCall in
  fun db =>
    (Ok tt, with_incomes (alter (Income.set_relaxationDate (Some nextDate)) (_id income)) db).

(** [expenseSchema.methods.updateRelaxationDate].  Without a [cycleDate]
    the constructor yields an invalid date, which [save()] refuses to
    cast. *)
Definition Expense_updateRelaxationDate (now : Date) (expense : Populated Expense.t)
    : Async unit :=
  match Expense.cycleDate (doc expense) with
  | None => throw CastError
  | Some cycleDate =>
      let nextDate := nextRelaxationDate now cycleDate (Expense.cycleType (doc expense)) in
      let* _ := dbCall in
      fun db =>
        (Ok tt, with_expenses (alter (Expense.set_relaxationDate (Some nextDate))
                                 (_id expense)) db)
  end.

(** ** [utils/cronJobs.js] *)

Definition formatDate (date : Date) : string := toLocaleDateString date.

Definition shouldProcessIncome (income : Income.t) (today : Date) : bool :=
  let dayOfMonth := getDate today in
  if negb (Income.cycleDate income =? dayOfMonth) then false
  else match Income.cycleType income with
       | quarterly =>
           let month := getMonth today in
           bool_decide (month ∈ [0; 3; 6; 9])
       | yearly =>
           match Income.relaxationDate income with
           | None => true
           | Some r => date_leb r today
           end
       | monthly => true
       end.

Definition shouldProcessExpense (expense : Expense.t) (today : Date) : bool :=
  let dayOfMonth := getDate today in
  if negb (bool_decide (Expense.cycleDate expense = Some dayOfMonth)) then false
  else match Expense.cycleType expense with
       | Some quarterly =>
           let month := getMonth today in
           bool_decide (month ∈ [0; 3; 6; 9])
       | Some yearly =>
           match Expense.relaxationDate expense with
           | None => true
           | Some r => date_leb r today
           end
       | _ => true
       end.

Definition processIncomeSource (now : Date) (income : Populated Income.t) : Async Id :=
  tryCatch
    (let* walletId := deref (populatedWallet income) in
     let* userId := deref (populatedUser income) in
     let* transaction :=
       Transaction_create
         (Transaction.Build walletId userId
            ("Added Income for " +:+ Income.name (doc income) +:+ " on " +:+ formatDate now)
            (orElse (Income.description (doc income)) None)
            None now (Income.amount (doc income)) TxIncome false None) in
     let* _ := UserWallet_findByIdAndUpdate_inc walletId (Income.amount (doc income)) in
     let* _ := Income_updateRelaxationDate now income in
     ret transaction)
    (fun error => throw error).

Definition processExpenseSource (now : Date) (expense : Populated Expense.t)
    : Async (option Id) :=
  tryCatch
    (let* walletId := deref (populatedWallet expense) in
     let* wallet := UserWallet_findById walletId in
     match wallet with
     | None => ret None
     | Some wallet =>
         if UserWallet.currentAmount wallet <? Expense.amount (doc expense)
         then ret None
         else
           let* userId := deref (populatedUser expense) in
           let* transaction :=
             Transaction_create
               (Transaction.Build walletId userId
                  ("Added Expense for " +:+ Expense.name (doc expense) +:+ " on "
                     +:+ formatDate now)
                  (orElse (Expense.description (doc expense)) None)
                  None now (Expense.amount (doc expense)) TxExpense false None) in
           let* _ := UserWallet_findByIdAndUpdate_inc walletId
                       (- Expense.amount (doc expense)) in
           let* _ := Expense_updateRelaxationDate now expense in
           ret (Some transaction)
     end)
    (fun error => throw error).

(** One iteration of the [for] loop of the income job: the due check,
    the processing of a due source, and the [catch] around both. *)
Definition incomeIteration (now today : Date) (income : Populated Income.t)
    : DB -> Outcome * DB :=
  fun db =>
    let body : Async Outcome :=
      let shouldProcess := shouldProcessIncome (doc income) today in
      if shouldProcess
      then let* transaction := processIncomeSource now income in
           ret (Processed transaction)
      else ret SkippedNotDue in
    match body db with
    | (Ok o, db') => (o, db')
    | (Throw e, db') => (Failed e, db')
    end.

(** The [for ... of] loop of a job over the sources found, with the
    counter updates of its body. *)
Fixpoint forEachSource {T} (iteration : Populated T -> DB -> Outcome * DB)
    (sources : list (Populated T)) (st : RunStats) (db : DB) : RunStats * DB :=
  match sources with
  | [] => (st, db)
  | source :: rest =>
      let '(o, db') := iteration source db in
      forEachSource iteration rest (record (_id source) o st) db'
  end.

(** The callback of the [checkIncomeSources] cron task, run at clock
    reading [now].  [None] is the outer [catch]: the query itself failed
    and no statistics are logged. *)
Definition checkIncomeSources (now : Date) (db : DB) : option RunStats * DB :=
  let today := setHours0 now in
  match Income_find db with
  | (Ok incomeSources, db') =>
      let '(st, db'') :=
        forEachSource (incomeIteration now today) incomeSources noStats db' in
      (Some st, db'')
  | (Throw _, db') => (None, db')
  end.

(** One iteration of the [for] loop of the expense job. *)
Definition expenseIteration (now today : Date) (expense : Populated Expense.t)
    : DB -> Outcome * DB :=
  fun db =>
    let body : Async Outcome :=
      let shouldProcess := shouldProcessExpense (doc expense) today in
      if shouldProcess
      then let* result := processExpenseSource now expense in
           match result with
           | Some transaction => ret (Processed transaction)
           | None => ret InsufficientFunds
           end
      else ret SkippedNotDue in
    match body db with
    | (Ok o, db') => (o, db')
    | (Throw e, db') => (Failed e, db')
    end.

(** The callback of the [checkExpenseSources] cron task. *)
Definition checkExpenseSources (now : Date) (db : DB) : option RunStats * DB :=
  let today := setHours0 now in
  match Expense_find db with
  | (Ok expenseSources, db') =>
      let '(st, db'') :=
        forEachSource (expenseIteration now today) expenseSources noStats db' in
      (Some st, db'')
  | (Throw _, db') => (None, db')
  end.

(** A recurring source of either kind, as the batch jobs visit it. *)
Inductive Source :=
| IncomeSource (income : Populated Income.t)
| ExpenseSource (expense : Populated Expense.t).

Definition sourceAmount (s : Source) : Z :=
  match s with
  | IncomeSource i => Income.amount (doc i)
  | ExpenseSource e => Expense.amount (doc e)
  end.

Definition sourceName (s : Source) : string :=
  match s with
  | IncomeSource i => Income.name (doc i)
  | ExpenseSource e => Expense.name (doc e)
  end.

Definition sourceWallet (s : Source) : option Id :=
  match s with
  | IncomeSource i => populatedWallet i
  | ExpenseSource e => populatedWallet e
  end.

Definition sourceUser (s : Source) : option Id :=
  match s with
  | IncomeSource i => populatedUser i
  | ExpenseSource e => populatedUser e
  end.

Definition isDue (s : Source) (today : Date) : bool :=
  match s with
  | IncomeSource i => shouldProcessIncome (doc i) today
  | ExpenseSource e => shouldProcessExpense (doc e) today
  end.

(** The loop iteration of the job the source belongs to. *)
Definition processingStep (now : Date) (s : Source) : DB -> Outcome * DB :=
  match s with
  | IncomeSource i => incomeIteration now (setHours0 now) i
  | ExpenseSource e => expenseIteration now (setHours0 now) e
  end.

(** One daily trigger: both tasks are scheduled at 9:00 and started in
    this order; the run is taken sequentially, the income job first. *)
Definition runDaily (now : Date) (db : DB)
    : option RunStats * option RunStats * DB :=
  let '(incomeStats, db1) := checkIncomeSources now db in
  let '(expenseStats, db2) := checkExpenseSources now db1 in
  (incomeStats, expenseStats, db2).

(** ** Routes *)

Inductive Response :=
| Ok200
| Created201
| BadRequest400 (message : string)
| NotFound404
| ServerError500.

(** A wallet document in the handler's memory.  [fields] are the schema
    paths; [balance] is the property of that name on the object, which
    is no schema path: it reads [undefined] on a loaded document and
    [save()] does not store it. *)
Record WalletDocument := MkWalletDocument
  { wallet_id : Id;
    fields : UserWallet.t;
    balance : JsValue }.

Definition hydrate (id : Id) (w : UserWallet.t) : WalletDocument :=
  MkWalletDocument id w JsUndefined.

Definition set_balance (v : JsValue) (w : WalletDocument) : WalletDocument :=
  MkWalletDocument (wallet_id w) (fields w) v.

(** [wallet.save()]: the schema paths of the document are written to the
    stored wallet. *)
Definition UserWallet_save (w : WalletDocument) : Async unit :=
  let* _ := dbCall in
  fun db => (Ok tt, with_wallets (alter (fun _ => fields w) (wallet_id w)) db).

Definition Expense_create (d : Expense.t) : Async Id :=
  if Expense.validate d then
    let* _ := dbCall in
    fun db => let id := fresh (dom (expenses db)) in
              (Ok id, with_expenses (insert id d) db)
  else throw ValidationError.

Definition Expense_findByIdAndDelete (id : Id) : Async unit :=
  let* _ := dbCall in
  fun db => (Ok tt, with_expenses (delete id) db).

(** [Income.create]: the paths the schema does not declare
    ([isFixedIncome], [entryDate]) are dropped, the required paths
    [cycleDate] and [cycleType] must be present, and the validators of
    the declared paths run. *)
Definition Income_create (d : Income.input) : Async Id :=
  match Income.in_cycleDate d, Income.in_cycleType d with
  | Some cycleDate, Some cycleType =>
      if negb (String.eqb (Income.in_name d) "")
         && Income.limits (Income.in_name d) (Income.in_description d)
         && (0 <=? Income.in_amount d)
         && (1 <=? cycleDate) && (cycleDate <=? 31)
      then
        let* _ := dbCall in
        fun db =>
          let id := fresh (dom (incomes db)) in
          (Ok id,
           with_incomes
             (insert id
                (Income.Build (Income.in_userId d) (Income.in_walletId d)
                   (Income.in_name d) (Income.in_description d) (Income.in_amount d)
                   cycleDate cycleType None false None)) db)
      else throw ValidationError
  | _, _ => throw ValidationError
  end.

(** The body of [POST /api/expenses], and of [POST /api/incomes] with
    [isFixed] standing for [isFixedIncome]. *)
Record SourceBody := MkSourceBody
  { b_walletId : Id;
    b_name : string;
    b_description : option string;
    b_amount : Z;
    b_isFixed : option bool;
    b_cycleDate : option Z;
    b_cycleType : option CycleType;
    b_entryDate : option Date }.

(** The sanitizers of the express-validator chain of the two creation
    routes: [name] and [description] are trimmed. *)
Definition sanitizeSourceBody (b : SourceBody) : SourceBody :=
  MkSourceBody (b_walletId b) (trim (b_name b)) (trim <$> b_description b)
    (b_amount b) (b_isFixed b) (b_cycleDate b) (b_cycleType b) (b_entryDate b).

(** The validators of the chain; [notEmpty] sees the trimmed name. *)
Definition validateSourceBody (b : SourceBody) : bool :=
  negb (String.eqb (trim (b_name b)) "") && (0 <=? b_amount b) &&
  (if bool_decide (b_isFixed b = Some false) then true
   else match b_cycleDate b with
        | Some c => (1 <=? c) && (c <=? 31)
        | None => false
        end && bool_decide (is_Some (b_cycleType b))).

(** [POST /api/expenses] for the authenticated user [userId]. *)
Definition createExpense (now : Date) (userId : Id) (b : SourceBody)
    : DB -> Response * DB :=
  fun db =>
    if negb (validateSourceBody b) then (BadRequest400 "Validation failed", db)
    else
      let b := sanitizeSourceBody b in
      let handler : Async Response :=
        let* found := UserWallet_findOne (b_walletId b) userId in
        match found with
        | None => ret NotFound404
        | Some w =>
            let wallet := hydrate (b_walletId b) w in
            let isFixedExpense :=
              match b_isFixed b with Some v => v | None => true end in
            let entryDate :=
              match b_entryDate b with Some d => d | None => now end in
            let expenseData :=
              if isFixedExpense
              then Expense.Build userId (b_walletId b) (b_name b) (b_description b)
                     (b_amount b) true (b_cycleDate b) (b_cycleType b) None
                     None false None
              else Expense.Build userId (b_walletId b) (b_name b) (b_description b)
                     (b_amount b) false None None (Some entryDate)
                     None false None in
            let* expense := Expense_create expenseData in
            if negb isFixedExpense then
              if js_lt (balance wallet) (JsNumber (b_amount b)) then
                let* _ := Expense_findByIdAndDelete expense in
                ret (BadRequest400 "Insufficient wallet balance")
              else
                let* transaction :=
                  Transaction_createFromRequest
                    (Transaction.Build (b_walletId b) userId
                       ("Expense: " +:+ b_name b)
                       (orElse (b_description b)
                          (Some ("Spontaneous expense for " +:+ b_name b)))
                       None entryDate (b_amount b) TxExpense false None) in
                let wallet :=
                  set_balance (js_sub (balance wallet) (JsNumber (b_amount b))) wallet in
                let* _ := UserWallet_save wallet in
                ret Created201
            else ret Created201
        end in
      match handler db with
      | (Ok r, db') => (r, db')
      | (Throw _, db') => (ServerError500, db')
      end.

(** [POST /api/incomes] for the authenticated user [userId]. *)
Definition createIncome (now : Date) (userId : Id) (b : SourceBody)
    : DB -> Response * DB :=
  fun db =>
    if negb (validateSourceBody b) then (BadRequest400 "Validation failed", db)
    else
      let b := sanitizeSourceBody b in
      let handler : Async Response :=
        let* found := UserWallet_findOne (b_walletId b) userId in
        match found with
        | None => ret NotFound404
        | Some w =>
            let wallet := hydrate (b_walletId b) w in
            let isFixedIncome :=
              match b_isFixed b with Some v => v | None => true end in
            let entryDate :=
              match b_entryDate b with Some d => d | None => now end in
            let incomeData :=
              if isFixedIncome
              then Income.BuildInput userId (b_walletId b) (b_name b) (b_description b)
                     (b_amount b) true (b_cycleDate b) (b_cycleType b) None
              else Income.BuildInput userId (b_walletId b) (b_name b) (b_description b)
                     (b_amount b) false None None (Some entryDate) in
            let* income := Income_create incomeData in
            if negb isFixedIncome then
              let* transaction :=
                Transaction_createFromRequest
                  (Transaction.Build (b_walletId b) userId
                     ("Income: " +:+ b_name b)
                     (orElse (b_description b)
                        (Some ("Spontaneous income from " +:+ b_name b)))
                     None entryDate (b_amount b) TxIncome false None) in
              let wallet :=
                set_balance (js_add (balance wallet) (JsNumber (b_amount b))) wallet in
              let* _ := UserWallet_save wallet in
              ret Created201
            else ret Created201
        end in
      match handler db with
      | (Ok r, db') => (r, db')
      | (Throw _, db') => (ServerError500, db')
      end.

(** The body of [POST /api/transactions]; [t_file] is the stored path of
    the uploaded file, if any. *)
Record TransactionBody := MkTransactionBody
  { t_walletId : Id;
    t_title : string;
    t_description : option string;
    t_amount : Z;
    t_transactionType : TransactionType;
    t_transactionDate : option Date;
    t_file : option string }.

(** The sanitizers of the express-validator chain: [title] and
    [description] are trimmed. *)
Definition sanitizeTransactionBody (b : TransactionBody) : TransactionBody :=
  MkTransactionBody (t_walletId b) (trim (t_title b)) (trim <$> t_description b)
    (t_amount b) (t_transactionType b) (t_transactionDate b) (t_file b).

(** The validators of the chain; [notEmpty] sees the trimmed title. *)
Definition validateTransactionBody (b : TransactionBody) : bool :=
  negb (String.eqb (trim (t_title b)) "") && (0 <=? t_amount b).

(** [POST /api/transactions] for the authenticated user [userId]. *)
Definition createTransaction (now : Date) (userId : Id) (b : TransactionBody)
    : DB -> Response * DB :=
  fun db =>
    if negb (validateTransactionBody b) then (BadRequest400 "Validation failed", db)
    else
      let b := sanitizeTransactionBody b in
      let handler : Async Response :=
        let* wallet := UserWallet_findOne (t_walletId b) userId in
        match wallet with
        | None => ret NotFound404
        | Some wallet =>
            let transactionData :=
              Transaction.Build (t_walletId b) userId (t_title b)
                (orElse (t_description b) None) (t_file b)
                (match t_transactionDate b with Some d => d | None => now end)
                (t_amount b) (t_transactionType b) false None in
            let* transaction := Transaction_createFromRequest transactionData in
            match t_transactionType b with
            | TxIncome =>
                let* _ := UserWallet_findByIdAndUpdate_inc (t_walletId b) (t_amount b) in
                ret Created201
            | TxExpense =>
                if UserWallet.currentAmount wallet <? t_amount b then
                  let* _ := Transaction_findByIdAndDelete transaction in
                  ret (BadRequest400 "Insufficient balance in wallet")
                else
                  let* _ := UserWallet_findByIdAndUpdate_inc (t_walletId b)
                              (- t_amount b) in
                  ret Created201
            end
        end in
      match handler db with
      | (Ok r, db') => (r, db')
      | (Throw _, db') => (ServerError500, db')
      end.

(** [DELETE /api/transactions/:id] for the authenticated user [userId]. *)
Definition deleteTransaction (now : Date) (userId : Id) (id : Id)
    : DB -> Response * DB :=
  fun db =>
    let handler : Async Response :=
      let* transaction := Transaction_findOne id userId in
      match transaction with
      | None => ret NotFound404
      | Some transaction =>
          let* _ := Transaction_softDelete now id transaction in
          ret Ok200
      end in
    match handler db with
    | (Ok r, db') => (r, db')
    | (Throw _, db') => (ServerError500, db')
    end.

(** The filter object of the listing routes. *)
Record TransactionQuery := MkTransactionQuery
  { q_userId : Id;
    q_isDeleted : bool;
    q_walletId : option Id;
    q_transactionType : option TransactionType;
    q_gte : option Date;
    q_lte : option Date }.

Definition matchesQuery (q : TransactionQuery) (t : Transaction.t) : bool :=
  bool_decide (Transaction.userId t = q_userId q) &&
  bool_decide (Transaction.isDeleted t = q_isDeleted q) &&
  match q_walletId q with
  | Some w => bool_decide (Transaction.walletId t = w)
  | None => true
  end &&
  match q_transactionType q with
  | Some ty => bool_decide (Transaction.transactionType t = ty)
  | None => true
  end &&
  match q_gte q with
  | Some d => date_leb d (Transaction.transactionDate t)
  | None => true
  end &&
  match q_lte q with
  | Some d => date_leb (Transaction.transactionDate t) d
  | None => true
  end.

(** [{transactionDate: -1}]: newest first. *)
Definition newestFirst (a b : Id * Transaction.t) : Prop :=
  date_leb (Transaction.transactionDate (snd b)) (Transaction.transactionDate (snd a)) = true.

#[global] Instance newestFirst_dec a b : Decision (newestFirst a b).
Proof. unfold newestFirst. apply _. Defined.

(** [Transaction.find(query).sort({transactionDate: -1})], with
    [.limit(n)] when a limit is given. *)
Definition Transaction_find (q : TransactionQuery) (limit : option nat)
    : Async (list (Id * Transaction.t)) :=
  let* _ := dbCall in
  fun db =>
    let found :=
      merge_sort newestFirst
        (filter (fun p => matchesQuery q (snd p) = true)
           (map_to_list (transactions db))) in
    (Ok (match limit with Some n => take n found | None => found end), db).

Record Summary := MkSummary
  { totalIncome : Z;
    totalExpense : Z;
    netAmount : Z }.

(** The [forEach] that accumulates the summary. *)
Definition summarize (l : list (Id * Transaction.t)) : Summary :=
  let totals :=
    fold_left
      (fun (acc : Z * Z) (p : Id * Transaction.t) =>
         match Transaction.transactionType (snd p) with
         | TxIncome => (fst acc + Transaction.amount (snd p), snd acc)
         | TxExpense => (fst acc, snd acc + Transaction.amount (snd p))
         end)
      l (0, 0) in
  MkSummary (fst totals) (snd totals) (fst totals - snd totals).

Inductive ListResponse :=
| Listed (count : nat) (summary : option Summary) (data : list (Id * Transaction.t))
| ListNotFound404
| ListServerError500.

(** [GET /api/transactions] with the optional [walletId],
    [transactionType], [startDate] and [endDate] query parameters. *)
Definition listTransactions (userId : Id) (walletId : option Id)
    (transactionType : option TransactionType) (startDate endDate : option Date)
    : DB -> ListResponse * DB :=
  fun db =>
    let handler : Async ListResponse :=
      let query := MkTransactionQuery userId false walletId transactionType
                     startDate endDate in
      let* allowed :=
        match walletId with
        | Some w =>
            let* wallet := UserWallet_findOne w userId in
            ret (bool_decide (is_Some wallet))
        | None => ret true
        end in
      if negb allowed then ret ListNotFound404
      else
        let* found := Transaction_find query (Some 100%nat) in
        ret (Listed (length found) (Some (summarize found)) found) in
    match handler db with
    | (Ok r, db') => (r, db')
    | (Throw _, db') => (ListServerError500, db')
    end.

(** [GET /api/incomes/transactions] and [GET /api/expenses/transactions]:
    the user's transactions of one type, newest first, without summary. *)
Definition listTransactionsOfType (userId : Id) (ty : TransactionType)
    : DB -> ListResponse * DB :=
  fun db =>
    let handler : Async ListResponse :=
      let* found :=
        Transaction_find (MkTransactionQuery userId false None (Some ty) None None)
          None in
      ret (Listed (length found) None found) in
    match handler db with
    | (Ok r, db') => (r, db')
    | (Throw _, db') => (ListServerError500, db')
    end.

End Backend.

(** No database call fails. *)
Definition noFault : nat -> bool := fun _ => false.

(* ===================================================================== *)
(** * The other routes of the income and expense sources *)
(* ===================================================================== *)

#[global] Instance Income_eq_dec : EqDecision Income.t.
Proof. solve_decision. Defined.

#[global] Instance Expense_eq_dec : EqDecision Expense.t.
Proof. solve_decision. Defined.

(** The assignments of [incomeSchema.methods.softDelete] and of
    [expenseSchema.methods.softDelete]:
    [this.isDeleted = true; this.deletedAt = new Date()]. *)
Definition Income_markDeleted (now : Date) (d : Income.t) : Income.t :=
  Income.Build (Income.userId d) (Income.walletId d) (Income.name d)
    (Income.description d) (Income.amount d) (Income.cycleDate d)
    (Income.cycleType d) (Income.relaxationDate d) true (Some now).

Definition Expense_markDeleted (now : Date) (d : Expense.t) : Expense.t :=
  Expense.Build (Expense.userId d) (Expense.walletId d) (Expense.name d)
    (Expense.description d) (Expense.amount d) (Expense.isFixedExpense d)
    (Expense.cycleDate d) (Expense.cycleType d) (Expense.entryDate d)
    (Expense.relaxationDate d) true (Some now).

(** The body of [PUT /api/incomes/:id] and of [PUT /api/expenses/:id]:
    every field is optional ([isFixed] stands for [isFixedIncome] /
    [isFixedExpense]). *)
Record UpdateBody := MkUpdateBody
  { u_name : option string;
    u_description : option string;
    u_amount : option Z;
    u_isFixed : option bool;
    u_cycleDate : option Z;
    u_cycleType : option CycleType;
    u_entryDate : option Date }.

(** The sanitizers of the express-validator chain of the two update
    routes: a [name] and a [description] that the body gives are
    trimmed. *)
Definition sanitizeUpdateBody (b : UpdateBody) : UpdateBody :=
  MkUpdateBody (trim <$> u_name b) (trim <$> u_description b) (u_amount b)
    (u_isFixed b) (u_cycleDate b) (u_cycleType b) (u_entryDate b).

(** The validators of the chain; [notEmpty] sees the trimmed name. *)
Definition validateUpdateBody (b : UpdateBody) : bool :=
  match u_name b with Some n => negb (String.eqb (trim n) "") | None => true end &&
  match u_amount b with Some a => 0 <=? a | None => true end &&
  match u_cycleDate b with Some c => (1 <=? c) && (c <=? 31) | None => true end.

(** The [forEach] over [allowedUpdates] of [PUT /api/incomes/:id]:
    [income[field] = req.body[field]] for each field the body defines.
    [isFixedIncome] and [entryDate] are no paths of the income schema, so
    assigning them leaves the document's paths as they are. *)
Definition applyIncomeUpdate (b : UpdateBody) (d : Income.t) : Income.t :=
  Income.Build (Income.userId d) (Income.walletId d)
    (default (Income.name d) (u_name b))
    (match u_description b with Some s => Some s | None => Income.description d end)
    (default (Income.amount d) (u_amount b))
    (default (Income.cycleDate d) (u_cycleDate b))
    (default (Income.cycleType d) (u_cycleType b))
    (Income.relaxationDate d) (Income.isDeleted d) (Income.deletedAt d).

(** The [forEach] over [allowedUpdates] of [PUT /api/expenses/:id]. *)
Definition applyExpenseUpdate (b : UpdateBody) (d : Expense.t) : Expense.t :=
  Expense.Build (Expense.userId d) (Expense.walletId d)
    (default (Expense.name d) (u_name b))
    (match u_description b with Some s => Some s | None => Expense.description d end)
    (default (Expense.amount d) (u_amount b))
    (default (Expense.isFixedExpense d) (u_isFixed b))
    (match u_cycleDate b with Some c => Some c | None => Expense.cycleDate d end)
    (match u_cycleType b with Some c => Some c | None => Expense.cycleType d end)
    (match u_entryDate b with Some e => Some e | None => Expense.entryDate d end)
    (Expense.relaxationDate d) (Expense.isDeleted d) (Expense.deletedAt d).

(** The [required] validators that [save()] runs on an income and on an
    expense: a name, and for an expense the cycle of a fixed one and the
    entry date of a spontaneous one. *)
Definition Income_required (d : Income.t) : bool :=
  negb (String.eqb (Income.name d) "").

Definition Expense_required (d : Expense.t) : bool :=
  negb (String.eqb (Expense.name d) "") &&
  (if Expense.isFixedExpense d
   then bool_decide (is_Some (Expense.cycleDate d)) &&
        bool_decide (is_Some (Expense.cycleType d))
   else bool_decide (is_Some (Expense.entryDate d))).

(** The other validators of [save()] on the document [d] loaded as
    [loaded] ([maxlength] of [name] and of [description], [min] of
    [amount], [min] and [max] of [cycleDate]), evaluated on the paths
    whose value the assignments changed.  A path that was not changed
    holds the value that the collection stored: documents enter the
    collections through the schema only, so that value passed the
    validators when it was written and passes them again. *)
Definition Income_assigned (loaded d : Income.t) : bool :=
  (bool_decide (Income.name d = Income.name loaded)
   || (String.length (Income.name d) <=? 100)%nat) &&
  (bool_decide (Income.description d = Income.description loaded)
   || match Income.description d with
      | Some s => (String.length s <=? 500)%nat
      | None => true
      end) &&
  (bool_decide (Income.amount d = Income.amount loaded) || (0 <=? Income.amount d)) &&
  (bool_decide (Income.cycleDate d = Income.cycleDate loaded)
   || (1 <=? Income.cycleDate d) && (Income.cycleDate d <=? 31)).

Definition Expense_assigned (loaded d : Expense.t) : bool :=
  (bool_decide (Expense.name d = Expense.name loaded)
   || (String.length (Expense.name d) <=? 100)%nat) &&
  (bool_decide (Expense.description d = Expense.description loaded)
   || match Expense.description d with
      | Some s => (String.length s <=? 500)%nat
      | None => true
      end) &&
  (bool_decide (Expense.amount d = Expense.amount loaded) || (0 <=? Expense.amount d)) &&
  (bool_decide (Expense.cycleDate d = Expense.cycleDate loaded)
   || match Expense.cycleDate d with
      | Some c => (1 <=? c) && (c <=? 31)
      | None => true
      end).

Section SourceRoutes.

Variable fault : nat -> bool.

(** [Income.findOne({_id, userId, isDeleted: false})] *)
Definition Income_findOne (id user : Id) : Async (option Income.t) :=
  let* _ := dbCall fault in
  fun db =>
    (Ok (match incomes db !! id with
         | Some d =>
             if bool_decide (Income.userId d = user) && negb (Income.isDeleted d)
             then Some d else None
         | None => None
         end), db).

(** [Expense.findOne({_id, userId, isDeleted: false})] *)
Definition Expense_findOne (id user : Id) : Async (option Expense.t) :=
  let* _ := dbCall fault in
  fun db =>
    (Ok (match expenses db !! id with
         | Some d =>
             if bool_decide (Expense.userId d = user) && negb (Expense.isDeleted d)
             then Some d else None
         | None => None
         end), db).

(** [income.save()] of the document loaded as [loaded] under [id],
    after the assignments that made it [d]: the validators run, then
    one database call stores the document (for a document that the
    assignments did not change the call only looks it up). *)
Definition Income_save (id : Id) (loaded d : Income.t) : Async unit :=
  if Income_required d && Income_assigned loaded d then
    let* _ := dbCall fault in
    fun db => (Ok tt, with_incomes (alter (fun _ => d) id) db)
  else throw ValidationError.

Definition Expense_save (id : Id) (loaded d : Expense.t) : Async unit :=
  if Expense_required d && Expense_assigned loaded d then
    let* _ := dbCall fault in
    fun db => (Ok tt, with_expenses (alter (fun _ => d) id) db)
  else throw ValidationError.

(** [incomeSchema.methods.softDelete] and
    [expenseSchema.methods.softDelete] on the document loaded under
    [id]. *)
Definition Income_softDelete (now : Date) (id : Id) (d : Income.t) : Async unit :=
  Income_save id d (Income_markDeleted now d).

Definition Expense_softDelete (now : Date) (id : Id) (d : Expense.t) : Async unit :=
  Expense_save id d (Expense_markDeleted now d).

(** [DELETE /api/incomes/:id] for the authenticated user [userId]. *)
Definition deleteIncome (now : Date) (userId id : Id) : DB -> Response * DB :=
  fun db =>
    let handler : Async Response :=
      let* income := Income_findOne id userId in
      match income with
      | None => ret NotFound404
      | Some income =>
          let* _ := Income_softDelete now id income in
          ret Ok200
      end in
    match handler db with
    | (Ok r, db') => (r, db')
    | (Throw _, db') => (ServerError500, db')
    end.

(** [DELETE /api/expenses/:id] for the authenticated user [userId]. *)
Definition deleteExpense (now : Date) (userId id : Id) : DB -> Response * DB :=
  fun db =>
    let handler : Async Response :=
      let* expense := Expense_findOne id userId in
      match expense with
      | None => ret NotFound404
      | Some expense =>
          let* _ := Expense_softDelete now id expense in
          ret Ok200
      end in
    match handler db with
    | (Ok r, db') => (r, db')
    | (Throw _, db') => (ServerError500, db')
    end.

(** [PUT /api/incomes/:id] for the authenticated user [userId]. *)
Definition updateIncome (userId id : Id) (b : UpdateBody) : DB -> Response * DB :=
  fun db =>
    if negb (validateUpdateBody b) then (BadRequest400 "Validation failed", db)
    else
      let b := sanitizeUpdateBody b in
      let handler : Async Response :=
        let* income := Income_findOne id userId in
        match income with
        | None => ret NotFound404
        | Some income =>
            let* _ := Income_save id income (applyIncomeUpdate b income) in
            ret Ok200
        end in
      match handler db with
      | (Ok r, db') => (r, db')
      | (Throw _, db') => (ServerError500, db')
      end.

(** [PUT /api/expenses/:id] for the authenticated user [userId]. *)
Definition updateExpense (userId id : Id) (b : UpdateBody) : DB -> Response * DB :=
  fun db =>
    if negb (validateUpdateBody b) then (BadRequest400 "Validation failed", db)
    else
      let b := sanitizeUpdateBody b in
      let handler : Async Response :=
        let* expense := Expense_findOne id userId in
        match expense with
        | None => ret NotFound404
        | Some expense =>
            let* _ := Expense_save id expense (applyExpenseUpdate b expense) in
            ret Ok200
        end in
      match handler db with
      | (Ok r, db') => (r, db')
      | (Throw _, db') => (ServerError500, db')
      end.

(** [GET /api/transactions/:id] for the authenticated user [userId]:
    the transaction, or 404, or 500. *)
Definition getTransaction (userId id : Id) : DB -> Result (option Transaction.t) * DB :=
  Transaction_findOne fault id userId.

End SourceRoutes.

(* ===================================================================== *)
(** * The permission checks of [middleware/permissions.js] *)
(* ===================================================================== *)

(** The character [':']. *)
Definition colon : Ascii.ascii :=
  Eval cbv in match ":"%string with String c _ => c | EmptyString => Ascii.zero end.

Module Permission.

(** The paths of the permission schema that the checks read. *)
Record t := Build
  { resource : string;
    action : string;
    isActive : bool }.

End Permission.

Module Role.

(** A role as the checks see it: with its permissions populated. *)
Record t := Build
  { permissions : list Permission.t;
    isActive : bool }.

End Role.

Module Permissions.

(** What a check does with the request: it calls [next()], or answers
    401, 403 with a message, or 500. *)
Inductive Verdict :=
| Next
| Denied401
| Denied403 (message : string)
| Failed500.

(** [s.split(':')] *)
Fixpoint splitColon (s : string) : list string :=
  match s with
  | EmptyString => [EmptyString]
  | String c s' =>
      if Ascii.eqb c colon then EmptyString :: splitColon s'
      else match splitColon s' with
           | part :: parts => String c part :: parts
           | [] => [String c EmptyString]
           end
  end.

(** [set.add(x)] and [set.has(x)] on a [Set] of strings, kept in
    insertion order as [Array.from] reads it. *)
Definition setAdd (x : string) (set : list string) : list string :=
  if bool_decide (x ∈ set) then set else set ++ [x].

Definition setHas (x : string) (set : list string) : bool :=
  bool_decide (x ∈ set).

(** The template [`${permission.resource}:${permission.action}`]. *)
Definition fullPermission (p : Permission.t) : string :=
  Permission.resource p +:+ ":" +:+ Permission.action p.

(** The loop that collects the active permissions of the given roles
    into the set. *)
Definition collect (set : list string) (role : Role.t) : list string :=
  fold_left
    (fun set permission =>
       if Permission.isActive permission then setAdd (fullPermission permission) set
       else set)
    (Role.permissions role) set.

Section Middleware.

(** The authenticated user of the request, and the query of every check,
    [Role.find({_id: {$in: req.user.roles}, isActive: true})
     .populate('permissions')], as it resolves or rejects for that
    user. *)
Variable User : Type.
Variable Role_find : User -> Result (list Role.t).

(** The frame shared by the four checks: 401 without [req.user], 500
    when the query rejects, and otherwise [next()] or 403 as the test on
    the roles decides. *)
Definition check (user : option User) (test : list Role.t -> bool)
    (message : list Role.t -> string) : Verdict :=
  match user with
  | None => Denied401
  | Some u =>
      match Role_find u with
      | Throw _ => Failed500
      | Ok userRoles =>
          if test userRoles then Next else Denied403 (message userRoles)
      end
  end.

(** [hasPermission(resource, action)] *)
Definition hasPermission (resource action : string) (user : option User) : Verdict :=
  check user
    (fun userRoles =>
       existsb
         (fun role =>
            existsb
              (fun permission =>
                 String.eqb (Permission.resource permission) resource &&
                 String.eqb (Permission.action permission) action &&
                 Permission.isActive permission)
              (Role.permissions role))
         userRoles)
    (fun _ => "Insufficient permissions. Required: " +:+ resource +:+ ":" +:+ action).

(** The test of [hasAnyPermission] on one permission and one required
    string: [const [resource, action] = requiredPermission.split(':')];
    an [action] that the string does not give is [undefined] and equals
    no action. *)
Definition requiredMatches (permission : Permission.t) (requiredPermission : string)
    : bool :=
  match splitColon requiredPermission with
  | resource :: action :: _ =>
      String.eqb (Permission.resource permission) resource &&
      String.eqb (Permission.action permission) action &&
      Permission.isActive permission
  | _ => false
  end.

(** [hasAnyPermission(permissions)] *)
Definition hasAnyPermission (permissions : list string) (user : option User) : Verdict :=
  check user
    (fun userRoles =>
       existsb
         (fun role =>
            existsb
              (fun permission => existsb (requiredMatches permission) permissions)
              (Role.permissions role))
         userRoles)
    (fun _ =>
       "Insufficient permissions. Required one of: " +:+ String.concat ", " permissions).

(** [hasAllPermissions(permissions)] *)
Definition hasAllPermissions (permissions : list string) (user : option User) : Verdict :=
  check user
    (fun userRoles =>
       let userPermissions := fold_left collect userRoles [] in
       forallb (fun permission => setHas permission userPermissions) permissions)
    (fun userRoles =>
       let userPermissions := fold_left collect userRoles [] in
       "Insufficient permissions. Missing: " +:+
       String.concat ", "
         (List.filter (fun permission => negb (setHas permission userPermissions))
            permissions)).

(** [hasResourcePermission(resource)] *)
Definition hasResourcePermission (resource : string) (user : option User) : Verdict :=
  check user
    (fun userRoles =>
       existsb
         (fun role =>
            existsb
              (fun permission =>
                 String.eqb (Permission.resource permission) resource &&
                 Permission.isActive permission)
              (Role.permissions role))
         userRoles)
    (fun _ => "No permissions for resource: " +:+ resource).

End Middleware.

(** [getUserPermissions(userId)] on what
    [User.findById(userId).populate({path: 'roles', populate: {path:
    'permissions'}})] resolves to (the populated roles of the user, or
    [null]) or rejects with. *)
Definition getUserPermissions (found : Result (option (list Role.t))) : list string :=
  match found with
  | Throw _ => []
  | Ok None => []
  | Ok (Some roles) =>
      fold_left
        (fun set role => if Role.isActive role then collect set role else set)
        roles []
  end.

End Permissions.

(* ===================================================================== *)
(** * Predicates used to state the properties *)
(* ===================================================================== *)



(** "Income" or "Expense", the word in the generated titles. *)
Definition kindWord (s : Source) : string :=
  match s with IncomeSource _ => "Income" | ExpenseSource _ => "Expense" end.

(** The signed effect of the source on its wallet. *)
Definition signedAmount (s : Source) : Z :=
  match s with
  | IncomeSource i => Income.amount (doc i)
  | ExpenseSource e => - Expense.amount (doc e)
  end.

(** Two transactions that agree on every path other than [isDeleted] and
    [deletedAt]. *)
Definition sameExceptDeletion (t t' : Transaction.t) : Prop :=
  Transaction.walletId t' = Transaction.walletId t /\
  Transaction.userId t' = Transaction.userId t /\
  Transaction.title t' = Transaction.title t /\
  Transaction.description t' = Transaction.description t /\
  Transaction.file t' = Transaction.file t /\
  Transaction.transactionDate t' = Transaction.transactionDate t /\
  Transaction.amount t' = Transaction.amount t /\
  Transaction.transactionType t' = Transaction.transactionType t.

(** The number of logged outcomes of a given kind. *)
Definition countWhere (f : Outcome -> bool) (l : list (Id * Outcome)) : nat :=
  length (filter (fun x => f (snd x) = true) l).

Definition isProcessed (o : Outcome) : bool :=
  match o with Processed _ => true | _ => false end.
Definition isSkipped (o : Outcome) : bool :=
  match o with SkippedNotDue => true | _ => false end.
Definition isInsufficient (o : Outcome) : bool :=
  match o with InsufficientFunds => true | _ => false end.
Definition isFailed (o : Outcome) : bool :=
  match o with Failed _ => true | _ => false end.

(** The counters of a run agree with its log. *)
Definition countersAgree (st : RunStats) : Prop :=
  processedCount st = countWhere isProcessed (outcomes st) /\
  skippedCount st = countWhere isSkipped (outcomes st) /\
  insufficientFundsCount st = countWhere isInsufficient (outcomes st).

(** The log entry [r] belongs to source [p], and records a skip exactly
    when the source was not due: a due source went into processing. *)
Definition attempted {T} (due : Populated T -> bool) (p : Populated T)
    (r : Id * Outcome) : Prop :=
  fst r = _id p /\
  (if due p then snd r <> SkippedNotDue else snd r = SkippedNotDue).

(** Whatever the outcome of [source], the loop over
    [before ++ source :: after] runs the iteration of [source] on the
    database left by [before] and goes on with [after] to the end. *)
Definition loopGoesOn {T} (iteration : Populated T -> DB -> Outcome * DB)
    (sources : list (Populated T)) (db : DB) (st : RunStats) (db' : DB) : Prop :=
  forall before source after,
    sources = before ++ source :: after ->
    exists st1 db1 o db2,
      forEachSource iteration before noStats db = (st1, db1) /\
      iteration source db1 = (o, db2) /\
      forEachSource iteration after (record (_id source) o st1) db2 = (st, db').

(** The stored document of a recurring income, and of a recurring
    expense, after its processing at clock reading [now]. *)
Definition incomeProcessed (now : Date) (income : Income.t) : Income.t :=
  Income.set_relaxationDate
    (Some (nextRelaxationDate now (Income.cycleDate income)
             (Some (Income.cycleType income)))) income.

Definition expenseProcessed (now : Date) (expense : Expense.t) : Expense.t :=
  match Expense.cycleDate expense with
  | Some cycleDate =>
      Expense.set_relaxationDate
        (Some (nextRelaxationDate now cycleDate (Expense.cycleType expense))) expense
  | None => expense
  end.

(** What processing writes, as an update of the stored document. *)
Definition incomeUpdate (now : Date) (p : Populated Income.t) : Income.t -> Income.t :=
  Income.set_relaxationDate
    (Some (nextRelaxationDate now (Income.cycleDate (doc p))
             (Some (Income.cycleType (doc p))))).

Definition expenseUpdate (now : Date) (p : Populated Expense.t)
    : Expense.t -> Expense.t :=
  match Expense.cycleDate (doc p) with
  | Some cycleDate =>
      Expense.set_relaxationDate
        (Some (nextRelaxationDate now cycleDate (Expense.cycleType (doc p))))
  | None => fun e => e
  end.


(** The log of a job's run; empty when the job's query failed. *)
Definition outcomesOf (run : option RunStats) : list (Id * Outcome) :=
  match run with Some st => outcomes st | None => [] end.

(** Two daily runs in a row, at clock readings [now1] and [now2], with no
    failing call and nothing else touching the database in between: every
    selected source that the first run logged as processed is logged as
    skipped, not due, by the second run. *)
Definition rerunSkipsProcessed (selectIncome : Income.t -> Prop)
    (selectExpense : Expense.t -> Prop) (now1 now2 : Date) (db : DB) : Prop :=
  let run1 := runDaily noFault now1 db in
  let run2 := runDaily noFault now2 (snd run1) in
  (forall id income tx,
     incomes db !! id = Some income ->
     selectIncome income ->
     (id, Processed tx) ∈ outcomesOf (fst (fst run1)) ->
     (id, SkippedNotDue) ∈ outcomesOf (fst (fst run2))) /\
  (forall id expense tx,
     expenses db !! id = Some expense ->
     selectExpense expense ->
     (id, Processed tx) ∈ outcomesOf (snd (fst run1)) ->
     (id, SkippedNotDue) ∈ outcomesOf (snd (fst run2))).



(** The two databases hold the same documents (they may differ in the
    number of calls counted). *)
Definition sameData (db db' : DB) : Prop :=
  wallets db' = wallets db /\
  transactions db' = transactions db /\
  incomes db' = incomes db /\
  expenses db' = expenses db /\
  users db' = users db.

(** What [findOne({_id, userId, isDeleted: false})] finds for the user in
    each collection. *)
Definition walletOf (userId id : Id) (db : DB) : option UserWallet.t :=
  match wallets db !! id with
  | Some w =>
      if bool_decide (UserWallet.userId w = userId) && negb (UserWallet.isDeleted w)
      then Some w else None
  | None => None
  end.

Definition transactionOf (userId id : Id) (db : DB) : option Transaction.t :=
  match transactions db !! id with
  | Some t =>
      if bool_decide (Transaction.userId t = userId) && negb (Transaction.isDeleted t)
      then Some t else None
  | None => None
  end.

Definition incomeOf (userId id : Id) (db : DB) : option Income.t :=
  match incomes db !! id with
  | Some d =>
      if bool_decide (Income.userId d = userId) && negb (Income.isDeleted d)
      then Some d else None
  | None => None
  end.

Definition expenseOf (userId id : Id) (db : DB) : option Expense.t :=
  match expenses db !! id with
  | Some d =>
      if bool_decide (Expense.userId d = userId) && negb (Expense.isDeleted d)
      then Some d else None
  | None => None
  end.



(** The string has no colon. *)
Fixpoint noColon (s : string) : bool :=
  match s with
  | EmptyString => true
  | String c s' => negb (Ascii.eqb c colon) && noColon s'
  end.

(** The string form [resource:action] of a required permission. *)
Definition permissionString (required : string * string) : string :=
  fst required +:+ ":" +:+ snd required.

(** One of the roles holds an active permission for the action on the
    resource. *)
Definition grants (roles : list Role.t) (resource action : string) : Prop :=
  exists role permission,
    role ∈ roles /\ permission ∈ Role.permissions role /\
    Permission.resource permission = resource /\
    Permission.action permission = action /\
    Permission.isActive permission = true.

(** The actions of the permissions of the roles have no colon (the
    schema admits only the words of its [enum]). *)
Definition actionsPlain (roles : list Role.t) : Prop :=
  forall role permission,
    role ∈ roles -> permission ∈ Role.permissions role ->
    noColon (Permission.action permission) = true.

(** The strings of a request fit the limits of the schema paths that
    store them, once trimmed: a title of at most 200 characters, a
    description of at most 500, a name of at most 100 characters. *)
Definition descriptionFits (description : option string) : Prop :=
  forall d, description = Some d -> (String.length (trim d) <= 500)%nat.

Definition transactionTextFits (b : TransactionBody) : Prop :=
  (String.length (trim (t_title b)) <= 200)%nat /\
  descriptionFits (t_description b).

(** The path under which the upload middleware stored the file of the
    request, if there is one, has one of the extensions of the schema
    (the middleware takes PDF, JPG and PNG files only). *)
Definition uploadAllowed (b : TransactionBody) : Prop :=
  forall f, t_file b = Some f -> Transaction.fileAllowed f = true.

Definition sourceTextFits (b : SourceBody) : Prop :=
  (String.length (trim (b_name b)) <= 100)%nat /\
  descriptionFits (b_description b).

Definition updateTextFits (b : UpdateBody) : Prop :=
  (forall n, u_name b = Some n -> (String.length (trim n) <= 100)%nat) /\
  descriptionFits (u_description b).

(** The expense document with its [isFixedExpense] flag set to [b]. *)
Definition withFixed (b : bool) (e : Expense.t) : Expense.t :=
  Expense.Build (Expense.userId e) (Expense.walletId e) (Expense.name e)
    (Expense.description e) (Expense.amount e) b (Expense.cycleDate e)
    (Expense.cycleType e) (Expense.entryDate e) (Expense.relaxationDate e)
    (Expense.isDeleted e) (Expense.deletedAt e).

(* ===================================================================== *)
(** * Sample data *)
(* ===================================================================== *)

Module Sample.

(** 1 March 2025, 9:00, and 5 March 2025, 9:00. *)
Definition march1 : Date := MkDate 2025 2 1 32400000.
Definition march5 : Date := MkDate 2025 2 5 32400000.

(** User 1 owns wallet 7. *)
Definition wallet (currentAmount : Z) : UserWallet.t :=
  UserWallet.Build 1%nat 0 currentAmount false.

Definition salary : Income.t :=
  Income.Build 1%nat 7%nat "Salary" None 3000 5 monthly None false None.

Definition dividend : Income.t :=
  Income.Build 1%nat 7%nat "Dividend" None 700 5 yearly None false None.

Definition rent : Expense.t :=
  Expense.Build 1%nat 7%nat "Rent" None 5000 true (Some 1) (Some monthly)
    None None false None.

Definition insurance : Expense.t :=
  Expense.Build 1%nat 7%nat "Insurance" None 400 true (Some 5) (Some yearly)
    None None false None.

(** A database with one wallet of the given balance and nothing else. *)
Definition walletOnly (currentAmount : Z) : DB :=
  MkDB {[7%nat := wallet currentAmount]} ∅ ∅ ∅ {[1%nat]} 0.

(** Balance 10000, the monthly salary and the yearly dividend due on the
    5th, the yearly insurance due on the 5th. *)
Definition household : DB :=
  MkDB {[7%nat := wallet 10000]} ∅
       {[20%nat := salary; 21%nat := dividend]}
       {[31%nat := insurance]} {[1%nat]} 0.

(** 5 April 2025, 9:00, and a quarterly bonus due on the 5th. *)
Definition april5 : Date := MkDate 2025 3 5 32400000.

Definition bonus : Income.t :=
  Income.Build 1%nat 7%nat "Bonus" None 900 5 quarterly None false None.

Definition investor : DB :=
  MkDB {[7%nat := wallet 0]} ∅ {[22%nat := bonus]} ∅ {[1%nat]} 0.

(** Balance 1000 and the monthly rent of 5000 due on the 1st. *)
Definition tenant : DB :=
  MkDB {[7%nat := wallet 1000]} ∅ ∅ {[30%nat := rent]} {[1%nat]} 0.

(** Wallet 7 with balance 10000 and one stored expense transaction. *)
Definition coffee : Transaction.t :=
  Transaction.Build 7%nat 1%nat "Coffee" None None march1 250 TxExpense false None.

Definition ledger : DB :=
  MkDB {[7%nat := wallet 10000]} {[0%nat := coffee]} ∅ ∅ {[1%nat]} 0.

Definition populated {T} (id : Id) (d : T) : Populated T :=
  MkPopulated id d (Some 7%nat) (Some 1%nat).

(** A spontaneous expense of the given amount on wallet 7. *)
Definition taxi (amount : Z) : SourceBody :=
  MkSourceBody 7%nat "Taxi" None amount (Some false) None None None.

(** A spontaneous income of the given amount on wallet 7. *)
Definition gift (amount : Z) : SourceBody :=
  MkSourceBody 7%nat "Gift" None amount (Some false) None None None.

(** An expense transaction entered by hand on wallet 7. *)
Definition groceries (amount : Z) : TransactionBody :=
  MkTransactionBody 7%nat "Groceries" None amount TxExpense None None.

End Sample.

Module Scenario.

(** A spontaneous expense as [POST /api/expenses] stores it: no cycle,
    an entry date. *)
Definition taxiRide : Expense.t :=
  Expense.Build 1%nat 7%nat "Taxi" None 40 false None None
    (Some Sample.march1) None false None.

(** Balance 10000, the coffee transaction, the monthly salary due on the
    5th, the yearly insurance due on the 5th and the taxi ride. *)
Definition commuter : DB :=
  MkDB {[7%nat := Sample.wallet 10000]} {[0%nat := Sample.coffee]}
       {[20%nat := Sample.salary]}
       {[31%nat := Sample.insurance; 32%nat := taxiRide]} {[1%nat]} 0.

(** An empty wallet and a yearly bonus of 1200 on the 31st. *)
Definition yearEndBonus : Income.t :=
  Income.Build 1%nat 7%nat "Year-end bonus" None 1200 31 yearly None false None.

Definition yearEnd : DB :=
  MkDB {[7%nat := Sample.wallet 0]} ∅ {[23%nat := yearEndBonus]} ∅ {[1%nat]} 0.

(** The body of a new monthly income of 3000 on the 5th, on wallet 7. *)
Definition pay : SourceBody :=
  MkSourceBody 7%nat "Pay" None 3000 None (Some 5) (Some monthly) None.

(** A raise: the amount of a source set to 3500. *)
Definition raise : UpdateBody :=
  MkUpdateBody None None (Some 3500) None None None None.

End Scenario.

Module Staff.

Definition readUsers : Permission.t := Permission.Build "users" "read" true.
Definition deleteUsers : Permission.t := Permission.Build "users" "delete" false.
Definition readRoles : Permission.t := Permission.Build "roles" "read" true.

Definition clerk : Role.t := Role.Build [readUsers; deleteUsers] true.
Definition auditor : Role.t := Role.Build [readUsers; readRoles] true.
Definition retired : Role.t := Role.Build [readRoles] false.

(** The role query of the one user of the sample: the two active
    roles. *)
Definition roleQuery (u : unit) : Result (list Role.t) := Ok [clerk; auditor].

End Staff.
(** ** The order on dates *)

Lemma date_ltb_iff a b : date_ltb a b = true <-> date_lt a b.
Proof.
  unfold date_ltb, date_lt.
  rewrite !orb_true_iff, !andb_true_iff, !orb_true_iff, !andb_true_iff.
  rewrite !orb_true_iff, !andb_true_iff, !Z.ltb_lt, !Z.eqb_eq. tauto.
Qed.

Lemma date_ltb_false_iff a b : date_ltb a b = false <-> ~ date_lt a b.
Proof. rewrite <- date_ltb_iff. destruct (date_ltb a b); intuition congruence. Qed.

Lemma date_leb_iff a b : date_leb a b = true <-> ~ date_lt b a.
Proof. unfold date_leb. rewrite negb_true_iff. apply date_ltb_false_iff. Qed.

Lemma date_leb_false_iff a b : date_leb a b = false <-> date_lt b a.
Proof. unfold date_leb. rewrite negb_false_iff. apply date_ltb_iff. Qed.

(** Turns a goal and hypotheses about [date_ltb] / [date_leb] into linear
    arithmetic over the fields. *)
Ltac date_cases :=
  rewrite ?date_ltb_iff, ?date_ltb_false_iff, ?date_leb_iff, ?date_leb_false_iff in *;
  unfold date_lt in *; simpl in *; lia.

(** ** Facts about the [Date] constructor *)

Lemma wf_dateb_true d : wf_dateb d = true -> wf_date d.
Proof.
  unfold wf_dateb, wf_date. rewrite !andb_true_iff.
  rewrite !Z.leb_le, Z.ltb_lt. tauto.
Qed.

Lemma daysInMonth_bounds y m : 28 <= daysInMonth y m <= 31.
Proof.
  unfold daysInMonth.
  repeat match goal with |- context [if ?b then _ else _] => destruct b end; lia.
Qed.

Lemma rollForward_from_first fuel : forall y m d,
  0 <= m <= 11 -> 1 <= d ->
  let r := rollForward fuel y m d in
  msOfDay r = 0 /\ 0 <= getMonth r <= 11 /\ 1 <= getDate r /\
  (y < getFullYear r \/ (y = getFullYear r /\ m <= getMonth r)).
Proof.
  induction fuel as [|fuel IH]; intros y m d Hm Hd; simpl.
  - lia.
  - destruct (Z.leb_spec d (daysInMonth y m)) as [Hle|Hgt]; simpl; [lia|].
    pose proof (daysInMonth_bounds y m) as Hb.
    unfold nextMonth. destruct (Z.eqb_spec m 11) as [->|Hne].
    + specialize (IH (y + 1) 0 (d - daysInMonth y 11)). simpl in IH.
      destruct IH as (H1 & H2 & H3 & H4); lia.
    + specialize (IH y (m + 1) (d - daysInMonth y m)). simpl in IH.
      destruct IH as (H1 & H2 & H3 & H4); lia.
Qed.

(** For a day of 1 or more, [new Date(y, m, d)] is never before the first
    of the month it names. *)
Lemma newDate_from_first y m d :
  1 <= d ->
  let r := newDate y m d in
  msOfDay r = 0 /\ 1 <= getDate r /\
  (y + m / 12 < getFullYear r \/
   (y + m / 12 = getFullYear r /\ m mod 12 <= getMonth r)).
Proof.
  intros Hd. unfold newDate.
  destruct (Z.leb_spec 1 d); [|lia].
  pose proof (Z.mod_pos_bound m 12 ltac:(lia)) as Hm.
  pose proof (rollForward_from_first (Z.to_nat d) (y + m / 12) (m mod 12) d
                ltac:(lia) Hd) as H'.
  simpl in H'. simpl. tauto.
Qed.

(** In a month that has the day, the constructor does not roll over. *)
Lemma newDate_exact y m d :
  0 <= m <= 11 -> 1 <= d <= daysInMonth y m ->
  newDate y m d = MkDate y m d 0.
Proof.
  intros Hm Hd. unfold newDate.
  rewrite Z.div_small, Z.mod_small, Z.add_0_r by lia.
  destruct (Z.leb_spec 1 d); [|lia].
  destruct (Z.to_nat d) eqn:E; [lia|]. simpl.
  destruct (Z.leb_spec d (daysInMonth y m)); [reflexivity|lia].
Qed.

Lemma newDate_january y d :
  1 <= d <= 31 -> newDate y 0 d = MkDate y 0 d 0.
Proof. intros Hd. apply newDate_exact; [lia|]. exact Hd. Qed.

(** 31 February 2024 is 2 March, month 12 is January of the next year,
    day 0 is the last day of the previous month. *)
Example newDate_day_overflow : newDate 2024 1 31 = MkDate 2024 2 2 0.
Proof. reflexivity. Qed.

Example newDate_month_overflow : newDate 2025 12 5 = MkDate 2026 0 5 0.
Proof. reflexivity. Qed.

Example newDate_day_underflow : newDate 2025 2 0 = MkDate 2025 1 28 0.
Proof. reflexivity. Qed.

(** The constructor applied to the first of the following month, or
    later, is past every instant of the current month. *)
Lemma newDate_later_month now y m d :
  wf_date now -> 1 <= d ->
  getFullYear now < y + m / 12 \/
  (getFullYear now = y + m / 12 /\ getMonth now < m mod 12) ->
  date_ltb now (newDate y m d) = true.
Proof.
  intros (Hm & Hday & Hms) Hd Hlater.
  pose proof (newDate_from_first y m d Hd) as H. simpl in H.
  destruct H as (H1 & H2 & H3).
  destruct now as [ny nm nd nms]; simpl in *.
  destruct (newDate y m d) as [ry rm rd rms]; simpl in *.
  date_cases.
Qed.

(* ===================================================================== *)
(** * Properties of the next-occurrence computation *)
(* ===================================================================== *)

(** Whatever the cycle type, the date computed for a cycle day of 1 or
    more is strictly after the clock reading. *)
Lemma nextRelaxationDate_after_now :
  forall (now : Date) (cycleDate : Z) (cycleType : CycleType),
    wf_date now ->
    1 <= cycleDate <= 31 ->
    date_ltb now (nextRelaxationDate now cycleDate (Some cycleType)) = true.
Proof.
  intros now d ct Hwf Hd.
  assert (Hflip : forall x, date_leb x now = false -> date_ltb now x = true).
  { intros x Hx. unfold date_leb in Hx. now apply negb_false_iff in Hx. }
  pose proof Hwf as (Hm & _ & _).
  destruct ct; unfold nextRelaxationDate; cbv zeta.
  - destruct (date_leb _ now) eqn:E; [|now apply Hflip].
    apply newDate_later_month; [assumption|lia|].
    destruct (Z.eq_dec (getMonth now) 11) as [E11|N11].
    + left. rewrite E11. change ((11 + 1) / 12) with 1. lia.
    + right. rewrite Z.div_small, Z.mod_small by lia. lia.
  - destruct (date_leb _ now) eqn:E; [|now apply Hflip].
    apply newDate_later_month; [assumption|lia|].
    assert (Hq : 0 <= getMonth now / 3 <= 3).
    { split; [apply Z.div_pos; lia|].
      enough (getMonth now / 3 < 4) by lia.
      apply Z.div_lt_upper_bound; lia. }
    pose proof (Z.mul_div_le (getMonth now) 3 ltac:(lia)) as Hlo.
    pose proof (Z.mul_succ_div_gt (getMonth now) 3 ltac:(lia)) as Hhi.
    generalize dependent (getMonth now / 3). intros q _ Hq Hlo Hhi.
    destruct (Z.eq_dec q 3) as [E3|N3].
    + left. rewrite E3. change ((3 + 1) * 3 / 12) with 1. lia.
    + right. rewrite Z.div_small, Z.mod_small by lia. lia.
  - destruct (date_leb _ now) eqn:E; [|now apply Hflip].
    apply newDate_later_month; [assumption|lia|].
    left. change (0 / 12) with 0. lia.
Qed.


(** C7. For a structurally valid recurring source (cycle day between 1
    and 31, cycle type monthly, quarterly or yearly) and every clock
    reading [now], the date computed by [updateRelaxationDate] is strictly
    after [now]: never [now] itself and never a past date. *)
Theorem updateRelaxationDate_strictly_future :
  forall (now : Date) (cycleDate : Z) (cycleType : CycleType),
    wf_date now ->
    1 <= cycleDate <= 31 ->
    date_ltb now (nextRelaxationDate now cycleDate (Some cycleType)) = true.
Proof. exact nextRelaxationDate_after_now. Qed.

Lemma updateRelaxationDate_strictly_future_witness :
  date_ltb (MkDate 2024 0 31 32400000)
    (nextRelaxationDate (MkDate 2024 0 31 32400000) 31 (Some monthly)) = true.
Proof.
  apply updateRelaxationDate_strictly_future.
  - apply wf_dateb_true. reflexivity.
  - lia.
Defined.

(** The yearly branch builds its date in January, whatever the month of
    the clock reading: the source carries a day of the month and no
    month. *)
Lemma nextRelaxationDate_yearly_january now cycleDate :
  1 <= cycleDate <= 31 ->
  nextRelaxationDate now cycleDate (Some yearly)
  = MkDate (if date_leb (MkDate (getFullYear now) 0 cycleDate 0) now
            then getFullYear now + 1 else getFullYear now)
      0 cycleDate 0.
Proof.
  intros Hd. unfold nextRelaxationDate. cbv zeta.
  rewrite !newDate_january by exact Hd.
  destruct (date_leb _ now); reflexivity.
Qed.

(** C8, on the code.  The date that [updateRelaxationDate] computes for
    a yearly source lies in January for every clock reading, so that it
    is in the month of the processing, one year later, only when the
    source is processed in January.  A yearly income of cycle day 31
    that the job processes on 31 December 2024 is given 31 January 2025
    as next occurrence (not 31 December 2025), and the job processes it
    again on that day, one month after the first time; processed on
    15 June 2024, a source of cycle day 15 is given 15 January 2025. *)
Theorem yearly_next_occurrence_is_in_january :
  let december31 := MkDate 2024 11 31 32400000 in
  let january31 := MkDate 2025 0 31 32400000 in
  let first := checkIncomeSources noFault december31 Scenario.yearEnd in
  let second := checkIncomeSources noFault january31 (snd first) in
  (forall now cycleDate,
     1 <= cycleDate <= 31 ->
     getMonth (nextRelaxationDate now cycleDate (Some yearly)) = 0) /\
  nextRelaxationDate december31 31 (Some yearly) = MkDate 2025 0 31 0 /\
  nextRelaxationDate (MkDate 2024 5 15 32400000) 15 (Some yearly)
  = MkDate 2025 0 15 0 /\
  (outcomes <$> fst first) = Some [(23%nat, Processed 0%nat)] /\
  (Income.relaxationDate <$> incomes (snd first) !! 23%nat)
  = Some (Some (MkDate 2025 0 31 0)) /\
  (outcomes <$> fst second) = Some [(23%nat, Processed 1%nat)] /\
  (UserWallet.currentAmount <$> wallets (snd second) !! 7%nat) = Some 2400.
Proof.
  split.
  { intros now cycleDate Hd. rewrite nextRelaxationDate_yearly_january by exact Hd.
    reflexivity. }
  repeat split; vm_compute; reflexivity.
Qed.

(* ===================================================================== *)
(** * Running the asynchronous code *)
(* ===================================================================== *)

(** Case analysis on the next branch of a computation under evaluation. *)
Ltac branch :=
  match goal with
  | |- context [match ?x with _ => _ end] =>
      match x with
      | context [match _ with _ => _ end] => fail 1
      | _ => destruct x eqn:?
      end
  end.

Ltac unfold_async :=
  unfold Transaction_createFromRequest, Transaction_create,
    Transaction_findByIdAndDelete, Transaction_findOne,
    Transaction_softDelete, Transaction_find, UserWallet_findById, UserWallet_findOne,
    UserWallet_findByIdAndUpdate_inc, UserWallet_save, Expense_create,
    Expense_findByIdAndDelete, Income_create, Income_updateRelaxationDate,
    Expense_updateRelaxationDate, Income_find, Expense_find,
    tryCatch, bind, ret, throw, deref, dbCall in *.

Ltac run_async := unfold_async; simpl; repeat (branch; simpl).

(** ** What the wallet-debiting operations do to the balances *)





Lemma alter_same_fields (m : gmap Id UserWallet.t) id w :
  m !! id = Some w -> alter (fun _ => w) id m = m.
Proof.
  intros H. apply map_eq. intros j.
  destruct (decide (j = id)) as [->|Hne].
  - rewrite lookup_alter_eq, H. reflexivity.
  - rewrite lookup_alter_ne by congruence. reflexivity.
Qed.





Example manual_expense_debits :
  wallets (snd (createTransaction noFault Sample.march1 1%nat
                  (Sample.groceries 300) Sample.tenant)) !! 7%nat
  = Some (UserWallet.inc_currentAmount (-300) (Sample.wallet 1000)).
Proof. vm_compute. reflexivity. Qed.

(* ===================================================================== *)
(** * Spontaneous sources *)
(* ===================================================================== *)

(** The balance test of [POST /api/expenses] reads [wallet.balance], which
    is [undefined] on a loaded wallet: the comparison is false for every
    amount. *)
Lemma balance_test_never_fires id w amount :
  js_lt (balance (hydrate id w)) (JsNumber amount) = false.
Proof. reflexivity. Qed.

(** Hence no request is answered with the insufficient-balance error. *)
Lemma createExpense_never_insufficient fault now userId body db :
  fst (createExpense fault now userId body db)
  <> BadRequest400 "Insufficient wallet balance".
Proof.
  unfold createExpense.
  destruct (validateSourceBody body); simpl; [|discriminate].
  run_async; discriminate.
Qed.

(** ** The limits of the strings that the routes store *)

Example trim_examples :
  trim "  Taxi  " = "Taxi" /\ trim "Monthly rent" = "Monthly rent" /\ trim "   " = "".
Proof. repeat split. Qed.

(** The extension is read from the last dot on, in lower case; a path
    without a dot has no allowed extension. *)
Example fileAllowed_examples :
  Transaction.fileAllowed "/uploads/transactions/receipt.PDF" = true /\
  Transaction.fileAllowed "/uploads/transactions/receipt.pdf.exe" = false /\
  Transaction.fileAllowed "/uploads/transactions/receipt" = false.
Proof. repeat split. Qed.

Lemma length_append s1 s2 :
  String.length (s1 +:+ s2) = (String.length s1 + String.length s2)%nat.
Proof.
  induction s1 as [|c s1 IH]; [reflexivity|].
  change (String c s1 +:+ s2) with (String c (s1 +:+ s2)).
  simpl. rewrite IH. reflexivity.
Qed.

Lemma description_limit (description : option string) (n : nat) :
  (forall d, description = Some d -> (String.length (trim d) <= n)%nat) ->
  match trim <$> description with
  | Some s => (String.length s <=? n)%nat
  | None => true
  end = true.
Proof.
  intros H. destruct description as [d|]; simpl; [|reflexivity].
  apply Nat.leb_le, H. reflexivity.
Qed.

Lemma orElse_limit (description : option string) (dflt : string) (n : nat) :
  (forall d, description = Some d -> (String.length (trim d) <= n)%nat) ->
  (String.length dflt <= n)%nat ->
  match orElse (trim <$> description) (Some dflt) with
  | Some s => (String.length s <=? n)%nat
  | None => true
  end = true.
Proof.
  intros H Hd. destruct description as [d|]; simpl.
  - destruct (String.eqb (trim d) ""); apply Nat.leb_le; [exact Hd|].
    apply H. reflexivity.
  - apply Nat.leb_le, Hd.
Qed.

(** With no failing database call, a well-formed spontaneous expense on
    an existing wallet of the user is accepted whatever the balance: the
    source and one transaction are stored and no balance moves. *)
Lemma createExpense_spontaneous_accepted now userId body db w :
  validateSourceBody body = true ->
  b_isFixed body = Some false ->
  (String.length (trim (b_name body)) <= 100)%nat ->
  (forall d, b_description body = Some d -> (String.length (trim d) <= 500)%nat) ->
  wallets db !! b_walletId body = Some w ->
  UserWallet.userId w = userId ->
  UserWallet.isDeleted w = false ->
  exists expenseId e transactionId t db',
    createExpense noFault now userId body db = (Created201, db') /\
    expenses db !! expenseId = None /\
    expenses db' = <[expenseId := e]> (expenses db) /\
    Expense.amount e = b_amount body /\
    transactions db !! transactionId = None /\
    transactions db' = <[transactionId := t]> (transactions db) /\
    Transaction.amount t = b_amount body /\
    Transaction.title t = "Expense: " +:+ trim (b_name body) /\
    Transaction.transactionDate t = default now (b_entryDate body) /\
    wallets db' = wallets db.
Proof.
  intros Hval Hfix Hlen Hdesc Hw Hu Hdel.
  pose proof Hval as Hval'. unfold validateSourceBody in Hval'.
  rewrite Hfix in Hval'. simpl in Hval'.
  apply andb_prop in Hval' as [Hval' _]. apply andb_prop in Hval' as [Hname Hamt].
  assert (E1 : (String.length (trim (b_name body)) <=? 100)%nat = true)
    by (apply Nat.leb_le; exact Hlen).
  pose proof (description_limit _ _ Hdesc) as E2.
  assert (E3 : (String.length ("Expense: " +:+ trim (b_name body)) <=? 200)%nat = true).
  { apply Nat.leb_le. rewrite length_append. simpl. lia. }
  assert (E4 : match orElse (trim <$> b_description body)
                       (Some ("Spontaneous expense for " +:+ trim (b_name body))) with
               | Some s => (String.length s <=? 500)%nat
               | None => true
               end = true).
  { apply orElse_limit; [exact Hdesc|]. rewrite length_append. simpl. lia. }
  unfold createExpense. rewrite Hval. simpl. rewrite Hfix. simpl.
  unfold_async. unfold noFault. simpl.
  rewrite Hw, Hu, Hdel, bool_decide_eq_true_2 by reflexivity. simpl.
  unfold Expense.validate, Expense.limits. simpl. rewrite Hname, E1, E2, Hamt. simpl.
  unfold Transaction.limits, Transaction.validate.
  cbn [Transaction.title Transaction.description Transaction.file Transaction.amount].
  rewrite E3, E4, Hamt. simpl.
  eexists _, _, _, _, _. split; [reflexivity|]. simpl.
  repeat split;
    try (apply not_elem_of_dom, is_fresh);
    try (apply alter_same_fields, Hw).
Qed.

(** C4, on the code.  A spontaneous expense of 5000 on a wallet holding
    1000 is answered 201: the expense source and an expense transaction
    of 5000 are stored, and the stored balance stays 1000. *)
Theorem spontaneous_expense_over_balance_accepted :
  let result := createExpense noFault Sample.march1 1%nat (Sample.taxi 5000)
                  (Sample.walletOnly 1000) in
  fst result = Created201 /\
  Expense.amount <$> (expenses (snd result) !! 0%nat) = Some 5000 /\
  Transaction.amount <$> (transactions (snd result) !! 0%nat) = Some 5000 /\
  UserWallet.currentAmount <$> (wallets (snd result) !! 7%nat) = Some 1000.
Proof. vm_compute. repeat split. Qed.

(** [POST /api/incomes] hands [Income.create] no [cycleDate] for a
    spontaneous income, and the schema requires one: the request ends in
    the [catch] with nothing stored beyond what was there. *)
Lemma createIncome_spontaneous_fails fault now userId body db :
  b_isFixed body = Some false ->
  let result := createIncome fault now userId body db in
  fst result <> Created201 /\
  transactions (snd result) = transactions db /\
  incomes (snd result) = incomes db /\
  wallets (snd result) = wallets db.
Proof.
  intros Hfix. unfold createIncome.
  destruct (validateSourceBody body); simpl; [|repeat split; discriminate].
  rewrite Hfix.
  run_async; repeat split; discriminate.
Qed.

(** C6, on the code.  A spontaneous expense of 200 dated 27 February on a
    wallet holding 10000 stores one transaction titled "Expense: Taxi"
    with that date, and the stored balance stays 10000 (not 9800); the
    spontaneous income of 500 is answered 500 and stores no transaction. *)
Theorem spontaneous_source_leaves_balance :
  let feb27 := MkDate 2025 1 27 0 in
  let body := MkSourceBody 7%nat "Taxi" None 200 (Some false) None None (Some feb27) in
  let spent := createExpense noFault Sample.march1 1%nat body (Sample.walletOnly 10000) in
  let earned := createIncome noFault Sample.march1 1%nat (Sample.gift 500)
                  (Sample.walletOnly 10000) in
  fst spent = Created201 /\
  size (transactions (snd spent)) = 1%nat /\
  Transaction.title <$> (transactions (snd spent) !! 0%nat) = Some "Expense: Taxi" /\
  Transaction.transactionDate <$> (transactions (snd spent) !! 0%nat) = Some feb27 /\
  UserWallet.currentAmount <$> (wallets (snd spent) !! 7%nat) = Some 10000 /\
  fst earned = ServerError500 /\
  size (transactions (snd earned)) = 0%nat /\
  UserWallet.currentAmount <$> (wallets (snd earned) !! 7%nat) = Some 10000.
Proof. vm_compute. repeat split. Qed.

(* ===================================================================== *)
(** * One step of the batch jobs *)
(* ===================================================================== *)

Lemma fresh_transaction_id db :
  transactions db !! fresh (dom (transactions db)) = None.
Proof. apply not_elem_of_dom, is_fresh. Qed.

(** C2. A due recurring source whose wallet and user exist, whose amount
    is not negative and, for an expense, whose wallet holds at least the
    amount: with no failing database call, its loop iteration reports it
    processed, stores exactly one new transaction, of the source's amount
    and titled "Added <Income|Expense> for <name> on <date>", and moves
    the balance of its wallet, and of no other, by +amount for an income
    and -amount for an expense. *)
Theorem due_source_processed_once :
  forall (now : Date) (s : Source) (db : DB) (walletId userId : Id)
         (wallet : UserWallet.t),
    isDue s (setHours0 now) = true ->
    sourceWallet s = Some walletId ->
    sourceUser s = Some userId ->
    wallets db !! walletId = Some wallet ->
    0 <= sourceAmount s ->
    (forall e, s = ExpenseSource e -> sourceAmount s <= UserWallet.currentAmount wallet) ->
    exists (id : Id) (t : Transaction.t) (db' : DB),
      processingStep noFault now s db = (Processed id, db') /\
      transactions db !! id = None /\
      transactions db' = <[id := t]> (transactions db) /\
      Transaction.amount t = sourceAmount s /\
      Transaction.title t =
        "Added " +:+ kindWord s +:+ " for " +:+ sourceName s +:+ " on "
          +:+ toLocaleDateString now /\
      wallets db' =
        <[walletId := UserWallet.inc_currentAmount (signedAmount s) wallet]> (wallets db).
Proof.
  intros now s db walletId userId wallet Hdue Hw Hu Hwallet Hamt Hbal.
  assert (Halter : forall delta,
             alter (UserWallet.inc_currentAmount delta) walletId (wallets db)
             = <[walletId := UserWallet.inc_currentAmount delta wallet]> (wallets db)).
  { intros delta. apply map_eq. intros j.
    destruct (decide (j = walletId)) as [->|Hne].
    - rewrite lookup_alter_eq, lookup_insert_eq, Hwallet. reflexivity.
    - rewrite lookup_alter_ne, lookup_insert_ne by congruence. reflexivity. }
  apply Z.leb_le in Hamt.
  destruct s as [income|expense]; simpl in *.
  - unfold incomeIteration, processIncomeSource. rewrite Hdue, Hw, Hu.
    unfold_async. unfold noFault, Transaction.validate. simpl. rewrite Hamt. simpl.
    eexists _, _, _. split; [reflexivity|]. simpl.
    repeat split; [apply fresh_transaction_id | apply Halter].
  - specialize (Hbal expense eq_refl).
    assert (Hlt : (UserWallet.currentAmount wallet <? Expense.amount (doc expense)) = false)
      by (apply Z.ltb_ge; exact Hbal).
    assert (Hcd : exists c, Expense.cycleDate (doc expense) = Some c).
    { unfold shouldProcessExpense in Hdue.
      destruct (Expense.cycleDate (doc expense)) as [c|]; [eauto|].
      rewrite bool_decide_eq_false_2 in Hdue by discriminate. discriminate. }
    destruct Hcd as [c Hcd].
    unfold expenseIteration, processExpenseSource. rewrite Hdue, Hw, Hu.
    unfold_async. unfold noFault, Transaction.validate. simpl.
    rewrite Hwallet, Hlt. simpl. rewrite Hamt, Hcd. simpl.
    eexists _, _, _. split; [reflexivity|]. simpl.
    repeat split; [apply fresh_transaction_id | apply Halter].
Qed.

Lemma due_source_processed_once_witness :
  exists (id : Id) (t : Transaction.t) (db' : DB),
    processingStep noFault Sample.march5
      (IncomeSource (Sample.populated 20%nat Sample.salary)) Sample.household
    = (Processed id, db') /\
    transactions Sample.household !! id = None /\
    transactions db' = <[id := t]> (transactions Sample.household) /\
    Transaction.amount t = 3000 /\
    Transaction.title t = "Added Income for Salary on March 5, 2025" /\
    wallets db' = <[7%nat := Sample.wallet 13000]> (wallets Sample.household).
Proof.
  assert (Htitle : "Added " +:+ "Income" +:+ " for " +:+ "Salary" +:+ " on "
                     +:+ toLocaleDateString Sample.march5
                   = "Added Income for Salary on March 5, 2025")
    by (vm_compute; reflexivity).
  rewrite <- Htitle.
  apply (due_source_processed_once Sample.march5
           (IncomeSource (Sample.populated 20%nat Sample.salary)) Sample.household
           7%nat 1%nat (Sample.wallet 10000)).
  - reflexivity.
  - reflexivity.
  - reflexivity.
  - reflexivity.
  - simpl. lia.
  - intros e He. discriminate He.
Defined.

(** C3. A due recurring expense whose wallet holds strictly less than
    its amount: with no failing database call, the loop stores no
    transaction, leaves every balance and every expense source (so the
    source's relaxation date) as they were, and counts the source under
    insufficient funds, not under processed. *)
Theorem insufficient_funds_skips_expense :
  forall (now : Date) (expense : Populated Expense.t) (db : DB) (st : RunStats)
         (walletId : Id) (wallet : UserWallet.t),
    shouldProcessExpense (doc expense) (setHours0 now) = true ->
    populatedWallet expense = Some walletId ->
    wallets db !! walletId = Some wallet ->
    UserWallet.currentAmount wallet < Expense.amount (doc expense) ->
    exists (st' : RunStats) (db' : DB),
      forEachSource (expenseIteration noFault now (setHours0 now)) [expense] st db
      = (st', db') /\
      outcomes st' = outcomes st ++ [(_id expense, InsufficientFunds)] /\
      insufficientFundsCount st' = S (insufficientFundsCount st) /\
      processedCount st' = processedCount st /\
      skippedCount st' = skippedCount st /\
      transactions db' = transactions db /\
      wallets db' = wallets db /\
      expenses db' = expenses db.
Proof.
  intros now expense db st walletId wallet Hdue Hw Hwallet Hlt.
  apply Z.ltb_lt in Hlt.
  unfold forEachSource, expenseIteration, processExpenseSource. rewrite Hdue, Hw.
  unfold_async. unfold noFault. simpl. rewrite Hwallet, Hlt. simpl.
  eexists _, _. split; [reflexivity|]. simpl. repeat split.
Qed.

Lemma insufficient_funds_skips_expense_witness :
  exists (st' : RunStats) (db' : DB),
    forEachSource (expenseIteration noFault Sample.march1 (setHours0 Sample.march1))
      [Sample.populated 30%nat Sample.rent] noStats Sample.tenant
    = (st', db') /\
    outcomes st' = [(30%nat, InsufficientFunds)] /\
    insufficientFundsCount st' = 1%nat /\
    processedCount st' = 0%nat /\
    skippedCount st' = 0%nat /\
    transactions db' = transactions Sample.tenant /\
    wallets db' = wallets Sample.tenant /\
    expenses db' = expenses Sample.tenant.
Proof.
  apply (insufficient_funds_skips_expense Sample.march1
           (Sample.populated 30%nat Sample.rent) Sample.tenant noStats
           7%nat (Sample.wallet 1000)).
  - reflexivity.
  - reflexivity.
  - reflexivity.
  - simpl. lia.
Defined.

(* ===================================================================== *)
(** * Soft deletion of a transaction *)
(* ===================================================================== *)

(** What [Transaction.find] returns is stored and matches the query. *)
Lemma Transaction_find_sound fault q limit db found db' :
  Transaction_find fault q limit db = (Ok found, db') ->
  forall p, p ∈ found ->
    transactions db !! fst p = Some (snd p) /\ matchesQuery q (snd p) = true.
Proof.
  unfold Transaction_find. unfold_async.
  destruct (fault (calls db)); [discriminate|]. simpl.
  intros H p Hp. injection H as <- <-.
  assert (Hin : p ∈ merge_sort newestFirst
                  (filter (fun p => matchesQuery q (snd p) = true)
                     (map_to_list (transactions db)))).
  { destruct limit; [eapply subseteq_take; exact Hp | exact Hp]. }
  rewrite merge_sort_Permutation in Hin.
  apply list_elem_of_filter in Hin as [Hm Hin].
  destruct p as [i t]. apply elem_of_map_to_list in Hin. auto.
Qed.

Lemma matchesQuery_isDeleted q t :
  matchesQuery q t = true -> Transaction.isDeleted t = q_isDeleted q.
Proof.
  unfold matchesQuery. rewrite !andb_true_iff.
  intros (((((_ & H) & _) & _) & _) & _).
  apply bool_decide_eq_true in H. exact H.
Qed.

(** The listing routes return stored transactions that are not deleted. *)
Lemma listTransactions_not_deleted fault userId walletId ty startDate endDate db
      n summary data db' :
  listTransactions fault userId walletId ty startDate endDate db
  = (Listed n summary data, db') ->
  summary = Some (summarize data) /\
  forall p, p ∈ data ->
    transactions db !! fst p = Some (snd p) /\ Transaction.isDeleted (snd p) = false.
Proof.
  unfold listTransactions.
  destruct walletId as [w|].
  - unfold bind at 1. unfold bind at 1.
    destruct (UserWallet_findOne fault w userId db) as [[found|e] db1] eqn:Ew;
      [|discriminate].
    assert (Hdb1 : transactions db1 = transactions db).
    { revert Ew. unfold_async. destruct (fault (calls db)); [discriminate|].
      intros H. injection H as _ <-. reflexivity. }
    unfold ret at 1.
    destruct (negb (bool_decide (is_Some found))); [discriminate|].
    unfold bind. destruct (Transaction_find _ _ _ db1) as [[l|e] db2] eqn:Ef;
      [|discriminate].
    unfold ret. intros H. injection H as <- <- <- <-.
    split; [reflexivity|]. intros p Hp.
    destruct (Transaction_find_sound _ _ _ _ _ _ Ef p Hp) as [Hl Hm].
    rewrite Hdb1 in Hl. split; auto.
    apply matchesQuery_isDeleted in Hm. exact Hm.
  - unfold bind at 1. unfold ret at 1. simpl.
    unfold bind. destruct (Transaction_find _ _ _ db) as [[l|e] db2] eqn:Ef;
      [|discriminate].
    unfold ret. intros H. injection H as <- <- <- <-.
    split; [reflexivity|]. intros p Hp.
    destruct (Transaction_find_sound _ _ _ _ _ _ Ef p Hp) as [Hl Hm].
    split; auto.
    apply matchesQuery_isDeleted in Hm. exact Hm.
Qed.

Lemma listTransactionsOfType_not_deleted fault userId ty db n summary data db' :
  listTransactionsOfType fault userId ty db = (Listed n summary data, db') ->
  forall p, p ∈ data ->
    transactions db !! fst p = Some (snd p) /\ Transaction.isDeleted (snd p) = false.
Proof.
  unfold listTransactionsOfType.
  unfold bind. destruct (Transaction_find _ _ _ db) as [[l|e] db2] eqn:Ef;
    [|discriminate].
  unfold ret. intros H. injection H as <- <- <- <-.
  intros p Hp.
  destruct (Transaction_find_sound _ _ _ _ _ _ Ef p Hp) as [Hl Hm].
  split; auto. apply matchesQuery_isDeleted in Hm. exact Hm.
Qed.

(** The deletion route never touches a wallet, whatever fails. *)
Lemma deleteTransaction_wallets fault now userId id db :
  wallets (snd (deleteTransaction fault now userId id db)) = wallets db.
Proof. unfold deleteTransaction. run_async; reflexivity. Qed.

(** C10. Soft-deleting a stored, not yet deleted transaction of the user
    (no database call failing) rewrites that one transaction with
    [isDeleted] set and [deletedAt] stamped and every other path as it
    was; all other transactions, every wallet balance and every source
    stay as they were; and no listing of the resulting database
    ([GET /api/transactions] with its summary, the per-type listings)
    returns the transaction, whatever the query parameters. *)
Theorem soft_delete_only_marks :
  forall (now : Date) (userId id : Id) (db : DB) (t : Transaction.t),
    transactions db !! id = Some t ->
    Transaction.userId t = userId ->
    Transaction.isDeleted t = false ->
    exists (t' : Transaction.t) (db' : DB),
      deleteTransaction noFault now userId id db = (Ok200, db') /\
      transactions db' = <[id := t']> (transactions db) /\
      sameExceptDeletion t t' /\
      Transaction.isDeleted t' = true /\
      Transaction.deletedAt t' = Some now /\
      wallets db' = wallets db /\
      incomes db' = incomes db /\
      expenses db' = expenses db /\
      (forall fault walletId ty startDate endDate n summary data db'',
         listTransactions fault userId walletId ty startDate endDate db'
         = (Listed n summary data, db'') ->
         summary = Some (summarize data) /\ id ∉ data.*1) /\
      (forall fault ty n summary data db'',
         listTransactionsOfType fault userId ty db' = (Listed n summary data, db'') ->
         id ∉ data.*1).
Proof.
  intros now userId id db t Ht Hu Hdel.
  assert (Halter : alter (fun _ => Transaction.markDeleted now t) id (transactions db)
                   = <[id := Transaction.markDeleted now t]> (transactions db)).
  { apply map_eq. intros j. destruct (decide (j = id)) as [->|Hne].
    - rewrite lookup_alter_eq, lookup_insert_eq, Ht. reflexivity.
    - rewrite lookup_alter_ne, lookup_insert_ne by congruence. reflexivity. }
  exists (Transaction.markDeleted now t).
  unfold deleteTransaction. unfold_async. unfold noFault. simpl.
  rewrite Ht, Hu, Hdel, bool_decide_eq_true_2 by reflexivity. simpl.
  eexists. split; [reflexivity|]. simpl.
  split; [exact Halter|].
  split; [repeat split|].
  do 5 (split; [reflexivity|]).
  assert (Hgone : forall p : Id * Transaction.t,
             alter (fun _ => Transaction.markDeleted now t) id (transactions db) !! fst p
             = Some (snd p) ->
             Transaction.isDeleted (snd p) = false -> fst p <> id).
  { intros [j tj] Hl Hd E. simpl in *. subst j.
    rewrite lookup_alter_eq, Ht in Hl. simpl in Hl. injection Hl as <-.
    discriminate Hd. }
  split.
  - intros fault walletId ty startDate endDate n summary data db'' Hlist.
    apply listTransactions_not_deleted in Hlist as [Hs Hdata].
    split; [exact Hs|].
    intros Hin. apply list_elem_of_fmap in Hin as (p & -> & Hp).
    destruct (Hdata p Hp) as [Hl Hd]. simpl in Hl.
    exact (Hgone p Hl Hd eq_refl).
  - intros fault ty n summary data db'' Hlist Hin.
    apply list_elem_of_fmap in Hin as (p & -> & Hp).
    destruct (listTransactionsOfType_not_deleted _ _ _ _ _ _ _ _ Hlist p Hp) as [Hl Hd].
    simpl in Hl. exact (Hgone p Hl Hd eq_refl).
Qed.

Lemma soft_delete_only_marks_witness :
  exists (t' : Transaction.t) (db' : DB),
    deleteTransaction noFault Sample.march5 1%nat 0%nat Sample.ledger = (Ok200, db') /\
    transactions db' = <[0%nat := t']> (transactions Sample.ledger) /\
    sameExceptDeletion Sample.coffee t' /\
    Transaction.isDeleted t' = true /\
    wallets db' = wallets Sample.ledger.
Proof.
  destruct (soft_delete_only_marks Sample.march5 1%nat 0%nat Sample.ledger
              Sample.coffee eq_refl eq_refl eq_refl)
    as (t' & db' & H1 & H2 & H3 & H4 & _ & H6 & _).
  exists t', db'. auto.
Defined.

(* ===================================================================== *)
(** * The batch loops *)
(* ===================================================================== *)

Section Loop.
Context {T : Type} (iteration : Populated T -> DB -> Outcome * DB).

Lemma forEachSource_app l1 l2 st db :
  forEachSource iteration (l1 ++ l2) st db
  = let '(st1, db1) := forEachSource iteration l1 st db in
    forEachSource iteration l2 st1 db1.
Proof.
  revert st db. induction l1 as [|p l1 IH]; intros st db; simpl; [reflexivity|].
  destruct (iteration p db) as [o db1]. apply IH.
Qed.

Lemma forEachSource_goes_on sources db st db' :
  forEachSource iteration sources noStats db = (st, db') ->
  loopGoesOn iteration sources db st db'.
Proof.
  intros Hrun before source after ->.
  rewrite forEachSource_app in Hrun.
  destruct (forEachSource iteration before noStats db) as [st1 db1] eqn:E1.
  simpl in Hrun. destruct (iteration source db1) as [o db2] eqn:E2.
  exists st1, db1, o, db2. split; [reflexivity|]. split; [exact E2|exact Hrun].
Qed.

(** The log grows by one entry per source, in order, and each entry
    satisfies whatever every iteration guarantees of its outcome. *)
Lemma forEachSource_outcomes (P : Populated T -> Outcome -> Prop) :
  (forall p db, P p (fst (iteration p db))) ->
  forall l st db,
    exists news,
      outcomes (fst (forEachSource iteration l st db)) = outcomes st ++ news /\
      Forall2 (fun p r => fst r = _id p /\ P p (snd r)) l news.
Proof.
  intros HP. induction l as [|p l IH]; intros st db; simpl.
  - exists []. rewrite app_nil_r. split; [reflexivity|constructor].
  - pose proof (HP p db) as Hp.
    destruct (iteration p db) as [o db1]. simpl in Hp.
    destruct (IH (record (_id p) o st) db1) as (news & Hout & Hall).
    exists ((_id p, o) :: news). split.
    + rewrite Hout. destruct o; simpl; rewrite <- app_assoc; reflexivity.
    + constructor; [split; [reflexivity|exact Hp]|exact Hall].
Qed.

(** A source that is not due is logged as skipped. *)
Lemma forEachSource_skips (due : Populated T -> bool) :
  (forall p db, due p = false -> fst (iteration p db) = SkippedNotDue) ->
  forall l st db p,
    p ∈ l -> due p = false ->
    (_id p, SkippedNotDue) ∈ outcomes (fst (forEachSource iteration l st db)).
Proof.
  intros Hskip. induction l as [|q l IH]; intros st db p Hin Hdue.
  - inversion Hin.
  - simpl. apply elem_of_cons in Hin as [->|Hin].
    + pose proof (Hskip q db Hdue) as Ho.
      destruct (iteration q db) as [o db1]. simpl in Ho. subst o.
      destruct (forEachSource_outcomes (fun _ _ => True) (fun _ _ => I) l
                  (record (_id q) SkippedNotDue st) db1) as (news & Hout & _).
      rewrite Hout. simpl. rewrite !elem_of_app. left. right. apply list_elem_of_here.
    + destruct (iteration q db) as [o db1]. apply IH; assumption.
Qed.

Lemma countWhere_app f l1 l2 :
  countWhere f (l1 ++ l2) = (countWhere f l1 + countWhere f l2)%nat.
Proof. unfold countWhere. rewrite filter_app, length_app. reflexivity. Qed.

Lemma record_countersAgree id o st :
  countersAgree st -> countersAgree (record id o st).
Proof.
  intros (Hp & Hs & Hi). unfold countersAgree.
  destruct o; simpl; rewrite !countWhere_app, <- Hp, <- Hs, <- Hi;
    unfold countWhere; simpl; repeat split; lia.
Qed.

Lemma forEachSource_countersAgree l : forall st db,
  countersAgree st -> countersAgree (fst (forEachSource iteration l st db)).
Proof.
  induction l as [|p l IH]; intros st db Hst; simpl; [exact Hst|].
  destruct (iteration p db) as [o db1]. apply IH, record_countersAgree, Hst.
Qed.

End Loop.

Lemma incomeIteration_attempt fault now today p db :
  if shouldProcessIncome (doc p) today
  then fst (incomeIteration fault now today p db) <> SkippedNotDue
  else fst (incomeIteration fault now today p db) = SkippedNotDue.
Proof.
  unfold incomeIteration.
  destruct (shouldProcessIncome (doc p) today); [|reflexivity].
  unfold bind, ret.
  destruct (processIncomeSource fault now p db) as [[tx|e] db1]; simpl; discriminate.
Qed.

Lemma expenseIteration_attempt fault now today p db :
  if shouldProcessExpense (doc p) today
  then fst (expenseIteration fault now today p db) <> SkippedNotDue
  else fst (expenseIteration fault now today p db) = SkippedNotDue.
Proof.
  unfold expenseIteration.
  destruct (shouldProcessExpense (doc p) today); [|reflexivity].
  unfold bind, ret.
  destruct (processExpenseSource fault now p db) as [[[tx|]|e] db1]; simpl; discriminate.
Qed.

Lemma countersAgree_noStats : countersAgree noStats.
Proof. repeat split. Qed.

(** What a job does once its query has returned the sources. *)
Lemma job_isolation {T} (iteration : Populated T -> DB -> Outcome * DB)
      (due : Populated T -> bool) sources db :
  (forall p db, if due p then fst (iteration p db) <> SkippedNotDue
                else fst (iteration p db) = SkippedNotDue) ->
  exists st db',
    forEachSource iteration sources noStats db = (st, db') /\
    Forall2 (attempted due) sources (outcomes st) /\
    countersAgree st /\
    loopGoesOn iteration sources db st db'.
Proof.
  intros Hdue.
  destruct (forEachSource iteration sources noStats db) as [st db'] eqn:Erun.
  exists st, db'. split; [reflexivity|].
  split; [|split].
  - destruct (forEachSource_outcomes iteration
                (fun p o => if due p then o <> SkippedNotDue else o = SkippedNotDue)
                Hdue sources noStats db) as (news & Hout & Hall).
    rewrite Erun in Hout. simpl in Hout. rewrite Hout. exact Hall.
  - pose proof (forEachSource_countersAgree iteration sources noStats db
                  countersAgree_noStats) as H.
    rewrite Erun in H. exact H.
  - apply forEachSource_goes_on, Erun.
Qed.



(** The first processing call of the salary fails; the dividend after it
    is processed all the same. *)
Example failed_source_does_not_stop_the_run :
  outcomes <$> fst (checkIncomeSources (fun n => Nat.eqb n 1) Sample.march5
                      Sample.household)
  = Some [(20%nat, Failed DbError); (21%nat, Processed 0%nat)].
Proof. vm_compute. reflexivity. Qed.

(* ===================================================================== *)
(** * What a run does to the schedule of its sources *)
(* ===================================================================== *)

Section LoopStore.
Context {T : Type} (iteration : Populated T -> DB -> Outcome * DB).
(** The collection the job's sources live in, and the update that
    processing a source applies to its stored document. *)
Context (coll : DB -> gmap Id T) (upd : Populated T -> T -> T).
Context (due : Populated T -> bool).
Hypothesis iteration_store : forall p db,
  (coll (snd (iteration p db)) = coll db \/
   coll (snd (iteration p db)) = alter (upd p) (_id p) (coll db)) /\
  (forall tx, fst (iteration p db) = Processed tx ->
              due p = true /\
              coll (snd (iteration p db)) = alter (upd p) (_id p) (coll db)).

Lemma iteration_store_other p db id :
  id <> _id p -> coll (snd (iteration p db)) !! id = coll db !! id.
Proof.
  intros Hne. destruct (iteration_store p db) as [[E|E] _]; rewrite E; [reflexivity|].
  apply lookup_alter_ne. congruence.
Qed.

Lemma forEachSource_store l : forall st db,
  NoDup (_id <$> l) ->
  exists news,
    outcomes (fst (forEachSource iteration l st db)) = outcomes st ++ news /\
    news.*1 = _id <$> l /\
    (forall id, id ∉ _id <$> l ->
       coll (snd (forEachSource iteration l st db)) !! id = coll db !! id) /\
    (forall id tx, (id, Processed tx) ∈ news ->
       exists p, p ∈ l /\ _id p = id /\ due p = true /\
         coll (snd (forEachSource iteration l st db)) !! id = upd p <$> coll db !! id).
Proof.
  induction l as [|p l IH]; intros st db Hnd; simpl.
  - exists []. rewrite app_nil_r. repeat split; auto.
    intros id tx Hin. inversion Hin.
  - apply NoDup_cons in Hnd as [Hp Hnd].
    pose proof (iteration_store p db) as [_ Hproc].
    pose proof (iteration_store_other p db) as Hother.
    destruct (iteration p db) as [o db1]. simpl in Hproc, Hother.
    destruct (IH (record (_id p) o st) db1 Hnd) as (news & Hout & Hids & Hframe & Hdone).
    exists ((_id p, o) :: news). split; [|split; [|split]].
    + rewrite Hout. destruct o; simpl; rewrite <- app_assoc; reflexivity.
    + rewrite !fmap_cons. simpl. f_equal. exact Hids.
    + intros id Hid. apply not_elem_of_cons in Hid as [Hne Hid].
      rewrite Hframe by exact Hid. apply Hother, Hne.
    + intros id tx Hin. apply elem_of_cons in Hin as [Heq|Hin].
      * injection Heq as Hid Ho. subst id o.
        destruct (Hproc tx eq_refl) as [Hdue Halt].
        exists p. split; [left|]. split; [reflexivity|]. split; [exact Hdue|].
        rewrite Hframe by exact Hp. rewrite Halt.
        apply lookup_alter_eq.
      * destruct (Hdone id tx Hin) as (q & Hq & Hidq & Hdue & Hlook).
        exists q. split; [right; exact Hq|]. split; [exact Hidq|].
        split; [exact Hdue|].
        rewrite Hlook. f_equal. apply Hother.
        intros ->. apply Hp. rewrite <- Hidq.
        apply list_elem_of_fmap_2, Hq.
Qed.

End LoopStore.

(** A loop leaves alone whatever each of its iterations leaves alone. *)
Lemma forEachSource_frame {T X} (iteration : Populated T -> DB -> Outcome * DB)
      (part : DB -> X) :
  (forall p db, part (snd (iteration p db)) = part db) ->
  forall l st db, part (snd (forEachSource iteration l st db)) = part db.
Proof.
  intros Hit. induction l as [|p l IH]; intros st db; simpl; [reflexivity|].
  pose proof (Hit p db) as Hp. destruct (iteration p db) as [o db1].
  rewrite IH. exact Hp.
Qed.

Lemma incomeUpdate_doc now p : incomeUpdate now p (doc p) = incomeProcessed now (doc p).
Proof. reflexivity. Qed.

Lemma expenseUpdate_doc now p : expenseUpdate now p (doc p) = expenseProcessed now (doc p).
Proof. unfold expenseUpdate, expenseProcessed. destruct (Expense.cycleDate (doc p)); reflexivity. Qed.

Lemma incomeIteration_store fault now today p db :
  (incomes (snd (incomeIteration fault now today p db)) = incomes db \/
   incomes (snd (incomeIteration fault now today p db))
   = alter (incomeUpdate now p) (_id p) (incomes db)) /\
  (forall tx, fst (incomeIteration fault now today p db) = Processed tx ->
     shouldProcessIncome (doc p) today = true /\
     incomes (snd (incomeIteration fault now today p db))
     = alter (incomeUpdate now p) (_id p) (incomes db)).
Proof.
  unfold incomeIteration, processIncomeSource, incomeUpdate.
  destruct (shouldProcessIncome (doc p) today);
    [|split; [left; reflexivity|discriminate]].
  run_async; (split; [auto|]); intros tx Htx; try discriminate Htx; auto.
Qed.

Lemma incomeIteration_expenses fault now today p db :
  expenses (snd (incomeIteration fault now today p db)) = expenses db.
Proof.
  unfold incomeIteration, processIncomeSource.
  destruct (shouldProcessIncome (doc p) today); [|reflexivity].
  run_async; reflexivity.
Qed.

Lemma expenseIteration_store fault now today p db :
  (expenses (snd (expenseIteration fault now today p db)) = expenses db \/
   expenses (snd (expenseIteration fault now today p db))
   = alter (expenseUpdate now p) (_id p) (expenses db)) /\
  (forall tx, fst (expenseIteration fault now today p db) = Processed tx ->
     shouldProcessExpense (doc p) today = true /\
     expenses (snd (expenseIteration fault now today p db))
     = alter (expenseUpdate now p) (_id p) (expenses db)).
Proof.
  unfold expenseIteration, processExpenseSource, expenseUpdate.
  destruct (shouldProcessExpense (doc p) today);
    [|split; [left; reflexivity|discriminate]].
  run_async; (split; [auto|]); intros tx Htx; try discriminate Htx; auto.
Qed.

Lemma expenseIteration_incomes fault now today p db :
  incomes (snd (expenseIteration fault now today p db)) = incomes db.
Proof.
  unfold expenseIteration, processExpenseSource.
  destruct (shouldProcessExpense (doc p) today); [|reflexivity].
  run_async; reflexivity.
Qed.

(** The sources a job finds: the stored, not deleted documents, each
    once. *)
Lemma found_sources {T} (walletOf userOf : T -> Id) (deleted : T -> bool)
      (m : gmap Id T) (db : DB) :
  let l := populate walletOf userOf db <$>
             filter (fun p => deleted (snd p) = false) (map_to_list m) in
  NoDup (_id <$> l) /\
  (forall p, p ∈ l -> m !! _id p = Some (doc p) /\ deleted (doc p) = false) /\
  (forall id d, m !! id = Some d -> deleted d = false ->
     exists p, p ∈ l /\ _id p = id /\ doc p = d).
Proof.
  intros l. subst l. split; [|split].
  - rewrite <- list_fmap_compose.
    eapply sublist_NoDup; [apply (NoDup_fst_map_to_list m)|].
    change (_id ∘ populate walletOf userOf db) with (@fst Id T).
    apply fmap_sublist, sublist_filter.
  - intros p Hp. apply list_elem_of_fmap in Hp as ([id d] & -> & Hin).
    apply list_elem_of_filter in Hin as [Hd Hin]. simpl in *.
    apply elem_of_map_to_list in Hin. auto.
  - intros id d Hm Hd. exists (populate walletOf userOf db (id, d)).
    split; [|split; reflexivity].
    apply list_elem_of_fmap_2, list_elem_of_filter. split; [exact Hd|].
    apply elem_of_map_to_list, Hm.
Qed.

(** The income job with no failing call: it leaves the expenses alone,
    each source it logs as processed was due and has its relaxation date
    rewritten, and each stored source that is not due is logged as
    skipped. *)
Lemma checkIncomeSources_schedule now db :
  exists st db',
    checkIncomeSources noFault now db = (Some st, db') /\
    expenses db' = expenses db /\
    (forall id tx, (id, Processed tx) ∈ outcomes st ->
       exists income,
         incomes db !! id = Some income /\
         Income.isDeleted income = false /\
         shouldProcessIncome income (setHours0 now) = true /\
         incomes db' !! id = Some (incomeProcessed now income)) /\
    (forall id income,
       incomes db !! id = Some income ->
       Income.isDeleted income = false ->
       shouldProcessIncome income (setHours0 now) = false ->
       (id, SkippedNotDue) ∈ outcomes st).
Proof.
  unfold checkIncomeSources.
  change (Income_find noFault db)
    with (Ok (populate Income.walletId Income.userId (count_call db) <$>
                filter (fun p => Income.isDeleted (snd p) = false)
                  (map_to_list (incomes db))), count_call db).
  cbv beta iota.
  destruct (found_sources Income.walletId Income.userId Income.isDeleted
              (incomes db) (count_call db)) as (Hnd & Hsound & Hcomplete).
  cbv zeta in Hnd, Hsound, Hcomplete.
  set (l := populate Income.walletId Income.userId (count_call db) <$> _) in *.
  set (iter := incomeIteration noFault now (setHours0 now)).
  destruct (forEachSource_store iter incomes (incomeUpdate now)
              (fun p => shouldProcessIncome (doc p) (setHours0 now))
              (incomeIteration_store noFault now (setHours0 now))
              l noStats (count_call db) Hnd)
    as (news & Hout & _ & _ & Hdone).
  pose proof (forEachSource_frame iter expenses
                (incomeIteration_expenses noFault now (setHours0 now))
                l noStats (count_call db)) as Hexp.
  pose proof (forEachSource_skips iter
                (fun p => shouldProcessIncome (doc p) (setHours0 now))) as Hskips.
  destruct (forEachSource iter l noStats (count_call db)) as [st db'] eqn:Erun.
  simpl in Hout, Hdone, Hexp.
  exists st, db'. split; [reflexivity|]. split; [exact Hexp|]. split.
  - intros id tx Hin. rewrite Hout in Hin.
    destruct (Hdone id tx Hin) as (p & Hp & Hid & Hdue & Hlook).
    destruct (Hsound p Hp) as [Hstored Hdel]. subst id.
    exists (doc p). simpl in Hstored.
    split; [exact Hstored|]. split; [exact Hdel|]. split; [exact Hdue|].
    rewrite Hlook. simpl. rewrite Hstored. reflexivity.
  - intros id income Hstored Hdel Hdue.
    destruct (Hcomplete id income Hstored Hdel) as (p & Hp & <- & <-).
    specialize (Hskips ltac:(intros q d Hq;
      pose proof (incomeIteration_attempt noFault now (setHours0 now) q d) as Ha;
      rewrite Hq in Ha; exact Ha) l noStats (count_call db) p Hp Hdue).
    rewrite Erun in Hskips. exact Hskips.
Qed.

(** The expense job with no failing call, likewise. *)
Lemma checkExpenseSources_schedule now db :
  exists st db',
    checkExpenseSources noFault now db = (Some st, db') /\
    incomes db' = incomes db /\
    (forall id tx, (id, Processed tx) ∈ outcomes st ->
       exists expense,
         expenses db !! id = Some expense /\
         Expense.isDeleted expense = false /\
         shouldProcessExpense expense (setHours0 now) = true /\
         expenses db' !! id = Some (expenseProcessed now expense)) /\
    (forall id expense,
       expenses db !! id = Some expense ->
       Expense.isDeleted expense = false ->
       shouldProcessExpense expense (setHours0 now) = false ->
       (id, SkippedNotDue) ∈ outcomes st).
Proof.
  unfold checkExpenseSources.
  change (Expense_find noFault db)
    with (Ok (populate Expense.walletId Expense.userId (count_call db) <$>
                filter (fun p => Expense.isDeleted (snd p) = false)
                  (map_to_list (expenses db))), count_call db).
  cbv beta iota.
  destruct (found_sources Expense.walletId Expense.userId Expense.isDeleted
              (expenses db) (count_call db)) as (Hnd & Hsound & Hcomplete).
  cbv zeta in Hnd, Hsound, Hcomplete.
  set (l := populate Expense.walletId Expense.userId (count_call db) <$> _) in *.
  set (iter := expenseIteration noFault now (setHours0 now)).
  destruct (forEachSource_store iter expenses (expenseUpdate now)
              (fun p => shouldProcessExpense (doc p) (setHours0 now))
              (expenseIteration_store noFault now (setHours0 now))
              l noStats (count_call db) Hnd)
    as (news & Hout & _ & _ & Hdone).
  pose proof (forEachSource_frame iter incomes
                (expenseIteration_incomes noFault now (setHours0 now))
                l noStats (count_call db)) as Hinc.
  pose proof (forEachSource_skips iter
                (fun p => shouldProcessExpense (doc p) (setHours0 now))) as Hskips.
  destruct (forEachSource iter l noStats (count_call db)) as [st db'] eqn:Erun.
  simpl in Hout, Hdone, Hinc.
  exists st, db'. split; [reflexivity|]. split; [exact Hinc|]. split.
  - intros id tx Hin. rewrite Hout in Hin.
    destruct (Hdone id tx Hin) as (p & Hp & Hid & Hdue & Hlook).
    destruct (Hsound p Hp) as [Hstored Hdel]. subst id.
    exists (doc p). simpl in Hstored.
    split; [exact Hstored|]. split; [exact Hdel|]. split; [exact Hdue|].
    rewrite Hlook. simpl. rewrite Hstored. simpl.
    rewrite expenseUpdate_doc. reflexivity.
  - intros id expense Hstored Hdel Hdue.
    destruct (Hcomplete id expense Hstored Hdel) as (p & Hp & <- & <-).
    specialize (Hskips ltac:(intros q d Hq;
      pose proof (expenseIteration_attempt noFault now (setHours0 now) q d) as Ha;
      rewrite Hq in Ha; exact Ha) l noStats (count_call db) p Hp Hdue).
    rewrite Erun in Hskips. exact Hskips.
Qed.

(* ===================================================================== *)
(** * Running the batch twice on one day *)
(* ===================================================================== *)

Lemma wf_date_day now : wf_date now -> 1 <= getDate now <= 31.
Proof.
  intros (_ & Hd & _).
  pose proof (daysInMonth_bounds (getFullYear now) (getMonth now)). lia.
Qed.

(** The reference date of a run is not after its clock reading, so a date
    after the clock reading is after the reference date of any run of
    the same day. *)
Lemma after_now_after_today now1 now2 next :
  wf_date now1 ->
  setHours0 now2 = setHours0 now1 ->
  date_ltb now1 next = true ->
  date_leb next (setHours0 now2) = false.
Proof.
  intros (_ & _ & Hms) -> Hlt. unfold msPerDay in Hms.
  destruct now1 as [y m d ms], next as [y' m' d' ms'].
  unfold setHours0. simpl in *. date_cases.
Qed.

(** A yearly income that was due and has been processed is not due again
    on the same day. *)
Lemma yearly_income_not_due_again now1 now2 income :
  wf_date now1 ->
  setHours0 now2 = setHours0 now1 ->
  Income.cycleType income = yearly ->
  shouldProcessIncome income (setHours0 now1) = true ->
  shouldProcessIncome (incomeProcessed now1 income) (setHours0 now2) = false.
Proof.
  intros Hwf Hday Hty Hdue.
  unfold shouldProcessIncome in *. simpl in *. rewrite Hty in *.
  destruct (Z.eqb_spec (Income.cycleDate income) (getDate now1)) as [Hcd|];
    [|discriminate].
  destruct (negb (Income.cycleDate income =? getDate now2)); [reflexivity|].
  apply (after_now_after_today now1 now2); [exact Hwf|exact Hday|].
  assert (Hrange : 1 <= Income.cycleDate income <= 31)
    by (rewrite Hcd; apply wf_date_day, Hwf).
  exact (nextRelaxationDate_after_now now1 (Income.cycleDate income) yearly Hwf Hrange).
Qed.

Lemma yearly_expense_not_due_again now1 now2 expense :
  wf_date now1 ->
  setHours0 now2 = setHours0 now1 ->
  Expense.cycleType expense = Some yearly ->
  shouldProcessExpense expense (setHours0 now1) = true ->
  shouldProcessExpense (expenseProcessed now1 expense) (setHours0 now2) = false.
Proof.
  intros Hwf Hday Hty Hdue.
  unfold shouldProcessExpense, expenseProcessed in *. simpl in *.
  destruct (Expense.cycleDate expense) as [c|] eqn:Hc;
    [|rewrite bool_decide_eq_false_2 in Hdue by discriminate; discriminate].
  destruct (decide (Some c = Some (getDate now1))) as [Hcd|Hne];
    [|rewrite bool_decide_eq_false_2 in Hdue by exact Hne; discriminate].
  injection Hcd as ->. simpl. rewrite Hc, Hty.
  destruct (negb (bool_decide (Some (getDate now1) = Some (getDate now2))));
    [reflexivity|].
  apply (after_now_after_today now1 now2); [exact Hwf|exact Hday|].
  exact (nextRelaxationDate_after_now now1 (getDate now1) yearly Hwf
           (wf_date_day now1 Hwf)).
Qed.

Lemma incomeProcessed_isDeleted now income :
  Income.isDeleted (incomeProcessed now income) = Income.isDeleted income.
Proof. reflexivity. Qed.

Lemma expenseProcessed_isDeleted now expense :
  Expense.isDeleted (expenseProcessed now expense) = Expense.isDeleted expense.
Proof. unfold expenseProcessed. destruct (Expense.cycleDate expense); reflexivity. Qed.

(** C5, as amended.  Two daily runs on the same day (the second at any
    later clock reading of that day), with no failing call and nothing
    else touching the database in between: every yearly source, income or
    expense, that the first run processed is skipped as not due by the
    second. *)
Theorem rerun_skips_processed_yearly :
  forall (now1 now2 : Date) (db : DB),
    wf_date now1 ->
    setHours0 now2 = setHours0 now1 ->
    rerunSkipsProcessed
      (fun income => Income.cycleType income = yearly)
      (fun expense => Expense.cycleType expense = Some yearly)
      now1 now2 db.
Proof.
  intros now1 now2 db Hwf Hday. unfold rerunSkipsProcessed, runDaily.
  destruct (checkIncomeSources_schedule now1 db)
    as (stI1 & dbI1 & EI1 & HexpI1 & HdoneI1 & _).
  destruct (checkExpenseSources_schedule now1 dbI1)
    as (stE1 & dbE1 & EE1 & HincE1 & HdoneE1 & _).
  destruct (checkIncomeSources_schedule now2 dbE1)
    as (stI2 & dbI2 & EI2 & HexpI2 & _ & HskipI2).
  destruct (checkExpenseSources_schedule now2 dbI2)
    as (stE2 & dbE2 & EE2 & _ & _ & HskipE2).
  rewrite EI1, EE1. simpl. rewrite EI2, EE2. simpl.
  split.
  - intros id income tx Hstored Hyearly Hin.
    destruct (HdoneI1 id tx Hin) as (income' & Hstored' & Hdel & Hdue & Hnow).
    rewrite Hstored in Hstored'. injection Hstored' as <-.
    apply (HskipI2 id (incomeProcessed now1 income)).
    + rewrite HincE1. exact Hnow.
    + rewrite incomeProcessed_isDeleted. exact Hdel.
    + apply yearly_income_not_due_again; assumption.
  - intros id expense tx Hstored Hyearly Hin.
    destruct (HdoneE1 id tx Hin) as (expense' & Hstored' & Hdel & Hdue & Hnow).
    rewrite HexpI1, Hstored in Hstored'. injection Hstored' as <-.
    apply (HskipE2 id (expenseProcessed now1 expense)).
    + rewrite HexpI2. exact Hnow.
    + rewrite expenseProcessed_isDeleted. exact Hdel.
    + apply yearly_expense_not_due_again; assumption.
Qed.

Lemma rerun_skips_processed_yearly_witness :
  rerunSkipsProcessed
    (fun income => Income.cycleType income = yearly)
    (fun expense => Expense.cycleType expense = Some yearly)
    Sample.march5 Sample.march5 Sample.household.
Proof.
  apply rerun_skips_processed_yearly.
  - apply wf_dateb_true. reflexivity.
  - reflexivity.
Defined.

(** C5, as stated, fails.  On 5 March the monthly salary is processed by
    the first run and processed again by a second run with the same
    reference date: its due check reads the day of the month only. *)
Lemma rerun_reprocesses_monthly :
  ~ rerunSkipsProcessed (fun _ => True) (fun _ => True)
      Sample.march5 Sample.march5 Sample.household.
Proof.
  intros [Hincome _].
  specialize (Hincome 20%nat Sample.salary 0%nat).
  assert (E1 : outcomesOf (fst (fst (runDaily noFault Sample.march5 Sample.household)))
               = [(20%nat, Processed 0%nat); (21%nat, Processed 1%nat)])
    by (vm_compute; reflexivity).
  assert (E2 : outcomesOf
                 (fst (fst (runDaily noFault Sample.march5
                              (snd (runDaily noFault Sample.march5 Sample.household)))))
               = [(20%nat, Processed 3%nat); (21%nat, SkippedNotDue)])
    by (vm_compute; reflexivity).
  cbv zeta in Hincome. rewrite E1, E2 in Hincome.
  assert (Hin : (20%nat, SkippedNotDue)
                ∈ [(20%nat, Processed 3%nat); (21%nat, SkippedNotDue)]).
  { apply Hincome; [vm_compute; reflexivity|exact I|left]. }
  apply elem_of_cons in Hin as [Hin|Hin]; [discriminate Hin|].
  apply elem_of_cons in Hin as [Hin|Hin]; [discriminate Hin|].
  inversion Hin.
Qed.

(** A quarterly source is processed again as well. *)
Example rerun_reprocesses_quarterly :
  outcomesOf (fst (fst (runDaily noFault Sample.april5 Sample.investor)))
  = [(22%nat, Processed 0%nat)] /\
  outcomesOf (fst (fst (runDaily noFault Sample.april5
                          (snd (runDaily noFault Sample.april5 Sample.investor)))))
  = [(22%nat, Processed 1%nat)].
Proof. vm_compute. split; reflexivity. Qed.

(** The salary is credited twice: 10000 + 2 * 3000 + 700 - 400. *)
Example rerun_credits_salary_twice :
  UserWallet.currentAmount <$>
    (wallets (snd (runDaily noFault Sample.march5
                     (snd (runDaily noFault Sample.march5 Sample.household))))
       !! 7%nat)
  = Some 16300.
Proof. vm_compute. reflexivity. Qed.

(* ===================================================================== *)
(** * Further properties of the batch jobs *)
(* ===================================================================== *)

(** Induction over the loop: what holds of the counters and the database
    at the start and is kept by every iteration holds at the end. *)
Lemma forEachSource_invariant {T} (iteration : Populated T -> DB -> Outcome * DB)
      (I : RunStats -> DB -> Prop) :
  (forall p st db,
     I st db ->
     I (record (_id p) (fst (iteration p db)) st) (snd (iteration p db))) ->
  forall l st db,
    I st db ->
    I (fst (forEachSource iteration l st db)) (snd (forEachSource iteration l st db)).
Proof.
  intros Hstep. induction l as [|p l IH]; intros st db HI; simpl; [exact HI|].
  specialize (Hstep p st db HI).
  destruct (iteration p db) as [o db1]. apply IH, Hstep.
Qed.

(** The queries of the jobs only count a call. *)
Lemma Income_find_db fault db l db1 :
  Income_find fault db = (Ok l, db1) ->
  db1 = count_call db /\
  l = populate Income.walletId Income.userId (count_call db) <$>
        filter (fun p => Income.isDeleted (snd p) = false) (map_to_list (incomes db)).
Proof.
  unfold Income_find. unfold_async. destruct (fault (calls db)); [discriminate|].
  simpl. intros H. injection H as <- <-. split; reflexivity.
Qed.

Lemma Expense_find_db fault db l db1 :
  Expense_find fault db = (Ok l, db1) ->
  db1 = count_call db /\
  l = populate Expense.walletId Expense.userId (count_call db) <$>
        filter (fun p => Expense.isDeleted (snd p) = false) (map_to_list (expenses db)).
Proof.
  unfold Expense_find. unfold_async. destruct (fault (calls db)); [discriminate|].
  simpl. intros H. injection H as <- <-. split; reflexivity.
Qed.

(** A job relates the database it starts from to the one it leaves by
    every reflexive and transitive relation that its iterations keep and
    that does not look at the call counter. *)
Lemma checkIncomeSources_rel fault now (R : DB -> DB -> Prop) :
  (forall db, R db db) ->
  (forall a b c, R a b -> R b c -> R a c) ->
  (forall db, R db (count_call db)) ->
  (forall p today db, R db (snd (incomeIteration fault now today p db))) ->
  forall db, R db (snd (checkIncomeSources fault now db)).
Proof.
  intros Hrefl Htrans Hcall Hiter db. unfold checkIncomeSources.
  destruct (Income_find fault db) as [[l|e] db1] eqn:Efind.
  - apply Income_find_db in Efind as [-> _].
    pose proof (forEachSource_invariant (incomeIteration fault now (setHours0 now))
                  (fun _ d => R db d)) as Hinv.
    specialize (Hinv ltac:(intros p st d Hd; eapply Htrans; [exact Hd|apply Hiter])
                       l noStats (count_call db) (Hcall db)).
    destruct (forEachSource _ l noStats (count_call db)) as [st db2]. exact Hinv.
  - revert Efind. unfold Income_find. unfold_async.
    destruct (fault (calls db)); intros H; injection H as _ <-; apply Hcall.
Qed.

Lemma checkExpenseSources_rel fault now (R : DB -> DB -> Prop) :
  (forall db, R db db) ->
  (forall a b c, R a b -> R b c -> R a c) ->
  (forall db, R db (count_call db)) ->
  (forall p today db, R db (snd (expenseIteration fault now today p db))) ->
  forall db, R db (snd (checkExpenseSources fault now db)).
Proof.
  intros Hrefl Htrans Hcall Hiter db. unfold checkExpenseSources.
  destruct (Expense_find fault db) as [[l|e] db1] eqn:Efind.
  - apply Expense_find_db in Efind as [-> _].
    pose proof (forEachSource_invariant (expenseIteration fault now (setHours0 now))
                  (fun _ d => R db d)) as Hinv.
    specialize (Hinv ltac:(intros p st d Hd; eapply Htrans; [exact Hd|apply Hiter])
                       l noStats (count_call db) (Hcall db)).
    destruct (forEachSource _ l noStats (count_call db)) as [st db2]. exact Hinv.
  - revert Efind. unfold Expense_find. unfold_async.
    destruct (fault (calls db)); intros H; injection H as _ <-; apply Hcall.
Qed.

Lemma runDaily_rel fault now (R : DB -> DB -> Prop) :
  (forall db, R db db) ->
  (forall a b c, R a b -> R b c -> R a c) ->
  (forall db, R db (count_call db)) ->
  (forall p today db, R db (snd (incomeIteration fault now today p db))) ->
  (forall p today db, R db (snd (expenseIteration fault now today p db))) ->
  forall db, R db (snd (runDaily fault now db)).
Proof.
  intros Hrefl Htrans Hcall Hinc Hexp db. unfold runDaily.
  pose proof (checkIncomeSources_rel fault now R Hrefl Htrans Hcall Hinc db) as H1.
  destruct (checkIncomeSources fault now db) as [s1 db1].
  pose proof (checkExpenseSources_rel fault now R Hrefl Htrans Hcall Hexp db1) as H2.
  destruct (checkExpenseSources fault now db1) as [s2 db2]. simpl in *.
  eapply Htrans; eassumption.
Qed.

(** ** Balances across a whole run *)








(** ** The ledger only grows *)

Lemma incomeIteration_transactions fault now today p db :
  transactions db ⊆ transactions (snd (incomeIteration fault now today p db)).
Proof.
  unfold incomeIteration, processIncomeSource.
  destruct (shouldProcessIncome (doc p) today); [|reflexivity].
  run_async; try reflexivity; apply insert_subseteq, fresh_transaction_id.
Qed.

Lemma expenseIteration_transactions fault now today p db :
  transactions db ⊆ transactions (snd (expenseIteration fault now today p db)).
Proof.
  unfold expenseIteration, processExpenseSource.
  destruct (shouldProcessExpense (doc p) today); [|reflexivity].
  run_async; try reflexivity; apply insert_subseteq, fresh_transaction_id.
Qed.

(** X3. Whatever database calls fail, a daily run removes and rewrites no
    stored transaction: each transaction stored before the run is stored
    unchanged, under the same id, after it. *)
Theorem run_keeps_stored_transactions :
  forall (fault : nat -> bool) (now : Date) (db : DB) (id : Id) (t : Transaction.t),
    transactions db !! id = Some t ->
    transactions (snd (runDaily fault now db)) !! id = Some t.
Proof.
  intros fault now db id t Ht.
  assert (H : transactions db ⊆ transactions (snd (runDaily fault now db))).
  { apply (runDaily_rel fault now (fun a b => transactions a ⊆ transactions b)).
    - reflexivity.
    - intros a b c Hab Hbc. etransitivity; eassumption.
    - reflexivity.
    - intros. apply incomeIteration_transactions.
    - intros. apply expenseIteration_transactions. }
  eapply lookup_weaken; eassumption.
Qed.

Lemma run_keeps_stored_transactions_witness :
  transactions (snd (runDaily noFault Sample.march5 Scenario.commuter)) !! 0%nat
  = Some Sample.coffee.
Proof.
  apply (run_keeps_stored_transactions noFault Sample.march5 Scenario.commuter).
  reflexivity.
Defined.

Lemma processedCount_record id o st :
  processedCount (record id o st)
  = (processedCount st + (if isProcessed o then 1 else 0))%nat.
Proof. destruct o; simpl; lia. Qed.

Lemma incomeIteration_count now today p db :
  size (transactions (snd (incomeIteration noFault now today p db)))
  = (size (transactions db)
     + (if isProcessed (fst (incomeIteration noFault now today p db)) then 1 else 0))%nat.
Proof.
  unfold incomeIteration, processIncomeSource.
  destruct (shouldProcessIncome (doc p) today); [|simpl; lia].
  unfold noFault. run_async; try lia.
  all: rewrite map_size_insert_None by apply fresh_transaction_id; lia.
Qed.

Lemma expenseIteration_count now today p db :
  size (transactions (snd (expenseIteration noFault now today p db)))
  = (size (transactions db)
     + (if isProcessed (fst (expenseIteration noFault now today p db)) then 1 else 0))%nat.
Proof.
  unfold expenseIteration, processExpenseSource.
  destruct (shouldProcessExpense (doc p) today) eqn:Hdue; [|simpl; lia].
  assert (Hcd : exists c, Expense.cycleDate (doc p) = Some c).
  { unfold shouldProcessExpense in Hdue.
    destruct (Expense.cycleDate (doc p)) as [c|]; [eauto|].
    rewrite bool_decide_eq_false_2 in Hdue by discriminate. discriminate. }
  destruct Hcd as [c Hcd].
  unfold Expense_updateRelaxationDate. rewrite Hcd.
  unfold noFault. run_async; try lia.
  all: rewrite map_size_insert_None by apply fresh_transaction_id; lia.
Qed.

Lemma job_count {T} (iteration : Populated T -> DB -> Outcome * DB) :
  (forall p db,
     size (transactions (snd (iteration p db)))
     = (size (transactions db) + (if isProcessed (fst (iteration p db)) then 1 else 0))%nat) ->
  forall l db,
    size (transactions (snd (forEachSource iteration l noStats db)))
    = (size (transactions db)
       + processedCount (fst (forEachSource iteration l noStats db)))%nat.
Proof.
  intros Hstep l db.
  apply (forEachSource_invariant iteration
           (fun st d => size (transactions d)
                        = (size (transactions db) + processedCount st)%nat)).
  - intros p st d Hd. rewrite Hstep, processedCount_record, Hd. lia.
  - simpl. lia.
Qed.

(** X4. With no failing database call, a daily run stores exactly one
    transaction per source it counts as processed: the number of stored
    transactions grows by the two [processedCount]s. *)
Theorem run_stores_one_transaction_per_processed :
  forall (now : Date) (db : DB),
    exists (incomeRun expenseRun : RunStats) (db' : DB),
      runDaily noFault now db = (Some incomeRun, Some expenseRun, db') /\
      size (transactions db')
      = (size (transactions db)
         + processedCount incomeRun + processedCount expenseRun)%nat.
Proof.
  intros now db. unfold runDaily, checkIncomeSources, checkExpenseSources.
  change (Income_find noFault db)
    with (Ok (populate Income.walletId Income.userId (count_call db) <$>
                filter (fun p => Income.isDeleted (snd p) = false)
                  (map_to_list (incomes db))), count_call db).
  cbv beta iota.
  set (l1 := populate Income.walletId Income.userId (count_call db) <$> _).
  pose proof (job_count (incomeIteration noFault now (setHours0 now))
                (incomeIteration_count now (setHours0 now)) l1 (count_call db)) as H1.
  destruct (forEachSource _ l1 noStats (count_call db)) as [st1 db1].
  simpl in H1.
  change (Expense_find noFault db1)
    with (Ok (populate Expense.walletId Expense.userId (count_call db1) <$>
                filter (fun p => Expense.isDeleted (snd p) = false)
                  (map_to_list (expenses db1))), count_call db1).
  cbv beta iota.
  set (l2 := populate Expense.walletId Expense.userId (count_call db1) <$> _).
  pose proof (job_count (expenseIteration noFault now (setHours0 now))
                (expenseIteration_count now (setHours0 now)) l2 (count_call db1)) as H2.
  destruct (forEachSource _ l2 noStats (count_call db1)) as [st2 db2].
  simpl in H2.
  exists st1, st2, db2. split; [reflexivity|]. lia.
Qed.

(** ** The counters of a run *)

Lemma countWhere_cons f r l :
  countWhere f (r :: l) = ((if f (snd r) then 1 else 0) + countWhere f l)%nat.
Proof.
  unfold countWhere. rewrite filter_cons.
  destruct (decide (f (snd r) = true)) as [E|E].
  - rewrite E. reflexivity.
  - destruct (f (snd r)); [congruence|reflexivity].
Qed.

Lemma outcome_kinds l :
  (countWhere isProcessed l + countWhere isSkipped l
   + countWhere isInsufficient l + countWhere isFailed l)%nat = length l.
Proof.
  induction l as [|[id o] l IH]; [reflexivity|].
  rewrite !countWhere_cons. simpl. destruct o; simpl; lia.
Qed.

Lemma incomeIteration_sufficient fault now today p db :
  fst (incomeIteration fault now today p db) <> InsufficientFunds.
Proof.
  unfold incomeIteration.
  destruct (shouldProcessIncome (doc p) today); [|discriminate].
  unfold bind, ret.
  destruct (processIncomeSource fault now p db) as [[tx|e] db1]; simpl; discriminate.
Qed.

Lemma countWhere_none f (l : list (Id * Outcome)) :
  Forall (fun r => f (snd r) = false) l -> countWhere f l = 0%nat.
Proof.
  induction 1 as [|r l Hr _ IH]; [reflexivity|].
  rewrite countWhere_cons, Hr, IH. reflexivity.
Qed.

(** X5. Whatever database calls fail after the query of a job has
    returned: the counters that the job logs fall short of the number of
    sources by exactly the number of sources whose processing threw.
    For the income job processed + skipped + failed is the total; for the
    expense job processed + insufficient funds + skipped + failed is. *)
Theorem counters_account_for_every_source :
  forall (fault : nat -> bool) (now : Date) (db : DB),
    fault (calls db) = false ->
    exists incomeSources incomeRun db1 expenseSources expenseRun db2,
      Income_find fault db = (Ok incomeSources, count_call db) /\
      checkIncomeSources fault now db = (Some incomeRun, db1) /\
      (processedCount incomeRun + skippedCount incomeRun
       + countWhere isFailed (outcomes incomeRun))%nat = length incomeSources /\
      insufficientFundsCount incomeRun = 0%nat /\
      Expense_find fault db = (Ok expenseSources, count_call db) /\
      checkExpenseSources fault now db = (Some expenseRun, db2) /\
      (processedCount expenseRun + insufficientFundsCount expenseRun
       + skippedCount expenseRun + countWhere isFailed (outcomes expenseRun))%nat
      = length expenseSources.
Proof.
  intros fault now db Hok.
  assert (Hfi : exists l, Income_find fault db = (Ok l, count_call db)).
  { unfold Income_find. unfold_async. rewrite Hok. simpl. eauto. }
  assert (Hfe : exists l, Expense_find fault db = (Ok l, count_call db)).
  { unfold Expense_find. unfold_async. rewrite Hok. simpl. eauto. }
  destruct Hfi as [li Hfi], Hfe as [le Hfe].
  destruct (job_isolation (incomeIteration fault now (setHours0 now))
              (fun p => shouldProcessIncome (doc p) (setHours0 now)) li (count_call db))
    as (sti & dbi & Hruni & Halli & (Hpi & Hsi & Hii) & _).
  { intros p d. apply incomeIteration_attempt. }
  destruct (job_isolation (expenseIteration fault now (setHours0 now))
              (fun p => shouldProcessExpense (doc p) (setHours0 now)) le (count_call db))
    as (ste & dbe & Hrune & Halle & (Hpe & Hse & Hie) & _).
  { intros p d. apply expenseIteration_attempt. }
  destruct (forEachSource_outcomes (incomeIteration fault now (setHours0 now))
              (fun _ o => o <> InsufficientFunds)
              ltac:(intros p d; apply incomeIteration_sufficient)
              li noStats (count_call db)) as (news & Hnews & Hsuff).
  rewrite Hruni in Hnews. simpl in Hnews.
  exists li, sti, dbi, le, ste, dbe.
  split; [exact Hfi|]. split.
  { unfold checkIncomeSources. rewrite Hfi, Hruni. reflexivity. }
  assert (Hzero : insufficientFundsCount sti = 0%nat).
  { rewrite Hii, Hnews. apply countWhere_none.
    clear -Hsuff. induction Hsuff as [|p r l k [_ Hr] _ IH]; constructor; [|exact IH].
    destruct (snd r); try reflexivity. congruence. }
  split.
  { pose proof (outcome_kinds (outcomes sti)) as Hk.
    rewrite <- Hpi, <- Hsi, <- Hii, Hzero in Hk.
    rewrite <- (Forall2_length _ _ _ Halli) in Hk. lia. }
  split; [exact Hzero|]. split; [exact Hfe|]. split.
  { unfold checkExpenseSources. rewrite Hfe, Hrune. reflexivity. }
  pose proof (outcome_kinds (outcomes ste)) as Hk.
  rewrite <- Hpe, <- Hse, <- Hie in Hk.
  rewrite <- (Forall2_length _ _ _ Halle) in Hk. lia.
Qed.

Lemma counters_account_for_every_source_witness :
  exists incomeRun db1,
    checkIncomeSources (fun n => Nat.eqb n 1) Sample.march5 Sample.household
    = (Some incomeRun, db1) /\
    (processedCount incomeRun + skippedCount incomeRun
     + countWhere isFailed (outcomes incomeRun))%nat = 2%nat.
Proof.
  destruct (counters_account_for_every_source (fun n => Nat.eqb n 1) Sample.march5
              Sample.household eq_refl)
    as (li & sti & dbi & le & ste & dbe & Hfi & Hruni & Hcount & _).
  exists sti, dbi. split; [exact Hruni|].
  rewrite Hcount.
  assert (E : length <$> (match fst (Income_find (fun n => Nat.eqb n 1) Sample.household)
                          with Ok l => Some l | Throw _ => None end) = Some 2%nat)
    by (vm_compute; reflexivity).
  rewrite Hfi in E. simpl in E. injection E as E. exact E.
Defined.

(** ** Which sources a job touches *)

Lemma Forall2_elem_of_r {A B} (P : A -> B -> Prop) l k y :
  Forall2 P l k -> y ∈ k -> exists x, x ∈ l /\ P x y.
Proof.
  induction 1 as [|x y' l k Hxy _ IH]; intros Hin; [inversion Hin|].
  apply elem_of_cons in Hin as [->|Hin].
  - exists x. split; [left|exact Hxy].
  - destruct (IH Hin) as (x' & Hx' & HP). exists x'. split; [right; exact Hx'|exact HP].
Qed.

(** Every log entry of the income job belongs to a stored income that is
    not deleted. *)
Lemma checkIncomeSources_logged fault now db st db' :
  checkIncomeSources fault now db = (Some st, db') ->
  forall id o, (id, o) ∈ outcomes st ->
    exists income,
      incomes db !! id = Some income /\ Income.isDeleted income = false /\
      (shouldProcessIncome income (setHours0 now) = false -> o = SkippedNotDue).
Proof.
  unfold checkIncomeSources.
  destruct (Income_find fault db) as [[l|e] db1] eqn:Efind; [|discriminate].
  apply Income_find_db in Efind as [-> ->].
  destruct (found_sources Income.walletId Income.userId Income.isDeleted
              (incomes db) (count_call db)) as (_ & Hsound & _).
  cbv zeta in Hsound.
  set (l := populate Income.walletId Income.userId (count_call db) <$> _) in *.
  destruct (forEachSource_outcomes (incomeIteration fault now (setHours0 now))
              (fun p o => shouldProcessIncome (doc p) (setHours0 now) = false ->
                          o = SkippedNotDue)
              ltac:(intros p d Hd;
                    pose proof (incomeIteration_attempt fault now (setHours0 now) p d) as Ha;
                    rewrite Hd in Ha; exact Ha)
              l noStats (count_call db)) as (news & Hout & Hall).
  destruct (forEachSource _ l noStats (count_call db)) as [st1 db2].
  simpl in Hout. intros H. injection H as <- <-.
  intros id o Hin. rewrite Hout in Hin.
  destruct (Forall2_elem_of_r _ _ _ _ Hall Hin) as (p & Hp & Hid & HP).
  simpl in Hid, HP. subst id.
  destruct (Hsound p Hp) as [Hstored Hdel].
  exists (doc p). auto.
Qed.

Lemma checkExpenseSources_logged fault now db st db' :
  checkExpenseSources fault now db = (Some st, db') ->
  forall id o, (id, o) ∈ outcomes st ->
    exists expense,
      expenses db !! id = Some expense /\ Expense.isDeleted expense = false /\
      (shouldProcessExpense expense (setHours0 now) = false -> o = SkippedNotDue).
Proof.
  unfold checkExpenseSources.
  destruct (Expense_find fault db) as [[l|e] db1] eqn:Efind; [|discriminate].
  apply Expense_find_db in Efind as [-> ->].
  destruct (found_sources Expense.walletId Expense.userId Expense.isDeleted
              (expenses db) (count_call db)) as (_ & Hsound & _).
  cbv zeta in Hsound.
  set (l := populate Expense.walletId Expense.userId (count_call db) <$> _) in *.
  destruct (forEachSource_outcomes (expenseIteration fault now (setHours0 now))
              (fun p o => shouldProcessExpense (doc p) (setHours0 now) = false ->
                          o = SkippedNotDue)
              ltac:(intros p d Hd;
                    pose proof (expenseIteration_attempt fault now (setHours0 now) p d) as Ha;
                    rewrite Hd in Ha; exact Ha)
              l noStats (count_call db)) as (news & Hout & Hall).
  destruct (forEachSource _ l noStats (count_call db)) as [st1 db2].
  simpl in Hout. intros H. injection H as <- <-.
  intros id o Hin. rewrite Hout in Hin.
  destruct (Forall2_elem_of_r _ _ _ _ Hall Hin) as (p & Hp & Hid & HP).
  simpl in Hid, HP. subst id.
  destruct (Hsound p Hp) as [Hstored Hdel].
  exists (doc p). auto.
Qed.

Lemma no_cycleDate_not_due expense today :
  Expense.cycleDate expense = None -> shouldProcessExpense expense today = false.
Proof.
  intros H. unfold shouldProcessExpense. rewrite H.
  rewrite bool_decide_eq_false_2 by discriminate. reflexivity.
Qed.

(** A log entry of the expense job is a skip exactly when the stored
    expense is not due. *)
Lemma checkExpenseSources_skips fault now db st db' :
  checkExpenseSources fault now db = (Some st, db') ->
  forall id o, (id, o) ∈ outcomes st ->
    exists expense,
      expenses db !! id = Some expense /\ Expense.isDeleted expense = false /\
      (o = SkippedNotDue <-> shouldProcessExpense expense (setHours0 now) = false).
Proof.
  unfold checkExpenseSources.
  destruct (Expense_find fault db) as [[l|e] db1] eqn:Efind; [|discriminate].
  apply Expense_find_db in Efind as [-> ->].
  destruct (found_sources Expense.walletId Expense.userId Expense.isDeleted
              (expenses db) (count_call db)) as (_ & Hsound & _).
  cbv zeta in Hsound.
  set (l := populate Expense.walletId Expense.userId (count_call db) <$> _) in *.
  destruct (forEachSource_outcomes (expenseIteration fault now (setHours0 now))
              (fun p o => o = SkippedNotDue <->
                          shouldProcessExpense (doc p) (setHours0 now) = false)
              ltac:(intros p d; cbv beta;
                    pose proof (expenseIteration_attempt fault now (setHours0 now) p d) as Ha;
                    destruct (shouldProcessExpense (doc p) (setHours0 now));
                    split; [intros E; contradiction|discriminate|intros _; reflexivity|intros _; exact Ha])
              l noStats (count_call db)) as (news & Hout & Hall).
  destruct (forEachSource _ l noStats (count_call db)) as [st1 db2].
  simpl in Hout. intros H. injection H as <- <-.
  intros id o Hin. rewrite Hout in Hin.
  destruct (Forall2_elem_of_r _ _ _ _ Hall Hin) as (p & Hp & Hid & HP).
  simpl in Hid, HP. subst id.
  destruct (Hsound p Hp) as [Hstored Hdel].
  exists (doc p). auto.
Qed.

(** X6. The expense job selects by [isDeleted] and decides by the cycle
    date; neither its query nor its test of the day reads
    [isFixedExpense].  Whatever database calls fail, it logs only stored
    expenses that are not soft-deleted; an entry is a skip exactly when
    [shouldProcessExpense] is false of the stored expense; the test has
    the same result whatever the [isFixedExpense] flag of the expense is;
    and an expense without a cycle date (as [POST /api/expenses] stores
    a spontaneous expense) is only ever skipped, on every date.  A
    spontaneous expense that has a cycle date ([PUT /api/expenses/:id]
    accepts one) is therefore tested like a fixed one. *)
Theorem expense_job_decides_by_cycle_date :
  forall (fault : nat -> bool) (now : Date) (db : DB) (st : RunStats) (db' : DB),
    checkExpenseSources fault now db = (Some st, db') ->
    forall id o,
      (id, o) ∈ outcomes st ->
      exists expense,
        expenses db !! id = Some expense /\
        Expense.isDeleted expense = false /\
        (o = SkippedNotDue <-> shouldProcessExpense expense (setHours0 now) = false) /\
        (forall b : bool,
           shouldProcessExpense (withFixed b expense) (setHours0 now)
           = shouldProcessExpense expense (setHours0 now)) /\
        (Expense.cycleDate expense = None -> o = SkippedNotDue).
Proof.
  intros fault now db st db' Hrun id o Hin.
  destruct (checkExpenseSources_skips fault now db st db' Hrun id o Hin)
    as (expense & Hstored & Hdel & Hskip).
  exists expense. split; [exact Hstored|]. split; [exact Hdel|].
  split; [exact Hskip|]. split; [intros b; reflexivity|].
  intros Hnone. apply Hskip, no_cycleDate_not_due, Hnone.
Qed.

Lemma expense_job_decides_by_cycle_date_witness :
  exists st db',
    checkExpenseSources noFault Sample.march5 Scenario.commuter = (Some st, db') /\
    (32%nat, SkippedNotDue) ∈ outcomes st /\
    forall o, (32%nat, o) ∈ outcomes st -> o = SkippedNotDue.
Proof.
  destruct (checkExpenseSources noFault Sample.march5 Scenario.commuter)
    as [[st|] db'] eqn:Hrun; [|vm_compute in Hrun; discriminate Hrun].
  exists st, db'. split; [reflexivity|]. split.
  - assert (E : outcomes <$> fst (checkExpenseSources noFault Sample.march5
                                    Scenario.commuter)
                 = Some [(32%nat, SkippedNotDue); (31%nat, Processed 1%nat)])
      by (vm_compute; reflexivity).
    rewrite Hrun in E. simpl in E. injection E as ->. left.
  - intros o Hin.
    destruct (expense_job_decides_by_cycle_date noFault Sample.march5
                Scenario.commuter st db' Hrun 32%nat o Hin)
      as (expense & Hstored & _ & _ & _ & Hskip).
    apply Hskip.
    assert (E : expense = Scenario.taxiRide).
    { change (Some Scenario.taxiRide = Some expense) in Hstored. congruence. }
    rewrite E. reflexivity.
Defined.

(** A spontaneous expense that a [PUT] has given a cycle date is posted
    by the job: the taxi ride of 40 (spontaneous, with its entry date),
    once it has [cycleDate: 5], is processed on 5 March with the
    insurance of 400, and the wallet of 10000 is debited for both. *)
Example spontaneous_expense_with_cycle_date_is_posted :
  let dated := MkUpdateBody None None None None (Some 5) None None in
  let edited := updateExpense noFault 1%nat 32%nat dated Scenario.commuter in
  let run := checkExpenseSources noFault Sample.march5 (snd edited) in
  fst edited = Ok200 /\
  (Expense.isFixedExpense <$> expenses (snd edited) !! 32%nat) = Some false /\
  (outcomes <$> fst run) = Some [(32%nat, Processed 1%nat); (31%nat, Processed 2%nat)] /\
  (UserWallet.currentAmount <$> wallets (snd run) !! 7%nat) = Some 9560.
Proof. repeat split; vm_compute; reflexivity. Qed.

(** ** Soft deletion of a source *)

Lemma insert_as_alter {A} (m : gmap Id A) id x y :
  m !! id = Some x -> alter (fun _ => y) id m = <[id := y]> m.
Proof.
  intros H. apply map_eq. intros j. destruct (decide (j = id)) as [->|Hne].
  - rewrite lookup_alter_eq, lookup_insert_eq, H. reflexivity.
  - rewrite lookup_alter_ne, lookup_insert_ne by congruence. reflexivity.
Qed.

Lemma Income_assigned_markDeleted now d :
  Income_assigned d (Income_markDeleted now d) = true.
Proof.
  unfold Income_assigned, Income_markDeleted. simpl.
  rewrite !bool_decide_eq_true_2 by reflexivity. reflexivity.
Qed.

Lemma Expense_assigned_markDeleted now d :
  Expense_assigned d (Expense_markDeleted now d) = true.
Proof.
  unfold Expense_assigned, Expense_markDeleted. simpl.
  rewrite !bool_decide_eq_true_2 by reflexivity. reflexivity.
Qed.

Lemma deleteIncome_ok now userId id db income :
  incomes db !! id = Some income ->
  Income.userId income = userId ->
  Income.isDeleted income = false ->
  Income.name income <> "" ->
  deleteIncome noFault now userId id db
  = (Ok200, with_incomes (insert id (Income_markDeleted now income))
              (count_call (count_call db))).
Proof.
  intros Hstored Hu Hdel Hname.
  unfold deleteIncome, Income_findOne, Income_softDelete, Income_save.
  unfold_async. unfold noFault.
  cbn -[Income_assigned Income_required Income_markDeleted].
  rewrite Hstored, Hu, Hdel, bool_decide_eq_true_2 by reflexivity.
  cbn -[Income_assigned Income_required Income_markDeleted].
  rewrite Income_assigned_markDeleted.
  replace (Income_required (Income_markDeleted now income)) with true.
  2:{ unfold Income_required. simpl. apply String.eqb_neq in Hname.
      rewrite Hname. reflexivity. }
  simpl. unfold with_incomes. simpl.
  rewrite (insert_as_alter _ _ income) by exact Hstored. reflexivity.
Qed.

Lemma deleteExpense_ok now userId id db expense :
  expenses db !! id = Some expense ->
  Expense.userId expense = userId ->
  Expense.isDeleted expense = false ->
  Expense_required expense = true ->
  deleteExpense noFault now userId id db
  = (Ok200, with_expenses (insert id (Expense_markDeleted now expense))
              (count_call (count_call db))).
Proof.
  intros Hstored Hu Hdel Hreq.
  unfold deleteExpense, Expense_findOne, Expense_softDelete, Expense_save.
  unfold_async. unfold noFault.
  cbn -[Expense_assigned Expense_required Expense_markDeleted].
  rewrite Hstored, Hu, Hdel, bool_decide_eq_true_2 by reflexivity.
  cbn -[Expense_assigned Expense_required Expense_markDeleted].
  rewrite Expense_assigned_markDeleted.
  replace (Expense_required (Expense_markDeleted now expense)) with true
    by (rewrite <- Hreq; reflexivity).
  simpl. unfold with_expenses. simpl.
  rewrite (insert_as_alter _ _ expense) by exact Hstored. reflexivity.
Qed.

(** X7. Soft-deleting a stored income or expense source of the user (no
    database call failing, the [required] paths of the document present)
    answers 200 and rewrites that one document with [isDeleted] set and
    [deletedAt] stamped; no transaction and no balance changes; and no
    later run of the source's job, whatever its date and whatever calls
    fail in it, logs the source: it is never processed again. *)
Theorem deleted_source_leaves_the_batch :
  forall (now : Date) (userId incomeId expenseId : Id) (db : DB)
         (income : Income.t) (expense : Expense.t),
    incomes db !! incomeId = Some income ->
    Income.userId income = userId ->
    Income.isDeleted income = false ->
    Income.name income <> "" ->
    expenses db !! expenseId = Some expense ->
    Expense.userId expense = userId ->
    Expense.isDeleted expense = false ->
    Expense_required expense = true ->
    let afterIncome := deleteIncome noFault now userId incomeId db in
    let afterExpense := deleteExpense noFault now userId expenseId db in
    fst afterIncome = Ok200 /\
    incomes (snd afterIncome) = <[incomeId := Income_markDeleted now income]> (incomes db) /\
    transactions (snd afterIncome) = transactions db /\
    wallets (snd afterIncome) = wallets db /\
    (forall fault now' st db',
       checkIncomeSources fault now' (snd afterIncome) = (Some st, db') ->
       incomeId ∉ (outcomes st).*1) /\
    fst afterExpense = Ok200 /\
    expenses (snd afterExpense)
    = <[expenseId := Expense_markDeleted now expense]> (expenses db) /\
    transactions (snd afterExpense) = transactions db /\
    wallets (snd afterExpense) = wallets db /\
    (forall fault now' st db',
       checkExpenseSources fault now' (snd afterExpense) = (Some st, db') ->
       expenseId ∉ (outcomes st).*1).
Proof.
  intros now userId incomeId expenseId db income expense
         Hi Hiu Hid Hin He Heu Hed Her afterIncome afterExpense.
  subst afterIncome afterExpense.
  rewrite (deleteIncome_ok now userId incomeId db income Hi Hiu Hid Hin).
  rewrite (deleteExpense_ok now userId expenseId db expense He Heu Hed Her).
  simpl.
  split; [reflexivity|]. split; [reflexivity|]. split; [reflexivity|].
  split; [reflexivity|]. split.
  { intros fault now' st db' Hrun Hlogged.
    apply list_elem_of_fmap in Hlogged as ([id o] & -> & Hin').
    destruct (checkIncomeSources_logged _ _ _ _ _ Hrun _ _ Hin')
      as (d & Hstored & Hdel & _).
    simpl in Hstored. rewrite lookup_insert_eq in Hstored.
    injection Hstored as <-. discriminate Hdel. }
  split; [reflexivity|]. split; [reflexivity|]. split; [reflexivity|].
  split; [reflexivity|].
  intros fault now' st db' Hrun Hlogged.
  apply list_elem_of_fmap in Hlogged as ([id o] & -> & Hin').
  destruct (checkExpenseSources_logged _ _ _ _ _ Hrun _ _ Hin')
    as (d & Hstored & Hdel & _).
  simpl in Hstored. rewrite lookup_insert_eq in Hstored.
  injection Hstored as <-. discriminate Hdel.
Qed.

Lemma deleted_source_leaves_the_batch_witness :
  fst (deleteIncome noFault Sample.march1 1%nat 20%nat Scenario.commuter) = Ok200 /\
  forall fault now st db',
    checkIncomeSources fault now
      (snd (deleteIncome noFault Sample.march1 1%nat 20%nat Scenario.commuter))
    = (Some st, db') ->
    20%nat ∉ (outcomes st).*1.
Proof.
  destruct (deleted_source_leaves_the_batch Sample.march1 1%nat 20%nat 31%nat
              Scenario.commuter Sample.salary Sample.insurance)
    as (Hok & _ & _ & _ & Hnever & _).
  - reflexivity.
  - reflexivity.
  - reflexivity.
  - discriminate.
  - reflexivity.
  - reflexivity.
  - reflexivity.
  - reflexivity.
  - split; [exact Hok|exact Hnever].
Defined.

(** ** Documents of other users *)

Ltac unfold_routes :=
  unfold Income_findOne, Expense_findOne, Income_softDelete, Expense_softDelete,
    Income_save, Expense_save in *.


Lemma sameData_count db : sameData db (count_call db).
Proof. repeat split. Qed.

(** X8. A user reaches only their own, not deleted documents through the
    deletion and update routes: when the id names no transaction (income,
    expense) that is stored, belongs to the user and is not soft-deleted,
    [DELETE /api/transactions/:id] ([DELETE] and [PUT] of
    [/api/incomes/:id], of [/api/expenses/:id]) does not answer 200 and
    leaves every collection as it was, whatever database calls fail.
    In particular a second deletion of the same document changes
    nothing. *)
Theorem foreign_documents_untouched :
  forall (fault : nat -> bool) (now : Date) (userId id : Id) (body : UpdateBody) (db : DB),
    (transactionOf userId id db = None ->
     fst (deleteTransaction fault now userId id db) <> Ok200 /\
     sameData db (snd (deleteTransaction fault now userId id db))) /\
    (incomeOf userId id db = None ->
     fst (deleteIncome fault now userId id db) <> Ok200 /\
     sameData db (snd (deleteIncome fault now userId id db)) /\
     fst (updateIncome fault userId id body db) <> Ok200 /\
     sameData db (snd (updateIncome fault userId id body db))) /\
    (expenseOf userId id db = None ->
     fst (deleteExpense fault now userId id db) <> Ok200 /\
     sameData db (snd (deleteExpense fault now userId id db)) /\
     fst (updateExpense fault userId id body db) <> Ok200 /\
     sameData db (snd (updateExpense fault userId id body db))).
Proof.
  intros fault now userId id body db. split; [|split].
  - unfold transactionOf. intros Hnone.
    unfold deleteTransaction, Transaction_findOne. unfold_async. simpl.
    destruct (fault (calls db)); simpl; [split; [discriminate|apply sameData_count]|].
    rewrite Hnone. simpl. split; [discriminate|apply sameData_count].
  - unfold incomeOf. intros Hnone.
    unfold deleteIncome, updateIncome, Income_findOne. unfold_async. simpl.
    destruct (validateUpdateBody body); simpl;
      (destruct (fault (calls db)); simpl; [|rewrite Hnone; simpl]);
      repeat split; discriminate.
  - unfold expenseOf. intros Hnone.
    unfold deleteExpense, updateExpense, Expense_findOne. unfold_async. simpl.
    destruct (validateUpdateBody body); simpl;
      (destruct (fault (calls db)); simpl; [|rewrite Hnone; simpl]);
      repeat split; discriminate.
Qed.

(** X9. Nothing can be posted to a wallet that is not the user's: when
    the wallet id of the request names no wallet that is stored, belongs
    to the user and is not soft-deleted, [POST /api/expenses],
    [POST /api/incomes] and [POST /api/transactions] do not answer 201
    and store nothing, whatever database calls fail. *)
Theorem foreign_wallet_rejected :
  forall (fault : nat -> bool) (now : Date) (userId : Id) (db : DB)
         (source : SourceBody) (manual : TransactionBody),
    walletOf userId (b_walletId source) db = None ->
    walletOf userId (t_walletId manual) db = None ->
    (fst (createExpense fault now userId source db) <> Created201 /\
     sameData db (snd (createExpense fault now userId source db))) /\
    (fst (createIncome fault now userId source db) <> Created201 /\
     sameData db (snd (createIncome fault now userId source db))) /\
    (fst (createTransaction fault now userId manual db) <> Created201 /\
     sameData db (snd (createTransaction fault now userId manual db))).
Proof.
  intros fault now userId db source manual Hs Hm.
  unfold walletOf in Hs, Hm.
  unfold createExpense, createIncome, createTransaction, UserWallet_findOne.
  unfold_async. simpl.
  destruct (validateSourceBody source), (validateTransactionBody manual); simpl;
    destruct (fault (calls db)); simpl; rewrite ?Hs, ?Hm; simpl;
    repeat split; discriminate.
Qed.

Lemma foreign_wallet_rejected_witness :
  fst (createTransaction noFault Sample.march1 2%nat (Sample.groceries 300) Sample.tenant)
  <> Created201 /\
  sameData Sample.tenant
    (snd (createTransaction noFault Sample.march1 2%nat (Sample.groceries 300)
            Sample.tenant)).
Proof.
  destruct (foreign_wallet_rejected noFault Sample.march1 2%nat Sample.tenant
              (Sample.taxi 5000) (Sample.groceries 300) eq_refl eq_refl)
    as (_ & _ & H).
  exact H.
Defined.

Lemma foreign_documents_untouched_witness :
  fst (deleteTransaction noFault Sample.march5 2%nat 0%nat Sample.ledger) <> Ok200 /\
  sameData Sample.ledger
    (snd (deleteTransaction noFault Sample.march5 2%nat 0%nat Sample.ledger)).
Proof.
  destruct (foreign_documents_untouched noFault Sample.march5 2%nat 0%nat
              (MkUpdateBody None None None None None None None) Sample.ledger)
    as (H & _ & _).
  apply H. reflexivity.
Defined.

(** ** A transaction entered by hand *)

Lemma walletOf_stored userId id db w :
  walletOf userId id db = Some w ->
  wallets db !! id = Some w /\ UserWallet.userId w = userId /\
  UserWallet.isDeleted w = false.
Proof.
  unfold walletOf. destruct (wallets db !! id) as [w0|]; [|discriminate].
  destruct (bool_decide (UserWallet.userId w0 = userId)) eqn:Hu; [|discriminate].
  destruct (UserWallet.isDeleted w0) eqn:Hd; [discriminate|]. simpl.
  intros H. injection H as <-. apply bool_decide_eq_true in Hu. auto.
Qed.

Lemma limits_of_request walletId userId title description file date amount ty :
  Transaction.limits
    (Transaction.Build walletId userId (trim title) (orElse (trim <$> description) None)
       file date amount ty false None) = true <->
  (String.length (trim title) <= 200)%nat /\
  descriptionFits description /\
  (forall f, file = Some f -> Transaction.fileAllowed f = true).
Proof.
  unfold Transaction.limits, descriptionFits.
  cbn [Transaction.title Transaction.description Transaction.file].
  rewrite !andb_true_iff, Nat.leb_le. split.
  - intros [[Ht Hd] Hf]. split; [exact Ht|]. split.
    + intros d ->. simpl in Hd. destruct (String.eqb_spec (trim d) "") as [E|_].
      * rewrite E. simpl. lia.
      * apply Nat.leb_le, Hd.
    + intros f ->. exact Hf.
  - intros (Ht & Hd & Hf). split; [split; [exact Ht|]|].
    + destruct description as [d|]; simpl; [|reflexivity].
      destruct (String.eqb (trim d) ""); [reflexivity|].
      apply Nat.leb_le, Hd. reflexivity.
    + destruct file as [f|]; [apply Hf; reflexivity|reflexivity].
Qed.

(** X10. [POST /api/transactions] with a valid body on a wallet of the
    user, no database call failing, the uploaded file (if any) stored
    under one of the extensions of the schema.  When the trimmed title
    has more than 200 characters or the trimmed description more than
    500, the request is answered 500 and nothing is stored.  Otherwise:
    an income is stored as one new transaction, under the
    trimmed title, and credits the wallet by the amount; an expense that
    the balance covers is stored as one new transaction and debits the
    wallet by the amount; an expense above the balance is answered 400
    and the transaction created for it is deleted again, so that
    collections and balances are exactly as before. *)
Theorem manual_transaction_effect :
  forall (now : Date) (userId : Id) (body : TransactionBody) (db : DB)
         (wallet : UserWallet.t),
    validateTransactionBody body = true ->
    uploadAllowed body ->
    walletOf userId (t_walletId body) db = Some wallet ->
    let result := createTransaction noFault now userId body db in
    let stored :=
      exists t,
        transactions (snd result)
        = <[fresh (dom (transactions db)) := t]> (transactions db) /\
        Transaction.amount t = t_amount body /\
        Transaction.transactionType t = t_transactionType body /\
        Transaction.walletId t = t_walletId body /\
        Transaction.userId t = userId /\
        Transaction.title t = trim (t_title body) in
    (~ transactionTextFits body ->
     fst result = ServerError500 /\ sameData db (snd result)) /\
    (transactionTextFits body ->
     t_transactionType body = TxIncome ->
     fst result = Created201 /\ stored /\
     wallets (snd result)
     = <[t_walletId body := UserWallet.inc_currentAmount (t_amount body) wallet]>
         (wallets db)) /\
    (transactionTextFits body ->
     t_transactionType body = TxExpense ->
     t_amount body <= UserWallet.currentAmount wallet ->
     fst result = Created201 /\ stored /\
     wallets (snd result)
     = <[t_walletId body := UserWallet.inc_currentAmount (- t_amount body) wallet]>
         (wallets db)) /\
    (transactionTextFits body ->
     t_transactionType body = TxExpense ->
     UserWallet.currentAmount wallet < t_amount body ->
     fst result = BadRequest400 "Insufficient balance in wallet" /\
     sameData db (snd result)).
Proof.
  intros now userId body db wallet Hval Hfile Hw result stored.
  pose proof Hval as Hval'. unfold validateTransactionBody in Hval'.
  apply andb_prop in Hval' as [Htitle Hamt].
  pose proof (walletOf_stored _ _ _ _ Hw) as (Hstored & Hu & Hdel).
  assert (Halter : forall delta,
             alter (UserWallet.inc_currentAmount delta) (t_walletId body) (wallets db)
             = <[t_walletId body := UserWallet.inc_currentAmount delta wallet]> (wallets db)).
  { intros delta. apply map_eq. intros j.
    destruct (decide (j = t_walletId body)) as [->|Hne].
    - rewrite lookup_alter_eq, lookup_insert_eq, Hstored. reflexivity.
    - rewrite lookup_alter_ne, lookup_insert_ne by congruence. reflexivity. }
  pose proof (limits_of_request (t_walletId body) userId (t_title body)
                (t_description body) (t_file body)
                (match t_transactionDate body with Some d => d | None => now end)
                (t_amount body) (t_transactionType body)) as Hfits.
  assert (Hiff : Transaction.limits
                   (Transaction.Build (t_walletId body) userId (trim (t_title body))
                      (orElse (trim <$> t_description body) None) (t_file body)
                      (match t_transactionDate body with Some d => d | None => now end)
                      (t_amount body) (t_transactionType body) false None) = true <->
                 transactionTextFits body).
  { rewrite Hfits. unfold transactionTextFits, uploadAllowed in *. tauto. }
  clear Hfits. rename Hiff into Hfits.
  subst result stored.
  unfold createTransaction. rewrite Hval.
  cbn -[Transaction.limits trim orElse].
  unfold UserWallet_findOne, Transaction_createFromRequest, Transaction_create,
    Transaction.validate.
  unfold_async. unfold noFault. cbn -[Transaction.limits trim orElse].
  unfold walletOf in Hw. rewrite Hw. cbn -[Transaction.limits trim orElse].
  destruct (Transaction.limits _) eqn:Hlim.
  2:{ assert (Hno : ~ transactionTextFits body).
      { intros H. apply Hfits in H. congruence. }
      split; [intros _; split; [reflexivity|repeat split]|].
      split; [intros H; contradiction|].
      split; intros H; contradiction. }
  assert (Hyes : transactionTextFits body) by (apply Hfits; reflexivity).
  split; [intros H; contradiction|].
  rewrite Htitle, Hamt. cbn -[trim orElse].
  destruct (t_transactionType body) eqn:Hty; cbn -[trim orElse].
  - split; [|split; intros _ Hd; discriminate Hd].
    intros _ _. split; [reflexivity|]. split; [|apply Halter].
    eexists. split; [reflexivity|]. simpl. repeat split.
  - destruct (Z.ltb_spec (UserWallet.currentAmount wallet) (t_amount body)) as [Hlt|Hge];
      cbn -[trim orElse].
    + split; [intros _ Hd; discriminate Hd|]. split; [intros _ _ Hle; lia|].
      intros _ _ _. split; [reflexivity|]. repeat split. simpl.
      apply delete_insert_id, fresh_transaction_id.
    + split; [intros _ Hd; discriminate Hd|]. split; [|intros _ _ Hlt; lia].
      intros _ _ _. split; [reflexivity|]. split; [|apply Halter].
      eexists. split; [reflexivity|]. simpl. repeat split.
Qed.

Lemma manual_transaction_effect_witness :
  fst (createTransaction noFault Sample.march1 1%nat (Sample.groceries 5000) Sample.tenant)
  = BadRequest400 "Insufficient balance in wallet" /\
  sameData Sample.tenant
    (snd (createTransaction noFault Sample.march1 1%nat (Sample.groceries 5000)
            Sample.tenant)).
Proof.
  destruct (manual_transaction_effect Sample.march1 1%nat (Sample.groceries 5000)
              Sample.tenant (Sample.wallet 1000) eq_refl)
    as (_ & _ & _ & H).
  - intros f Hf; discriminate Hf.
  - reflexivity.
  - apply H; [|reflexivity|simpl; lia].
    split; [vm_compute; lia|]. intros d Hd; discriminate Hd.
Defined.

(** ** A failure in the middle of processing *)

(** X11. The cron processors do not undo what they wrote when a later
    call fails.  If the call that updates the balance fails, the
    transaction created just before stays stored, no balance has moved
    and the source keeps its relaxation date, so that the iteration is
    logged as failed and the same occurrence is due again. *)
Theorem failed_balance_update_leaves_transaction :
  forall (faultI faultE : nat -> bool) (now : Date) (db : DB)
         (income : Populated Income.t) (expense : Populated Expense.t)
         (walletI userI walletE userE : Id) (w : UserWallet.t),
    shouldProcessIncome (doc income) (setHours0 now) = true ->
    populatedWallet income = Some walletI ->
    populatedUser income = Some userI ->
    0 <= Income.amount (doc income) ->
    faultI (calls db) = false ->
    faultI (S (calls db)) = true ->
    shouldProcessExpense (doc expense) (setHours0 now) = true ->
    populatedWallet expense = Some walletE ->
    populatedUser expense = Some userE ->
    wallets db !! walletE = Some w ->
    0 <= Expense.amount (doc expense) <= UserWallet.currentAmount w ->
    faultE (calls db) = false ->
    faultE (S (calls db)) = false ->
    faultE (S (S (calls db))) = true ->
    let afterIncome := incomeIteration faultI now (setHours0 now) income db in
    let afterExpense := expenseIteration faultE now (setHours0 now) expense db in
    (fst afterIncome = Failed DbError /\
     (exists t,
        transactions (snd afterIncome)
        = <[fresh (dom (transactions db)) := t]> (transactions db) /\
        Transaction.amount t = Income.amount (doc income) /\
        Transaction.walletId t = walletI) /\
     wallets (snd afterIncome) = wallets db /\
     incomes (snd afterIncome) = incomes db) /\
    (fst afterExpense = Failed DbError /\
     (exists t,
        transactions (snd afterExpense)
        = <[fresh (dom (transactions db)) := t]> (transactions db) /\
        Transaction.amount t = Expense.amount (doc expense) /\
        Transaction.walletId t = walletE) /\
     wallets (snd afterExpense) = wallets db /\
     expenses (snd afterExpense) = expenses db).
Proof.
  intros faultI faultE now db income expense walletI userI walletE userE w
         HdueI HwI HuI HamtI HI0 HI1 HdueE HwE HuE Hw HamtE HE0 HE1 HE2
         afterIncome afterExpense.
  subst afterIncome afterExpense. split.
  - unfold incomeIteration, processIncomeSource. rewrite HdueI, HwI, HuI.
    unfold Transaction_create, Transaction.validate. simpl.
    apply Z.leb_le in HamtI. rewrite HamtI. simpl.
    unfold_async. simpl. rewrite HI0. simpl. rewrite HI1. simpl.
    split; [reflexivity|]. split; [|split; reflexivity].
    eexists. split; [reflexivity|]. split; reflexivity.
  - unfold expenseIteration, processExpenseSource. rewrite HdueE, HwE, HuE.
    unfold Transaction_create, Transaction.validate. simpl.
    destruct HamtE as [Hpos Hle]. apply Z.leb_le in Hpos.
    apply Z.ltb_ge in Hle.
    unfold_async. simpl. rewrite HE0. simpl. rewrite Hw, Hle. simpl.
    rewrite Hpos. simpl. rewrite HE1. simpl. rewrite HE2. simpl.
    split; [reflexivity|]. split; [|split; reflexivity].
    eexists. split; [reflexivity|]. split; reflexivity.
Qed.

Lemma failed_balance_update_leaves_transaction_witness :
  fst (incomeIteration (fun n => Nat.eqb n 1) Sample.march5 (setHours0 Sample.march5)
         (Sample.populated 20%nat Sample.salary) Sample.household)
  = Failed DbError /\
  wallets (snd (incomeIteration (fun n => Nat.eqb n 1) Sample.march5
                  (setHours0 Sample.march5)
                  (Sample.populated 20%nat Sample.salary) Sample.household))
  = wallets Sample.household.
Proof.
  destruct (failed_balance_update_leaves_transaction
              (fun n => Nat.eqb n 1) (fun n => Nat.eqb n 2)
              Sample.march5 Sample.household
              (Sample.populated 20%nat Sample.salary)
              (Sample.populated 31%nat Sample.insurance)
              7%nat 1%nat 7%nat 1%nat (Sample.wallet 10000)
              eq_refl eq_refl eq_refl ltac:(simpl; lia) eq_refl eq_refl
              eq_refl eq_refl eq_refl eq_refl ltac:(simpl; lia)
              eq_refl eq_refl eq_refl)
    as ((H1 & _ & H3 & _) & _).
  split; [exact H1|exact H3].
Defined.

(** ** From the creation of a fixed income to its first processing *)

(** What one iteration establishes of its own source, and every later
    iteration keeps, holds at the end of the loop; [J] is what every
    iteration keeps of the database from the start. *)
Lemma forEachSource_member {T} (iteration : Populated T -> DB -> Outcome * DB)
      (J : DB -> Prop) (Q : Outcome -> DB -> Prop) (p : Populated T) :
  (forall q db, J db -> J (snd (iteration q db))) ->
  (forall db, J db -> Q (fst (iteration p db)) (snd (iteration p db))) ->
  (forall o q db, Q o db -> Q o (snd (iteration q db))) ->
  forall l st db,
    J db ->
    p ∈ l ->
    exists o,
      (_id p, o) ∈ outcomes (fst (forEachSource iteration l st db)) /\
      Q o (snd (forEachSource iteration l st db)).
Proof.
  intros HJ Hown Hkeep. induction l as [|q l IH]; intros st db Hdb Hin; [inversion Hin|].
  simpl. apply elem_of_cons in Hin as [<-|Hin].
  - pose proof (Hown db Hdb) as Hq.
    destruct (iteration p db) as [o db1]. simpl in Hq. exists o. split.
    + destruct (forEachSource_outcomes iteration (fun _ _ => True) (fun _ _ => I) l
                  (record (_id p) o st) db1) as (news & Hout & _).
      rewrite Hout. apply elem_of_app. left.
      destruct o; simpl; apply elem_of_app; right; left.
    + pose proof (forEachSource_invariant iteration (fun _ d => Q o d)
                    ltac:(intros q' st' d Hd; apply Hkeep, Hd)
                    l (record (_id p) o st) db1 Hq) as H.
      exact H.
  - pose proof (HJ q db Hdb) as Hdb1.
    destruct (iteration q db) as [o db1]. apply IH; [exact Hdb1|exact Hin].
Qed.

(** With no failing call, a due income whose wallet and user exist and
    whose amount is not negative is processed, on whatever database. *)
Lemma incomeIteration_succeeds now p db walletId userId :
  shouldProcessIncome (doc p) (setHours0 now) = true ->
  populatedWallet p = Some walletId ->
  populatedUser p = Some userId ->
  0 <= Income.amount (doc p) ->
  exists t,
    fst (incomeIteration noFault now (setHours0 now) p db)
    = Processed (fresh (dom (transactions db))) /\
    transactions (snd (incomeIteration noFault now (setHours0 now) p db))
    = <[fresh (dom (transactions db)) := t]> (transactions db) /\
    Transaction.amount t = Income.amount (doc p) /\
    Transaction.walletId t = walletId /\
    Transaction.transactionType t = TxIncome /\
    Transaction.title t
    = "Added Income for " +:+ Income.name (doc p) +:+ " on " +:+ toLocaleDateString now.
Proof.
  intros Hdue Hw Hu Hamt. apply Z.leb_le in Hamt.
  unfold incomeIteration, processIncomeSource. rewrite Hdue, Hw, Hu.
  unfold_async. unfold noFault, Transaction.validate. simpl. rewrite Hamt. simpl.
  eexists. split; [reflexivity|]. split; [reflexivity|]. repeat split.
Qed.

(** With no failing call, the income job processes every stored income
    that is due, not deleted, of a non-negative amount, and whose wallet
    and user exist: it logs it as processed, stores its transaction and
    sets its relaxation date. *)
Lemma income_job_processes_due_source now db id income w :
  incomes db !! id = Some income ->
  Income.isDeleted income = false ->
  shouldProcessIncome income (setHours0 now) = true ->
  wallets db !! Income.walletId income = Some w ->
  Income.userId income ∈ users db ->
  0 <= Income.amount income ->
  exists st db' tx t,
    checkIncomeSources noFault now db = (Some st, db') /\
    (id, Processed tx) ∈ outcomes st /\
    transactions db' !! tx = Some t /\
    transactions db !! tx = None /\
    Transaction.amount t = Income.amount income /\
    Transaction.walletId t = Income.walletId income /\
    Transaction.title t
    = "Added Income for " +:+ Income.name income +:+ " on " +:+ toLocaleDateString now /\
    incomes db' !! id = Some (incomeProcessed now income).
Proof.
  intros Hnew Hdel Hdue Hstored Huser Hamt.
  destruct (checkIncomeSources_schedule now db)
    as (st & db' & Erun & _ & Hdone & _).
  pose proof Erun as Erun'. unfold checkIncomeSources in Erun'.
  change (Income_find noFault db)
    with (Ok (populate Income.walletId Income.userId (count_call db) <$>
                filter (fun p => Income.isDeleted (snd p) = false)
                  (map_to_list (incomes db))), count_call db) in Erun'.
  cbv beta iota in Erun'.
  set (l := populate Income.walletId Income.userId (count_call db) <$> _) in Erun'.
  set (p := populate Income.walletId Income.userId (count_call db) (id, income)).
  assert (Hp : p ∈ l).
  { apply list_elem_of_fmap_2, list_elem_of_filter. split; [exact Hdel|].
    apply elem_of_map_to_list, Hnew. }
  assert (HpW : populatedWallet p = Some (Income.walletId income)).
  { subst p. unfold populate. simpl. rewrite Hstored. reflexivity. }
  assert (HpU : populatedUser p = Some (Income.userId income)).
  { subst p. unfold populate. simpl. rewrite bool_decide_eq_true_2 by exact Huser.
    reflexivity. }
  destruct (forEachSource_member (incomeIteration noFault now (setHours0 now))
              (fun d => transactions db ⊆ transactions d)
              (fun o d => exists tx t,
                   o = Processed tx /\ transactions d !! tx = Some t /\
                   transactions db !! tx = None /\
                   Transaction.amount t = Income.amount income /\
                   Transaction.walletId t = Income.walletId income /\
                   Transaction.title t
                   = "Added Income for " +:+ Income.name income +:+ " on "
                       +:+ toLocaleDateString now) p) with (l := l) (st := noStats)
              (db := count_call db)
    as (o & Hlogged & tx & t & -> & Ht & Hfresh & Hta & Htw & Htt).
  - intros q d Hd. etransitivity; [exact Hd|apply incomeIteration_transactions].
  - intros d Hd.
    destruct (incomeIteration_succeeds now p d (Income.walletId income)
                (Income.userId income) Hdue HpW HpU Hamt)
      as (t & Ho & Htx & Ha & Hwt & _ & Htitle).
    exists (fresh (dom (transactions d))), t.
    split; [exact Ho|]. rewrite Htx. split; [apply lookup_insert_eq|].
    split; [|split; [exact Ha|split; [exact Hwt|exact Htitle]]].
    destruct (transactions db !! fresh (dom (transactions d))) as [t0|] eqn:E;
      [|reflexivity].
    pose proof (lookup_weaken _ _ _ _ E Hd) as E'.
    rewrite fresh_transaction_id in E'. discriminate E'.
  - intros o q d (tx & t & Ho & Ht & Hrest).
    exists tx, t. split; [exact Ho|]. split; [|exact Hrest].
    eapply lookup_weaken; [exact Ht|apply incomeIteration_transactions].
  - reflexivity.
  - exact Hp.
  - destruct (forEachSource _ l noStats (count_call db)) as [st1 db1] eqn:El.
    injection Erun' as <- <-. simpl in Hlogged, Ht.
    destruct (Hdone id tx Hlogged) as (income' & Hinc' & _ & _ & Hrelax).
    rewrite Hnew in Hinc'. injection Hinc' as <-.
    exists st1, db1, tx, t. repeat split; assumption.
Qed.

Lemma limits_of_source name description :
  Income.limits (trim name) (trim <$> description) = true <->
  (String.length (trim name) <= 100)%nat /\ descriptionFits description.
Proof.
  unfold Income.limits, descriptionFits. rewrite andb_true_iff, Nat.leb_le.
  split; intros [Hn Hd]; (split; [exact Hn|]).
  - intros d ->. apply Nat.leb_le, Hd.
  - destruct description as [d|]; simpl; [|reflexivity].
    apply Nat.leb_le, Hd. reflexivity.
Qed.

(** X12. A fixed income created through [POST /api/incomes] is posted by
    the income job of its cycle day.  The creation (valid body, wallet of
    the user, no failing call) is answered 500 with nothing stored when
    the trimmed name has more than 100 characters or the trimmed
    description more than 500.  Otherwise it is answered 201 and stores
    the source, under the trimmed name, with no relaxation date and
    without any transaction or balance change; the next run on a day
    whose day of month is the cycle date (for a quarterly income: in
    January, April, July or October) logs it as processed, stores its
    transaction "Added Income for <name> on <date>" of the source's
    amount on the source's wallet, and sets its relaxation date. *)
Theorem new_fixed_income_is_processed :
  forall (createdAt now : Date) (userId : Id) (body : SourceBody) (db : DB)
         (wallet : UserWallet.t) (cycleType : CycleType),
    validateSourceBody body = true ->
    b_isFixed body <> Some false ->
    b_cycleDate body = Some (getDate now) ->
    b_cycleType body = Some cycleType ->
    (cycleType = quarterly -> getMonth now ∈ [0; 3; 6; 9]) ->
    walletOf userId (b_walletId body) db = Some wallet ->
    userId ∈ users db ->
    let created := createIncome noFault createdAt userId body db in
    let id := fresh (dom (incomes db)) in
    let income :=
      Income.Build userId (b_walletId body) (trim (b_name body))
        (trim <$> b_description body) (b_amount body) (getDate now) cycleType
        None false None in
    (~ sourceTextFits body ->
     fst created = ServerError500 /\ sameData db (snd created)) /\
    (sourceTextFits body ->
     fst created = Created201 /\
     incomes (snd created) = <[id := income]> (incomes db) /\
     transactions (snd created) = transactions db /\
     wallets (snd created) = wallets db /\
     exists st db' tx t,
       checkIncomeSources noFault now (snd created) = (Some st, db') /\
       (id, Processed tx) ∈ outcomes st /\
       transactions db' !! tx = Some t /\
       transactions db !! tx = None /\
       Transaction.amount t = b_amount body /\
       Transaction.walletId t = b_walletId body /\
       Transaction.title t
       = "Added Income for " +:+ trim (b_name body) +:+ " on "
           +:+ toLocaleDateString now /\
       incomes db' !! id = Some (incomeProcessed now income)).
Proof.
  intros createdAt now userId body db wallet cycleType
         Hval Hfix Hcd Hct Hq Hw Huser created id income.
  pose proof Hval as Hval'. unfold validateSourceBody in Hval'.
  rewrite bool_decide_eq_false_2 in Hval' by exact Hfix.
  rewrite Hcd, Hct in Hval'.
  apply andb_prop in Hval' as [Hval' Hrange].
  apply andb_prop in Hval' as [Hname Hamt].
  apply andb_prop in Hrange as [Hrange _].
  apply andb_prop in Hrange as [Hlow Hhigh].
  pose proof (walletOf_stored _ _ _ _ Hw) as (Hstored & Hu & Hdel).
  assert (Hisfixed : match b_isFixed body with Some v => v | None => true end = true).
  { destruct (b_isFixed body) as [[|]|]; try reflexivity. congruence. }
  pose proof (limits_of_source (b_name body) (b_description body)) as Hfits.
  fold (sourceTextFits body) in Hfits.
  assert (Ecreated : created
                     = if Income.limits (trim (b_name body)) (trim <$> b_description body)
                       then (Created201,
                             with_incomes (insert id income) (count_call (count_call db)))
                       else (ServerError500, count_call db)).
  { subst created. unfold createIncome. rewrite Hval.
    cbn -[Income.limits trim].
    unfold UserWallet_findOne, Income_create. unfold_async. unfold noFault.
    cbn -[Income.limits trim].
    unfold walletOf in Hw. rewrite Hw. cbn -[Income.limits trim].
    rewrite Hisfixed. cbn -[Income.limits trim].
    rewrite Hcd, Hct. cbn -[Income.limits trim]. rewrite Hname.
    destruct (Income.limits _ _); cbn -[trim]; [|reflexivity].
    rewrite Hamt, Hlow, Hhigh. reflexivity. }
  rewrite Ecreated.
  destruct (Income.limits _ _) eqn:Hlim.
  2:{ split; [intros _; split; [reflexivity|repeat split]|].
      intros H. apply Hfits in H. discriminate H. }
  split; [intros H; exfalso; apply H, Hfits; reflexivity|]. intros _.
  cbn [fst snd].
  split; [reflexivity|]. split; [reflexivity|]. split; [reflexivity|].
  split; [reflexivity|].
  apply Z.leb_le in Hamt.
  apply (income_job_processes_due_source now
           (with_incomes (insert id income) (count_call (count_call db))) id income wallet).
  - apply lookup_insert_eq.
  - reflexivity.
  - unfold shouldProcessIncome. simpl. rewrite Z.eqb_refl. simpl.
    destruct cycleType; try reflexivity.
    apply bool_decide_eq_true_2, Hq. reflexivity.
  - exact Hstored.
  - exact Huser.
  - exact Hamt.
Qed.

Lemma new_fixed_income_is_processed_witness :
  fst (createIncome noFault Sample.march1 1%nat Scenario.pay (Sample.walletOnly 100))
  = Created201 /\
  exists st db' tx t,
    checkIncomeSources noFault Sample.march5
      (snd (createIncome noFault Sample.march1 1%nat Scenario.pay (Sample.walletOnly 100)))
    = (Some st, db') /\
    (0%nat, Processed tx) ∈ outcomes st /\
    transactions db' !! tx = Some t /\
    Transaction.amount t = 3000.
Proof.
  destruct (new_fixed_income_is_processed Sample.march1 Sample.march5 1%nat Scenario.pay
              (Sample.walletOnly 100) (Sample.wallet 100) monthly)
    as (_ & H).
  - reflexivity.
  - discriminate.
  - reflexivity.
  - reflexivity.
  - discriminate.
  - reflexivity.
  - reflexivity.
  - assert (Hfits : sourceTextFits Scenario.pay).
    { split; [vm_compute; lia|]. intros d Hd. discriminate Hd. }
    destruct (H Hfits)
      as (Hok & _ & _ & _ & st & db' & tx & t & Hrun & Hin & Ht & _ & Hamt & _).
    split; [exact Hok|]. exists st, db', tx, t.
    split; [exact Hrun|]. split; [exact Hin|]. split; [exact Ht|exact Hamt].
Defined.

(** ** Editing a source *)

Ltac reduce_routes :=
  cbn -[sanitizeUpdateBody applyIncomeUpdate applyExpenseUpdate Income_required
        Income_assigned Expense_required Expense_assigned trim].

Lemma updateIncome_stores fault userId id body db :
  let db' := snd (updateIncome fault userId id body db) in
  wallets db' = wallets db /\ transactions db' = transactions db /\
  expenses db' = expenses db /\ users db' = users db /\
  (incomes db' = incomes db \/
   exists d, incomeOf userId id db = Some d /\
             fst (updateIncome fault userId id body db) = Ok200 /\
             incomes db'
             = <[id := applyIncomeUpdate (sanitizeUpdateBody body) d]> (incomes db)).
Proof.
  unfold updateIncome, incomeOf.
  destruct (validateUpdateBody body); reduce_routes;
    [|repeat split; left; reflexivity].
  unfold Income_findOne, Income_save. unfold_async. reduce_routes.
  destruct (fault (calls db)); reduce_routes; [repeat split; left; reflexivity|].
  destruct (incomes db !! id) as [d|] eqn:Hd; reduce_routes;
    [|repeat split; left; reflexivity].
  destruct (bool_decide (Income.userId d = userId) && negb (Income.isDeleted d));
    reduce_routes; [|repeat split; left; reflexivity].
  destruct (Income_required _ && Income_assigned _ _); reduce_routes;
    [|repeat split; left; reflexivity].
  destruct (fault (S (calls db))); reduce_routes; [repeat split; left; reflexivity|].
  repeat split. right. exists d. split; [reflexivity|]. split; [reflexivity|].
  apply insert_as_alter with (x := d), Hd.
Qed.

Lemma updateExpense_stores fault userId id body db :
  let db' := snd (updateExpense fault userId id body db) in
  wallets db' = wallets db /\ transactions db' = transactions db /\
  incomes db' = incomes db /\ users db' = users db /\
  (expenses db' = expenses db \/
   exists d, expenseOf userId id db = Some d /\
             fst (updateExpense fault userId id body db) = Ok200 /\
             expenses db'
             = <[id := applyExpenseUpdate (sanitizeUpdateBody body) d]> (expenses db)).
Proof.
  unfold updateExpense, expenseOf.
  destruct (validateUpdateBody body); reduce_routes;
    [|repeat split; left; reflexivity].
  unfold Expense_findOne, Expense_save. unfold_async. reduce_routes.
  destruct (fault (calls db)); reduce_routes; [repeat split; left; reflexivity|].
  destruct (expenses db !! id) as [d|] eqn:Hd; reduce_routes;
    [|repeat split; left; reflexivity].
  destruct (bool_decide (Expense.userId d = userId) && negb (Expense.isDeleted d));
    reduce_routes; [|repeat split; left; reflexivity].
  destruct (Expense_required _ && Expense_assigned _ _); reduce_routes;
    [|repeat split; left; reflexivity].
  destruct (fault (S (calls db))); reduce_routes; [repeat split; left; reflexivity|].
  repeat split. right. exists d. split; [reflexivity|]. split; [reflexivity|].
  apply insert_as_alter with (x := d), Hd.
Qed.

(** X13. Whatever database calls fail, [PUT /api/incomes/:id] and
    [PUT /api/expenses/:id] touch no transaction, no wallet and no
    document other than the one named.  The named document is left as it
    was, or becomes the loaded document with the fields of the (trimmed)
    body assigned; either way its owner, its wallet, its stored
    relaxation date and its deletion marks are as they were.  (The cycle
    date and the cycle type are among the fields that the body may
    assign, and the days on which the source is due follow them.) *)
Theorem edit_touches_only_the_source :
  forall (fault : nat -> bool) (userId id : Id) (body : UpdateBody) (db : DB),
    let afterIncome := snd (updateIncome fault userId id body db) in
    let afterExpense := snd (updateExpense fault userId id body db) in
    (wallets afterIncome = wallets db /\
     transactions afterIncome = transactions db /\
     expenses afterIncome = expenses db /\
     (forall j d, incomes db !! j = Some d ->
        exists d', incomes afterIncome !! j = Some d' /\
          (j <> id -> d' = d) /\
          (d' = d \/ d' = applyIncomeUpdate (sanitizeUpdateBody body) d) /\
          Income.userId d' = Income.userId d /\
          Income.walletId d' = Income.walletId d /\
          Income.relaxationDate d' = Income.relaxationDate d /\
          Income.isDeleted d' = Income.isDeleted d /\
          Income.deletedAt d' = Income.deletedAt d)) /\
    (wallets afterExpense = wallets db /\
     transactions afterExpense = transactions db /\
     incomes afterExpense = incomes db /\
     (forall j d, expenses db !! j = Some d ->
        exists d', expenses afterExpense !! j = Some d' /\
          (j <> id -> d' = d) /\
          (d' = d \/ d' = applyExpenseUpdate (sanitizeUpdateBody body) d) /\
          Expense.userId d' = Expense.userId d /\
          Expense.walletId d' = Expense.walletId d /\
          Expense.relaxationDate d' = Expense.relaxationDate d /\
          Expense.isDeleted d' = Expense.isDeleted d /\
          Expense.deletedAt d' = Expense.deletedAt d)).
Proof.
  intros fault userId id body db afterIncome afterExpense.
  subst afterIncome afterExpense. split.
  - destruct (updateIncome_stores fault userId id body db)
      as (Hw & Ht & He & _ & Hi). cbv zeta in *.
    split; [exact Hw|]. split; [exact Ht|]. split; [exact He|].
    intros j d Hj. destruct Hi as [E|(d0 & Hd0 & _ & E)]; rewrite E.
    + exists d. rewrite Hj. repeat split; auto.
    + destruct (decide (j = id)) as [->|Hne].
      * rewrite lookup_insert_eq. unfold incomeOf in Hd0. rewrite Hj in Hd0.
        destruct (bool_decide (Income.userId d = userId) && negb (Income.isDeleted d));
          [|discriminate].
        injection Hd0 as <-. eexists. split; [reflexivity|].
        split; [congruence|]. split; [right; reflexivity|]. repeat split.
      * rewrite lookup_insert_ne by congruence. exists d. rewrite Hj. repeat split; auto.
  - destruct (updateExpense_stores fault userId id body db)
      as (Hw & Ht & Hi & _ & He). cbv zeta in *.
    split; [exact Hw|]. split; [exact Ht|]. split; [exact Hi|].
    intros j d Hj. destruct He as [E|(d0 & Hd0 & _ & E)]; rewrite E.
    + exists d. rewrite Hj. repeat split; auto.
    + destruct (decide (j = id)) as [->|Hne].
      * rewrite lookup_insert_eq. unfold expenseOf in Hd0. rewrite Hj in Hd0.
        destruct (bool_decide (Expense.userId d = userId) && negb (Expense.isDeleted d));
          [|discriminate].
        injection Hd0 as <-. eexists. split; [reflexivity|].
        split; [congruence|]. split; [right; reflexivity|]. repeat split.
      * rewrite lookup_insert_ne by congruence. exists d. rewrite Hj. repeat split; auto.
Qed.

(** An edit of the cycle date moves the due days: the salary of the 5th
    is processed on 5 March, and after a [PUT] of [cycleDate: 6] it is
    skipped on that day. *)
Example edit_moves_the_due_day :
  let moved := MkUpdateBody None None None None (Some 6) None None in
  let before := checkIncomeSources noFault Sample.march5 Scenario.commuter in
  let after :=
    checkIncomeSources noFault Sample.march5
      (snd (updateIncome noFault 1%nat 20%nat moved Scenario.commuter)) in
  (outcomes <$> fst before) = Some [(20%nat, Processed 1%nat)] /\
  (outcomes <$> fst after) = Some [(20%nat, SkippedNotDue)].
Proof. split; vm_compute; reflexivity. Qed.

(** ** An edited source in the next run *)

Lemma incomeOf_stored userId id db d :
  incomeOf userId id db = Some d ->
  incomes db !! id = Some d /\ Income.userId d = userId /\ Income.isDeleted d = false.
Proof.
  unfold incomeOf. destruct (incomes db !! id) as [d0|]; [|discriminate].
  destruct (bool_decide (Income.userId d0 = userId)) eqn:Hu; [|discriminate].
  destruct (Income.isDeleted d0) eqn:Hd; [discriminate|]. simpl.
  intros H. injection H as <-. apply bool_decide_eq_true in Hu. auto.
Qed.

Lemma applyIncomeUpdate_required body d :
  validateUpdateBody body = true ->
  Income.name d <> "" ->
  Income_required (applyIncomeUpdate (sanitizeUpdateBody body) d) = true.
Proof.
  unfold validateUpdateBody, Income_required, applyIncomeUpdate, sanitizeUpdateBody.
  cbn -[trim]. intros Hval Hname.
  apply andb_prop in Hval as [Hval _]. apply andb_prop in Hval as [Hn _].
  destruct (u_name body) as [n|]; cbn -[trim]; [exact Hn|].
  apply negb_true_iff, String.eqb_neq, Hname.
Qed.

Lemma applyIncomeUpdate_amount body d :
  validateUpdateBody body = true ->
  0 <= Income.amount d ->
  0 <= Income.amount (applyIncomeUpdate (sanitizeUpdateBody body) d).
Proof.
  unfold validateUpdateBody, applyIncomeUpdate, sanitizeUpdateBody. cbn -[trim].
  intros Hval Hamt.
  apply andb_prop in Hval as [Hval _]. apply andb_prop in Hval as [_ Ha].
  destruct (u_amount body) as [a|]; simpl; [apply Z.leb_le, Ha|exact Hamt].
Qed.

(** The validators of the assigned paths pass on a valid body whose
    texts fit. *)
Lemma applyIncomeUpdate_assigned body d :
  validateUpdateBody body = true ->
  updateTextFits body ->
  Income_assigned d (applyIncomeUpdate (sanitizeUpdateBody body) d) = true.
Proof.
  unfold validateUpdateBody, Income_assigned, applyIncomeUpdate, sanitizeUpdateBody,
    updateTextFits, descriptionFits.
  cbn -[trim]. intros Hval [Hn Hd].
  apply andb_prop in Hval as [Hval Hc]. apply andb_prop in Hval as [_ Ha].
  rewrite !andb_true_iff. split; [split; [split|]|].
  - destruct (u_name body) as [n|]; cbn -[trim].
    + apply orb_true_iff. right. apply Nat.leb_le, Hn. reflexivity.
    + rewrite bool_decide_eq_true_2 by reflexivity. reflexivity.
  - destruct (u_description body) as [s|]; cbn -[trim].
    + apply orb_true_iff. right. apply Nat.leb_le, Hd. reflexivity.
    + rewrite bool_decide_eq_true_2 by reflexivity. reflexivity.
  - destruct (u_amount body) as [a|]; simpl.
    + rewrite Ha. apply orb_true_r.
    + rewrite bool_decide_eq_true_2 by reflexivity. reflexivity.
  - destruct (u_cycleDate body) as [c|]; simpl.
    + rewrite Hc. apply orb_true_r.
    + rewrite bool_decide_eq_true_2 by reflexivity. reflexivity.
Qed.

(** With no failing call, a valid edit of a stored income of the user
    whose texts fit answers 200 and stores the edited document. *)
Lemma updateIncome_ok userId id body db income :
  incomeOf userId id db = Some income ->
  validateUpdateBody body = true ->
  updateTextFits body ->
  Income.name income <> "" ->
  fst (updateIncome noFault userId id body db) = Ok200 /\
  incomes (snd (updateIncome noFault userId id body db))
  = <[id := applyIncomeUpdate (sanitizeUpdateBody body) income]> (incomes db).
Proof.
  intros Hof Hval Hfits Hname.
  pose proof (applyIncomeUpdate_required body income Hval Hname) as Hreq.
  pose proof (applyIncomeUpdate_assigned body income Hval Hfits) as Hass.
  pose proof (incomeOf_stored _ _ _ _ Hof) as (Hstored & Hu & Hdel).
  unfold updateIncome. rewrite Hval. reduce_routes.
  unfold Income_findOne, Income_save. unfold_async. unfold noFault. reduce_routes.
  rewrite Hstored, Hdel, bool_decide_eq_true_2 by exact Hu. reduce_routes.
  rewrite Hreq, Hass. reduce_routes.
  split; [reflexivity|]. apply insert_as_alter with (x := income), Hstored.
Qed.

(** With no failing call, an edit that gives a stored income a name of
    more than 100 characters is answered 500 and changes nothing. *)
Lemma updateIncome_name_too_long userId id body db income n :
  incomeOf userId id db = Some income ->
  validateUpdateBody body = true ->
  u_name body = Some n ->
  (100 < String.length (trim n))%nat ->
  (String.length (Income.name income) <= 100)%nat ->
  fst (updateIncome noFault userId id body db) = ServerError500 /\
  sameData db (snd (updateIncome noFault userId id body db)).
Proof.
  intros Hof Hval Hn Hlong Hshort.
  pose proof (incomeOf_stored _ _ _ _ Hof) as (Hstored & Hu & Hdel).
  assert (Hass : Income_assigned income
                   (applyIncomeUpdate (sanitizeUpdateBody body) income) = false).
  { unfold Income_assigned, applyIncomeUpdate, sanitizeUpdateBody. cbn -[trim].
    rewrite Hn. cbn -[trim].
    rewrite bool_decide_eq_false_2 by (intros E; rewrite E in Hlong; lia).
    replace (String.length (trim n) <=? 100)%nat with false
      by (symmetry; apply Nat.leb_gt; exact Hlong).
    reflexivity. }
  unfold updateIncome. rewrite Hval. reduce_routes.
  unfold Income_findOne, Income_save. unfold_async. unfold noFault. reduce_routes.
  rewrite Hstored, Hdel, bool_decide_eq_true_2 by exact Hu. reduce_routes.
  rewrite Hass, andb_false_r. reduce_routes.
  split; [reflexivity|repeat split].
Qed.

(** X14. An edit reaches the next run.  The stored income of the user
    is valid for its schema (a name of at most 100 characters, a
    description of at most 500, an amount of at least 0).  After a valid
    [PUT /api/incomes/:id] on it (no failing call) whose trimmed name and
    description fit the same limits, the request is answered 200 and the
    income job of a
    day on which the edited source is due posts the edited values: it
    logs the source as processed and stores a new transaction whose
    amount is the amount of the body (the old amount when the body gives
    none) and whose title carries the trimmed name of the body (the old
    name when the body gives none).  A body that gives a name of more
    than 100 characters is answered 500 and changes nothing, so that the
    job goes on posting the stored name. *)
Theorem edited_income_is_posted_as_edited :
  forall (now : Date) (userId id : Id) (body : UpdateBody) (db : DB)
         (income : Income.t) (wallet : UserWallet.t),
    incomeOf userId id db = Some income ->
    Income.name income <> "" ->
    (String.length (Income.name income) <= 100)%nat ->
    (forall s, Income.description income = Some s -> (String.length s <= 500)%nat) ->
    0 <= Income.amount income ->
    wallets db !! Income.walletId income = Some wallet ->
    userId ∈ users db ->
    validateUpdateBody body = true ->
    let edited := updateIncome noFault userId id body db in
    (updateTextFits body ->
     shouldProcessIncome (applyIncomeUpdate (sanitizeUpdateBody body) income)
       (setHours0 now) = true ->
     fst edited = Ok200 /\
     exists st db' tx t,
       checkIncomeSources noFault now (snd edited) = (Some st, db') /\
       (id, Processed tx) ∈ outcomes st /\
       transactions db' !! tx = Some t /\
       transactions db !! tx = None /\
       Transaction.amount t = default (Income.amount income) (u_amount body) /\
       Transaction.walletId t = Income.walletId income /\
       Transaction.title t
       = "Added Income for " +:+ default (Income.name income) (trim <$> u_name body)
           +:+ " on " +:+ toLocaleDateString now) /\
    (forall n, u_name body = Some n -> (100 < String.length (trim n))%nat ->
       fst edited = ServerError500 /\ sameData db (snd edited)).
Proof.
  intros now userId id body db income wallet Hof Hname Hshort _ Hamt Hw Huser Hval edited.
  split.
  - intros Hfits Hdue.
    destruct (updateIncome_ok userId id body db income Hof Hval Hfits Hname)
      as [Hok Hinc].
    destruct (updateIncome_stores noFault userId id body db)
      as (Hws & Hts & _ & Hus & _).
    pose proof (incomeOf_stored _ _ _ _ Hof) as (Hstored & Hu & Hdel).
    split; [exact Hok|].
    destruct (income_job_processes_due_source now (snd edited) id
                (applyIncomeUpdate (sanitizeUpdateBody body) income) wallet)
      as (st & db' & tx & t & Hrun & Hin & Ht & Hfresh & Hta & Htw & Htt & _).
    + subst edited. rewrite Hinc. apply lookup_insert_eq.
    + exact Hdel.
    + exact Hdue.
    + subst edited. rewrite Hws. exact Hw.
    + subst edited. rewrite Hus. simpl. rewrite Hu. exact Huser.
    + apply applyIncomeUpdate_amount; assumption.
    + exists st, db', tx, t. subst edited. rewrite Hts in Hfresh.
      repeat split; assumption.
  - intros n Hn Hlong.
    apply (updateIncome_name_too_long userId id body db income n); assumption.
Qed.

Lemma edited_income_is_posted_as_edited_witness :
  exists st db' tx t,
    checkIncomeSources noFault Sample.march5
      (snd (updateIncome noFault 1%nat 20%nat Scenario.raise Scenario.commuter))
    = (Some st, db') /\
    (20%nat, Processed tx) ∈ outcomes st /\
    transactions db' !! tx = Some t /\
    Transaction.amount t = 3500.
Proof.
  destruct (edited_income_is_posted_as_edited Sample.march5 1%nat 20%nat Scenario.raise
              Scenario.commuter Sample.salary (Sample.wallet 10000))
    as (H & _).
  - reflexivity.
  - discriminate.
  - vm_compute. lia.
  - intros s Hs. vm_compute in Hs. first [discriminate Hs | injection Hs as <-; vm_compute; lia].
  - vm_compute. discriminate.
  - reflexivity.
  - reflexivity.
  - reflexivity.
  - assert (Hfits : updateTextFits Scenario.raise).
    { split; intros x Hx; discriminate Hx. }
    destruct (H Hfits eq_refl)
      as (_ & st & db' & tx & t & Hrun & Hin & Ht & _ & Hamt & _).
    exists st, db', tx, t.
    split; [exact Hrun|]. split; [exact Hin|]. split; [exact Ht|exact Hamt].
Defined.

(** ** Listing transactions *)

Lemma newestFirst_transitive : Transitive newestFirst.
Proof. intros a b c. unfold newestFirst. intros Hab Hbc. date_cases. Qed.

Lemma newestFirst_total : Total newestFirst.
Proof.
  intros a b. unfold newestFirst.
  destruct (date_leb (Transaction.transactionDate (snd b))
              (Transaction.transactionDate (snd a))) eqn:E; [left; reflexivity|].
  right. date_cases.
Qed.

(** [Transaction.find] reads the matching transactions, each once,
    newest first, and cuts the list at the limit. *)
Lemma Transaction_find_all fault q limit db found db' :
  Transaction_find fault q limit db = (Ok found, db') ->
  db' = count_call db /\
  exists all,
    found = match limit with Some n => take n all | None => all end /\
    StronglySorted newestFirst all /\
    NoDup all.*1 /\
    forall i t, (i, t) ∈ all <-> transactions db !! i = Some t /\ matchesQuery q t = true.
Proof.
  unfold Transaction_find. unfold_async.
  destruct (fault (calls db)); [discriminate|]. simpl.
  intros H. injection H as <- <-. split; [reflexivity|].
  eexists. split; [reflexivity|].
  pose proof newestFirst_transitive. pose proof newestFirst_total.
  split; [apply StronglySorted_merge_sort; assumption|]. split.
  - rewrite merge_sort_Permutation.
    eapply sublist_NoDup; [apply (NoDup_fst_map_to_list (transactions db))|].
    apply fmap_sublist, sublist_filter.
  - intros i t. rewrite merge_sort_Permutation, list_elem_of_filter, elem_of_map_to_list.
    simpl. tauto.
Qed.








Lemma typed_query_matches userId ty t :
  matchesQuery (MkTransactionQuery userId false None (Some ty) None None) t = true <->
  Transaction.userId t = userId /\ Transaction.isDeleted t = false /\
  Transaction.transactionType t = ty.
Proof.
  unfold matchesQuery. simpl. rewrite !andb_true_iff, !bool_decide_eq_true. tauto.
Qed.

(** X16. What [GET /api/incomes/transactions] and
    [GET /api/expenses/transactions] answer, whatever database calls
    fail, when they answer with a list: exactly the stored transactions
    of the requesting user that are of the route's type and not deleted,
    each once, newest first, with their number as count and no summary;
    the routes write nothing. *)
Theorem typed_listing_is_exact :
  forall (fault : nat -> bool) (userId : Id) (ty : TransactionType) (db : DB)
         (n : nat) (summary : option Summary) (data : list (Id * Transaction.t))
         (db' : DB),
    listTransactionsOfType fault userId ty db = (Listed n summary data, db') ->
    n = length data /\ summary = None /\
    StronglySorted newestFirst data /\
    NoDup data.*1 /\
    (forall i t, (i, t) ∈ data <->
       transactionOf userId i db = Some t /\ Transaction.transactionType t = ty) /\
    sameData db db'.
Proof.
  intros fault userId ty db n summary data db'. unfold listTransactionsOfType.
  unfold bind. destruct (Transaction_find _ _ _ db) as [[l|e] db2] eqn:Ef;
    [|discriminate].
  unfold ret. intros H. injection H as <- <- <- <-.
  destruct (Transaction_find_all _ _ _ _ _ _ Ef)
    as (-> & all & -> & Hsorted & Hnodup & Hall).
  split; [reflexivity|]. split; [reflexivity|].
  split; [exact Hsorted|]. split; [exact Hnodup|]. split; [|apply sameData_count].
  intros i t. rewrite Hall, typed_query_matches. unfold transactionOf. split.
  - intros (Hstored & Hu & Hd & Hty). rewrite Hstored, Hd.
    rewrite bool_decide_eq_true_2 by exact Hu. auto.
  - intros [Hof Hty]. destruct (transactions db !! i) as [t0|]; [|discriminate].
    destruct (bool_decide (Transaction.userId t0 = userId)) eqn:Hu; [|discriminate].
    destruct (Transaction.isDeleted t0) eqn:Hd; [discriminate|]. simpl in Hof.
    injection Hof as ->. apply bool_decide_eq_true in Hu. auto.
Qed.

Lemma typed_listing_is_exact_witness :
  listTransactionsOfType noFault 1%nat TxExpense Sample.ledger
  = (Listed 1 None [(0%nat, Sample.coffee)], count_call Sample.ledger) /\
  forall i t, (i, t) ∈ [(0%nat, Sample.coffee)] <->
    transactionOf 1%nat i Sample.ledger = Some t /\
    Transaction.transactionType t = TxExpense.
Proof.
  assert (Hlist : listTransactionsOfType noFault 1%nat TxExpense Sample.ledger
                  = (Listed 1 None [(0%nat, Sample.coffee)], count_call Sample.ledger))
    by (vm_compute; reflexivity).
  split; [exact Hlist|].
  destruct (typed_listing_is_exact noFault 1%nat TxExpense Sample.ledger _ _ _ _ Hlist)
    as (_ & _ & _ & _ & H & _).
  exact H.
Defined.

(** ** The stored relaxation date and the due test *)

(** For a day that every month has, the constructor only carries the
    month index into the year. *)
Lemma newDate_short_day y m d :
  1 <= d <= 28 -> newDate y m d = MkDate (y + m / 12) (m mod 12) d 0.
Proof.
  intros Hd. unfold newDate.
  destruct (Z.leb_spec 1 d); [|lia].
  destruct (Z.to_nat d) eqn:E; [lia|]. simpl.
  pose proof (daysInMonth_bounds (y + m / 12) (m mod 12)).
  destruct (Z.leb_spec d (daysInMonth (y + m / 12) (m mod 12))); [reflexivity|lia].
Qed.

Lemma quarter_months m :
  m ∈ [0; 3; 6; 9] <-> m = 0 \/ m = 3 \/ m = 6 \/ m = 9.
Proof. rewrite !elem_of_cons, elem_of_nil. tauto. Qed.

(** The date computed on a due day for a cycle day of 28 or less. *)
Lemma nextRelaxationDate_on_due_day now c ct :
  wf_date now -> 1 <= c <= 28 -> getDate now = c ->
  (ct = quarterly -> getMonth now ∈ [0; 3; 6; 9]) ->
  nextRelaxationDate now c (Some ct)
  = match ct with
    | monthly =>
        if getMonth now =? 11 then MkDate (getFullYear now + 1) 0 c 0
        else MkDate (getFullYear now) (getMonth now + 1) c 0
    | quarterly =>
        if getMonth now =? 9 then MkDate (getFullYear now + 1) 0 c 0
        else MkDate (getFullYear now) (getMonth now + 3) c 0
    | yearly => MkDate (getFullYear now + 1) 0 c 0
    end.
Proof.
  intros (Hm & Hday & Hms) Hc Hd Hq.
  destruct now as [y m d ms]. simpl in *. subst d.
  unfold nextRelaxationDate. cbn [getFullYear getMonth].
  rewrite !newDate_short_day by exact Hc.
  destruct ct.
  - assert (E : date_leb (MkDate (y + m / 12) (m mod 12) c 0) (MkDate y m c ms) = true).
    { rewrite Z.div_small, Z.mod_small by lia. date_cases. }
    rewrite E. destruct (Z.eqb_spec m 11) as [->|Hne]; [reflexivity|].
    rewrite Z.div_small, Z.mod_small, Z.add_0_r by lia. reflexivity.
  - specialize (Hq eq_refl). apply quarter_months in Hq.
    destruct Hq as [-> | [-> | [-> | ->]]].
    all: change (0 / 3 * 3) with 0; change (3 / 3 * 3) with 3;
      change (6 / 3 * 3) with 6; change (9 / 3 * 3) with 9;
      change ((0 / 3 + 1) * 3) with 3; change ((3 / 3 + 1) * 3) with 6;
      change ((6 / 3 + 1) * 3) with 9; change ((9 / 3 + 1) * 3) with 12.
    all: repeat match goal with
           | |- context [Z.div ?a 12] =>
               let v := eval vm_compute in (Z.div a 12) in change (Z.div a 12) with v
           | |- context [Z.modulo ?a 12] =>
               let v := eval vm_compute in (Z.modulo a 12) in
               change (Z.modulo a 12) with v
           end.
    all: rewrite ?Z.add_0_r.
    all: match goal with
         | |- context [date_leb ?a ?b] =>
             assert (E : date_leb a b = true) by (clear -Hms; date_cases); rewrite E
         end.
    all: reflexivity.
  - assert (E : date_leb (MkDate (y + 0 / 12) (0 mod 12) c 0) (MkDate y m c ms) = true).
    { change (0 / 12) with 0. change (0 mod 12) with 0. date_cases. }
    rewrite E. change (0 / 12) with 0. change (0 mod 12) with 0.
    rewrite Z.add_0_r. reflexivity.
Qed.

Lemma next_due_day_facts now c ct :
  wf_date now -> 1 <= c <= 28 -> getDate now = c ->
  (ct = quarterly -> getMonth now ∈ [0; 3; 6; 9]) ->
  let next := nextRelaxationDate now c (Some ct) in
  date_lt now next /\ msOfDay next = 0 /\ getDate next = c /\
  (ct = quarterly -> getMonth next ∈ [0; 3; 6; 9]) /\
  forall day,
    wf_date day ->
    date_lt (setHours0 now) (setHours0 day) -> date_lt (setHours0 day) next ->
    getDate day = c ->
    match ct with
    | monthly => False
    | quarterly => getMonth day ∉ [0; 3; 6; 9]
    | yearly => True
    end.
Proof.
  intros Hwf Hc Hd Hq next. subst next.
  rewrite (nextRelaxationDate_on_due_day now c ct Hwf Hc Hd Hq).
  destruct Hwf as (Hm & Hday & Hms).
  destruct now as [y m d ms]. simpl in *. subst d.
  destruct ct.
  - destruct (Z.eqb_spec m 11) as [->|Hne].
    + split; [unfold date_lt; simpl; lia|]. split; [reflexivity|].
      split; [reflexivity|]. split; [discriminate|].
      intros [dy dm dd dms] (Hdm & _ & _). unfold date_lt. simpl in *. lia.
    + split; [unfold date_lt; simpl; lia|]. split; [reflexivity|].
      split; [reflexivity|]. split; [discriminate|].
      intros [dy dm dd dms] (Hdm & _ & _). unfold date_lt. simpl in *. lia.
  - specialize (Hq eq_refl). apply quarter_months in Hq.
    destruct (Z.eqb_spec m 9) as [->|Hne].
    + split; [unfold date_lt; simpl; lia|]. split; [reflexivity|].
      split; [reflexivity|]. split; [intros _; apply quarter_months; simpl; lia|].
      intros [dy dm dd dms] (Hdm & _ & _). rewrite quarter_months.
      unfold date_lt. simpl in *. lia.
    + split; [unfold date_lt; simpl; lia|]. split; [reflexivity|].
      split; [reflexivity|]. split; [intros _; apply quarter_months; simpl; lia|].
      intros [dy dm dd dms] (Hdm & _ & _). rewrite quarter_months.
      unfold date_lt. simpl in *. lia.
  - split; [unfold date_lt; simpl; lia|]. split; [reflexivity|].
    split; [reflexivity|]. split; [discriminate|]. intros; exact I.
Qed.

Lemma date_leb_refl d : date_leb d d = true.
Proof. date_cases. Qed.

(** X17. For a cycle day of 28 or less, the relaxation date that
    processing stores is the next day on which the job processes the
    source: the date is strictly after the processing, the source as
    stored is due on it, and it is due on no day in between.  For the
    income and for the expense sources. *)
Theorem relaxation_date_is_the_next_due_day :
  forall (now : Date),
    wf_date now ->
    (forall income : Income.t,
       1 <= Income.cycleDate income <= 28 ->
       shouldProcessIncome income (setHours0 now) = true ->
       exists next,
         Income.relaxationDate (incomeProcessed now income) = Some next /\
         date_lt now next /\
         shouldProcessIncome (incomeProcessed now income) next = true /\
         forall day,
           wf_date day ->
           date_lt (setHours0 now) (setHours0 day) -> date_lt (setHours0 day) next ->
           shouldProcessIncome (incomeProcessed now income) (setHours0 day) = false) /\
    (forall (expense : Expense.t) (cycleDate : Z) (cycleType : CycleType),
       Expense.cycleDate expense = Some cycleDate ->
       Expense.cycleType expense = Some cycleType ->
       1 <= cycleDate <= 28 ->
       shouldProcessExpense expense (setHours0 now) = true ->
       exists next,
         Expense.relaxationDate (expenseProcessed now expense) = Some next /\
         date_lt now next /\
         shouldProcessExpense (expenseProcessed now expense) next = true /\
         forall day,
           wf_date day ->
           date_lt (setHours0 now) (setHours0 day) -> date_lt (setHours0 day) next ->
           shouldProcessExpense (expenseProcessed now expense) (setHours0 day) = false).
Proof.
  intros now Hwf. split.
  - intros [u w nm ds am c ct r del dat] Hc Hdue.
    unfold incomeProcessed, shouldProcessIncome in *. simpl in *.
    destruct (Z.eqb_spec c (getDate now)) as [Hd|]; [|discriminate]. simpl in Hdue.
    assert (Hq : ct = quarterly -> getMonth now ∈ [0; 3; 6; 9]).
    { intros ->. apply bool_decide_eq_true in Hdue. exact Hdue. }
    destruct (next_due_day_facts now c ct Hwf Hc (eq_sym Hd) Hq)
      as (Hafter & Hms & Hday & Hqn & Hbetween).
    set (next := nextRelaxationDate now c (Some ct)) in *.
    exists next. split; [reflexivity|]. split; [exact Hafter|]. split.
    + rewrite Hday, Z.eqb_refl. simpl. destruct ct.
      * reflexivity.
      * apply bool_decide_eq_true_2, Hqn. reflexivity.
      * apply date_leb_refl.
    + intros day Hwd Hlt1 Hlt2.
      destruct (Z.eqb_spec c (getDate day)) as [Hcd|]; [|reflexivity]. simpl.
      specialize (Hbetween day Hwd Hlt1 Hlt2 (eq_sym Hcd)).
      destruct ct.
      * contradiction.
      * apply bool_decide_eq_false_2, Hbetween.
      * apply date_leb_false_iff, Hlt2.
  - intros [u w nm ds am fx c0 ct0 en r del dat] c ct Ec Et Hc Hdue.
    simpl in Ec, Et. subst c0 ct0.
    unfold expenseProcessed, shouldProcessExpense in *. simpl in *.
    destruct (decide (Some c = Some (getDate now))) as [Hd|Hd];
      [|rewrite bool_decide_eq_false_2 in Hdue by exact Hd; discriminate].
    rewrite bool_decide_eq_true_2 in Hdue by exact Hd. simpl in Hdue.
    injection Hd as Hd.
    assert (Hq : ct = quarterly -> getMonth now ∈ [0; 3; 6; 9]).
    { intros ->. apply bool_decide_eq_true in Hdue. exact Hdue. }
    destruct (next_due_day_facts now c ct Hwf Hc (eq_sym Hd) Hq)
      as (Hafter & Hms & Hday & Hqn & Hbetween).
    set (next := nextRelaxationDate now c (Some ct)) in *.
    exists next. split; [reflexivity|]. split; [exact Hafter|]. split.
    + rewrite Hday, bool_decide_eq_true_2 by reflexivity. simpl. destruct ct.
      * reflexivity.
      * apply bool_decide_eq_true_2, Hqn. reflexivity.
      * apply date_leb_refl.
    + intros day Hwd Hlt1 Hlt2.
      destruct (decide (Some c = Some (getDate day))) as [Hcd|Hcd];
        [|rewrite bool_decide_eq_false_2 by exact Hcd; reflexivity].
      rewrite bool_decide_eq_true_2 by exact Hcd. simpl. injection Hcd as Hcd.
      specialize (Hbetween day Hwd Hlt1 Hlt2 (eq_sym Hcd)).
      destruct ct.
      * contradiction.
      * apply bool_decide_eq_false_2, Hbetween.
      * apply date_leb_false_iff, Hlt2.
Qed.

Lemma relaxation_date_is_the_next_due_day_witness :
  exists next,
    Income.relaxationDate (incomeProcessed Sample.march5 Sample.salary) = Some next /\
    date_lt Sample.march5 next /\
    shouldProcessIncome (incomeProcessed Sample.march5 Sample.salary) next = true.
Proof.
  destruct (relaxation_date_is_the_next_due_day Sample.march5) as [Hincome _].
  - apply wf_dateb_true. reflexivity.
  - destruct (Hincome Sample.salary) as (next & Hr & Hafter & Hdue & _).
    + simpl. lia.
    + reflexivity.
    + exists next. split; [exact Hr|]. split; [exact Hafter|exact Hdue].
Defined.

(** A cycle day that a month lacks: processed on 31 January 2025, a
    monthly source is given 3 March 2025 as relaxation date, a day on
    which it is not due. *)
Example relaxation_date_overflow :
  let january31 := MkDate 2025 0 31 32400000 in
  let next := nextRelaxationDate january31 31 (Some monthly) in
  next = MkDate 2025 2 3 0 /\
  shouldProcessIncome
    (Income.Build 1%nat 7%nat "Salary" None 3000 31 monthly (Some next) false None)
    next = false.
Proof. split; reflexivity. Qed.

(* ===================================================================== *)
(** * The permission checks *)
(* ===================================================================== *)

(** ** Strings with and without a colon *)

Lemma colon_eqb : Ascii.eqb colon colon = true.
Proof. reflexivity. Qed.

Lemma splitColon_plain s :
  noColon s = true -> Permissions.splitColon s = [s].
Proof.
  induction s as [|c s IH]; simpl; [reflexivity|].
  intros H. apply andb_prop in H as [Hc Hs]. apply negb_true_iff in Hc.
  rewrite Hc, (IH Hs). reflexivity.
Qed.

Lemma splitColon_pair r a :
  noColon r = true ->
  Permissions.splitColon (r +:+ ":" +:+ a) = r :: Permissions.splitColon a.
Proof.
  induction r as [|c r IH]; simpl.
  - intros _. reflexivity.
  - intros H. apply andb_prop in H as [Hc Hr]. apply negb_true_iff in Hc.
    rewrite Hc. simpl in IH. rewrite (IH Hr). reflexivity.
Qed.

Lemma noColon_with_colon x y : noColon (x +:+ ":" +:+ y) = false.
Proof.
  induction x as [|c x IH]; simpl; [reflexivity|].
  simpl in IH. rewrite IH. apply andb_false_r.
Qed.

(** [resource:action] names its resource and action when neither the
    actions nor the required resource have a colon. *)
Lemma permissionString_inj res act r a :
  noColon act = true -> noColon r = true -> noColon a = true ->
  res +:+ ":" +:+ act = r +:+ ":" +:+ a -> res = r /\ act = a.
Proof.
  intros Hact. revert r. induction res as [|c res IH]; intros [|c' r] Hr Ha; simpl.
  - intros E. injection E as E. auto.
  - intros E. injection E as Ec _. subst c'. simpl in Hr. discriminate Hr.
  - intros E. injection E as Ec E. change (EmptyString +:+ a) with a in E.
    rewrite <- E in Ha.
    rewrite noColon_with_colon in Ha. discriminate Ha.
  - intros E. injection E as Ec E. subst c'.
    simpl in Hr. apply andb_prop in Hr as [_ Hr].
    destruct (IH r Hr Ha E) as [-> ->]. auto.
Qed.

(** ** The set of the collected permissions *)

Lemma elem_of_setAdd x y set :
  y ∈ Permissions.setAdd x set <-> y = x \/ y ∈ set.
Proof.
  unfold Permissions.setAdd. destruct (bool_decide (x ∈ set)) eqn:E.
  - apply bool_decide_eq_true in E. split; [auto|]. intros [->|H]; assumption.
  - rewrite elem_of_app, list_elem_of_singleton. tauto.
Qed.

Lemma NoDup_setAdd x set : NoDup set -> NoDup (Permissions.setAdd x set).
Proof.
  intros Hnd. unfold Permissions.setAdd. destruct (bool_decide (x ∈ set)) eqn:E;
    [exact Hnd|].
  apply bool_decide_eq_false in E. apply NoDup_app. split; [exact Hnd|].
  split; [|apply NoDup_singleton].
  intros y Hy Hy'. apply list_elem_of_singleton in Hy'. subst y. contradiction.
Qed.

Lemma collect_spec role : forall set,
  (NoDup set -> NoDup (Permissions.collect set role)) /\
  forall s, s ∈ Permissions.collect set role <->
    s ∈ set \/
    exists p, p ∈ Role.permissions role /\ Permission.isActive p = true /\
              Permissions.fullPermission p = s.
Proof.
  unfold Permissions.collect.
  induction (Role.permissions role) as [|p l IH]; intros set; simpl.
  - split; [auto|]. intros s. split; [auto|].
    intros [H|(p & Hp & _)]; [exact H|inversion Hp].
  - destruct (IH (if Permission.isActive p
                  then Permissions.setAdd (Permissions.fullPermission p) set
                  else set)) as [Hnd Hin].
    split.
    + intros H. apply Hnd. destruct (Permission.isActive p); [|exact H].
      apply NoDup_setAdd, H.
    + intros s. rewrite Hin. destruct (Permission.isActive p) eqn:Ea.
      * rewrite elem_of_setAdd. split.
        -- intros [[->|H]|(q & Hq & Hqa & Hqs)].
           ++ right. exists p. split; [left|auto].
           ++ left. exact H.
           ++ right. exists q. split; [right; exact Hq|auto].
        -- intros [H|(q & Hq & Hqa & Hqs)]; [auto|].
           apply elem_of_cons in Hq as [->|Hq]; [auto|].
           right. exists q. auto.
      * split.
        -- intros [H|(q & Hq & Hqa & Hqs)]; [auto|].
           right. exists q. split; [right; exact Hq|auto].
        -- intros [H|(q & Hq & Hqa & Hqs)]; [auto|].
           apply elem_of_cons in Hq as [->|Hq]; [congruence|].
           right. exists q. auto.
Qed.

Lemma collect_roles_spec roles : forall set,
  (NoDup set -> NoDup (fold_left Permissions.collect roles set)) /\
  forall s, s ∈ fold_left Permissions.collect roles set <->
    s ∈ set \/
    exists role p, role ∈ roles /\ p ∈ Role.permissions role /\
                   Permission.isActive p = true /\ Permissions.fullPermission p = s.
Proof.
  induction roles as [|role roles IH]; intros set; simpl.
  - split; [auto|]. intros s. split; [auto|].
    intros [H|(role & p & Hr & _)]; [exact H|inversion Hr].
  - destruct (IH (Permissions.collect set role)) as [Hnd Hin].
    destruct (collect_spec role set) as [Hnd1 Hin1].
    split; [auto|]. intros s. rewrite Hin, Hin1. split.
    + intros [[H|(p & Hp & Hpa & Hps)]|(r & p & Hr & Hp & Hpa & Hps)].
      * auto.
      * right. exists role, p. split; [left|auto].
      * right. exists r, p. split; [right; exact Hr|auto].
    + intros [H|(r & p & Hr & Hp & Hpa & Hps)]; [auto|].
      apply elem_of_cons in Hr as [->|Hr].
      * left. right. exists p. auto.
      * right. exists r, p. auto.
Qed.

(** ** The tests as propositions *)

Lemma existsb_elem_of {A} (f : A -> bool) l :
  existsb f l = true <-> exists x, x ∈ l /\ f x = true.
Proof.
  rewrite existsb_exists. split; intros (x & Hx & Hf); exists x;
    (split; [apply list_elem_of_In; exact Hx|exact Hf]).
Qed.

Lemma forallb_elem_of {A} (f : A -> bool) l :
  forallb f l = true <-> forall x, x ∈ l -> f x = true.
Proof.
  rewrite forallb_forall. split; intros H x Hx; apply H, list_elem_of_In, Hx.
Qed.

Lemma hasPermission_test roles resource action :
  existsb
    (fun role =>
       existsb
         (fun permission =>
            String.eqb (Permission.resource permission) resource &&
            String.eqb (Permission.action permission) action &&
            Permission.isActive permission)
         (Role.permissions role))
    roles = true <-> grants roles resource action.
Proof.
  unfold grants. rewrite existsb_elem_of. split.
  - intros (role & Hr & Hp). apply existsb_elem_of in Hp as (p & Hp & Hm).
    apply andb_prop in Hm as [Hm Ha]. apply andb_prop in Hm as [Hres Hact].
    apply String.eqb_eq in Hres, Hact. exists role, p. auto.
  - intros (role & p & Hr & Hp & Hres & Hact & Ha).
    exists role. split; [exact Hr|]. apply existsb_elem_of. exists p.
    split; [exact Hp|]. rewrite Ha, andb_true_r.
    apply andb_true_intro. split; apply String.eqb_eq; assumption.
Qed.

Lemma requiredMatches_pair p r :
  noColon (fst r) = true -> noColon (snd r) = true ->
  Permissions.requiredMatches p (permissionString r)
  = String.eqb (Permission.resource p) (fst r) &&
    String.eqb (Permission.action p) (snd r) && Permission.isActive p.
Proof.
  intros Hr Ha. unfold Permissions.requiredMatches, permissionString.
  rewrite (splitColon_pair _ _ Hr), (splitColon_plain _ Ha). reflexivity.
Qed.

Lemma check_next User (Role_find : User -> Result (list Role.t)) u roles test message :
  Role_find u = Ok roles ->
  Permissions.check User Role_find (Some u) test message = Permissions.Next <->
  test roles = true.
Proof.
  intros Hq. unfold Permissions.check. rewrite Hq.
  destruct (test roles); split; congruence.
Qed.

(** X18. The four permission checks agree on what a grant is.  For an
    authenticated user whose role query resolves: [hasPermission] lets
    the request through exactly when one of the roles holds an active
    permission for the action on the resource; [hasAnyPermission] on
    strings [resource:action] exactly when one of them is granted in
    that sense, [hasAllPermissions] exactly when all are, and
    [hasResourcePermission] exactly when some action on the resource
    is.  (The resources and actions asked for, and the actions stored,
    have no colon.) *)
Theorem permission_checks_agree :
  forall (User : Type) (Role_find : User -> Result (list Role.t)) (u : User)
         (roles : list Role.t) (required : list (string * string)),
    Role_find u = Ok roles ->
    actionsPlain roles ->
    (forall r, r ∈ required -> noColon (fst r) = true /\ noColon (snd r) = true) ->
    let strings := permissionString <$> required in
    (forall resource action,
       Permissions.hasPermission User Role_find resource action (Some u)
       = Permissions.Next <-> grants roles resource action) /\
    (Permissions.hasAnyPermission User Role_find strings (Some u) = Permissions.Next <->
     exists r, r ∈ required /\ grants roles (fst r) (snd r)) /\
    (Permissions.hasAllPermissions User Role_find strings (Some u) = Permissions.Next <->
     forall r, r ∈ required -> grants roles (fst r) (snd r)) /\
    (forall resource,
       Permissions.hasResourcePermission User Role_find resource (Some u)
       = Permissions.Next <-> exists action, grants roles resource action).
Proof.
  intros User Role_find u roles required Hq Hplain Hreq strings.
  split; [|split; [|split]].
  - intros resource action. unfold Permissions.hasPermission.
    rewrite (check_next _ _ _ _ _ _ Hq). apply hasPermission_test.
  - unfold Permissions.hasAnyPermission. rewrite (check_next _ _ _ _ _ _ Hq).
    rewrite existsb_elem_of. split.
    + intros (role & Hr & Hp). apply existsb_elem_of in Hp as (p & Hp & Hm).
      apply existsb_elem_of in Hm as (s & Hs & Hm).
      apply list_elem_of_fmap in Hs as (r & -> & Hrin).
      destruct (Hreq r Hrin) as [Hnr Hna].
      rewrite (requiredMatches_pair p r Hnr Hna) in Hm.
      apply andb_prop in Hm as [Hm Ha]. apply andb_prop in Hm as [Hres Hact].
      apply String.eqb_eq in Hres, Hact.
      exists r. split; [exact Hrin|]. exists role, p. auto.
    + intros (r & Hrin & role & p & Hr & Hp & Hres & Hact & Ha).
      destruct (Hreq r Hrin) as [Hnr Hna].
      exists role. split; [exact Hr|]. apply existsb_elem_of. exists p.
      split; [exact Hp|]. apply existsb_elem_of. exists (permissionString r).
      split; [apply list_elem_of_fmap_2, Hrin|].
      rewrite (requiredMatches_pair p r Hnr Hna), Ha, andb_true_r.
      apply andb_true_intro. split; apply String.eqb_eq; assumption.
  - unfold Permissions.hasAllPermissions. rewrite (check_next _ _ _ _ _ _ Hq).
    rewrite forallb_elem_of.
    destruct (collect_roles_spec roles []) as [_ Hin].
    assert (Hkey : forall r, r ∈ required ->
              (Permissions.setHas (permissionString r)
                 (fold_left Permissions.collect roles []) = true
               <-> grants roles (fst r) (snd r))).
    { intros r Hrin. destruct (Hreq r Hrin) as [Hnr Hna].
      unfold Permissions.setHas. rewrite bool_decide_eq_true, Hin. split.
      - intros [H|(role & p & Hr & Hp & Ha & Hs)]; [inversion H|].
        destruct (permissionString_inj _ _ _ _ (Hplain role p Hr Hp) Hnr Hna Hs)
          as [Hres Hact].
        exists role, p. auto.
      - intros (role & p & Hr & Hp & Hres & Hact & Ha).
        right. exists role, p. split; [exact Hr|]. split; [exact Hp|].
        split; [exact Ha|]. unfold Permissions.fullPermission, permissionString.
        rewrite Hres, Hact. reflexivity. }
    split.
    + intros H r Hrin. apply Hkey; [exact Hrin|].
      apply H, list_elem_of_fmap_2, Hrin.
    + intros H s Hs. apply list_elem_of_fmap in Hs as (r & -> & Hrin).
      apply Hkey; [exact Hrin|]. apply H, Hrin.
  - intros resource. unfold Permissions.hasResourcePermission.
    rewrite (check_next _ _ _ _ _ _ Hq). rewrite existsb_elem_of. split.
    + intros (role & Hr & Hp). apply existsb_elem_of in Hp as (p & Hp & Hm).
      apply andb_prop in Hm as [Hres Ha]. apply String.eqb_eq in Hres.
      exists (Permission.action p), role, p. auto.
    + intros (action & role & p & Hr & Hp & Hres & _ & Ha).
      exists role. split; [exact Hr|]. apply existsb_elem_of. exists p.
      split; [exact Hp|]. rewrite Ha, andb_true_r. apply String.eqb_eq, Hres.
Qed.

Lemma permission_checks_agree_witness :
  Permissions.hasAllPermissions unit Staff.roleQuery ["users:read"; "roles:read"] (Some tt)
  = Permissions.Next <->
  forall r, r ∈ [("users", "read"); ("roles", "read")] ->
            grants [Staff.clerk; Staff.auditor] (fst r) (snd r).
Proof.
  destruct (permission_checks_agree unit Staff.roleQuery tt [Staff.clerk; Staff.auditor]
              [("users", "read"); ("roles", "read")]) as (_ & _ & H & _).
  - reflexivity.
  - intros role p Hr Hp.
    apply elem_of_cons in Hr as [->|Hr];
      [|apply elem_of_cons in Hr as [->|Hr]; [|inversion Hr]];
      simpl in Hp;
      repeat (apply elem_of_cons in Hp as [->|Hp]; [reflexivity|]); inversion Hp.
  - intros r Hr.
    repeat (apply elem_of_cons in Hr as [->|Hr]; [split; reflexivity|]). inversion Hr.
  - exact H.
Defined.

Lemma check_cases User (Role_find : User -> Result (list Role.t)) user test message :
  (user = None ->
   Permissions.check User Role_find user test message = Permissions.Denied401) /\
  (forall u e, user = Some u -> Role_find u = Throw e ->
     Permissions.check User Role_find user test message = Permissions.Failed500) /\
  (forall u roles, user = Some u -> Role_find u = Ok roles -> test roles = false ->
     Permissions.check User Role_find user test message
     = Permissions.Denied403 (message roles)).
Proof.
  unfold Permissions.check. split; [intros ->; reflexivity|]. split.
  - intros u e -> ->. reflexivity.
  - intros u roles -> -> ->. reflexivity.
Qed.

Lemma grants_active roles resource action :
  grants roles resource action ->
  exists role p, role ∈ roles /\ p ∈ Role.permissions role /\
                 Permission.isActive p = true.
Proof. intros (role & p & Hr & Hp & _ & _ & Ha). exists role, p. auto. Qed.

(** X19. When a permission check does not let a request through.
    Without an authenticated user each of the four checks answers 401,
    and when the role query rejects each answers 500.  When no
    permission of the user's roles is active, [hasPermission],
    [hasAnyPermission] and [hasResourcePermission] answer 403 whatever
    is asked for, and [hasAllPermissions] lets the request through
    exactly when the list it is given is empty. *)
Theorem permission_check_denies_without_grant :
  forall (User : Type) (Role_find : User -> Result (list Role.t)) (user : option User)
         (resource action : string) (permissions : list string),
    let all := Permissions.hasAllPermissions User Role_find permissions user in
    let others :=
      [Permissions.hasPermission User Role_find resource action user;
       Permissions.hasAnyPermission User Role_find permissions user;
       Permissions.hasResourcePermission User Role_find resource user] in
    (user = None -> Forall (eq Permissions.Denied401) (all :: others)) /\
    (forall u e, user = Some u -> Role_find u = Throw e ->
       Forall (eq Permissions.Failed500) (all :: others)) /\
    (forall u roles,
       user = Some u -> Role_find u = Ok roles ->
       (forall role p, role ∈ roles -> p ∈ Role.permissions role ->
                       Permission.isActive p = false) ->
       Forall (fun verdict => exists message, verdict = Permissions.Denied403 message)
         others /\
       (all = Permissions.Next <-> permissions = [])).
Proof.
  intros User Role_find user resource action permissions all others.
  split; [|split].
  - intros Hu. subst all others.
    repeat constructor; symmetry; apply check_cases; exact Hu.
  - intros u e Hu Hq. subst all others.
    repeat constructor; symmetry; eapply check_cases; eassumption.
  - intros u roles Hu Hq Hinactive. subst all others. subst user.
    assert (Hnone : forall r a, ~ grants roles r a).
    { intros r a Hg. apply grants_active in Hg as (role & p & Hr & Hp & Ha).
      rewrite (Hinactive role p Hr Hp) in Ha. discriminate Ha. }
    split.
    + repeat constructor.
      * eexists. eapply check_cases; [reflexivity|exact Hq|].
        apply not_true_is_false. rewrite hasPermission_test. apply Hnone.
      * eexists. eapply check_cases; [reflexivity|exact Hq|].
        apply not_true_is_false. rewrite existsb_elem_of.
        intros (role & Hr & Hp). apply existsb_elem_of in Hp as (p & Hp & Hm).
        apply existsb_elem_of in Hm as (s & _ & Hm).
        unfold Permissions.requiredMatches in Hm.
        rewrite (Hinactive role p Hr Hp) in Hm.
        destruct (Permissions.splitColon s) as [|? [|? ?]]; try discriminate Hm.
        rewrite andb_false_r in Hm. discriminate Hm.
      * eexists. eapply check_cases; [reflexivity|exact Hq|].
        apply not_true_is_false. rewrite existsb_elem_of.
        intros (role & Hr & Hp). apply existsb_elem_of in Hp as (p & Hp & Hm).
        rewrite (Hinactive role p Hr Hp), andb_false_r in Hm. discriminate Hm.
    + unfold Permissions.hasAllPermissions. rewrite (check_next _ _ _ _ _ _ Hq).
      rewrite forallb_elem_of.
      destruct (collect_roles_spec roles []) as [_ Hin].
      split.
      * intros H. destruct permissions as [|s l]; [reflexivity|].
        specialize (H s ltac:(left)). unfold Permissions.setHas in H.
        apply bool_decide_eq_true, Hin in H.
        destruct H as [H|(role & p & Hr & Hp & Ha & _)]; [inversion H|].
        rewrite (Hinactive role p Hr Hp) in Ha. discriminate Ha.
      * intros -> s Hs. inversion Hs.
Qed.

(** ** [getUserPermissions] *)

Lemma getUserPermissions_active roles : forall set,
  fold_left
    (fun set role => if Role.isActive role then Permissions.collect set role else set)
    roles set
  = fold_left Permissions.collect (filter (fun role => Role.isActive role = true) roles) set.
Proof.
  induction roles as [|role roles IH]; intros set; [reflexivity|].
  simpl. rewrite filter_cons. destruct (decide (Role.isActive role = true)) as [E|E].
  - rewrite E. simpl. apply IH.
  - apply not_true_is_false in E. rewrite E. apply IH.
Qed.

(** X20. [getUserPermissions] returns, each once, the strings
    [resource:action] of the active permissions of the active roles of
    the user, and nothing when the user does not exist or the query
    rejects.  [hasAllPermissions] lets a request of that user through
    exactly when every string it is given is in that list (the role
    query of the check resolving to the active roles among the
    populated roles of the user). *)
Theorem getUserPermissions_lists_active_grants :
  forall (found : Result (option (list Role.t))),
    let result := Permissions.getUserPermissions found in
    NoDup result /\
    (forall s,
       s ∈ result <->
       exists roles role p,
         found = Ok (Some roles) /\ role ∈ roles /\ Role.isActive role = true /\
         p ∈ Role.permissions role /\ Permission.isActive p = true /\
         Permissions.fullPermission p = s) /\
    (forall (User : Type) (Role_find : User -> Result (list Role.t)) (u : User)
            (roles active : list Role.t) (permissions : list string),
       found = Ok (Some roles) ->
       Role_find u = Ok active ->
       (forall role, role ∈ active <-> role ∈ roles /\ Role.isActive role = true) ->
       (Permissions.hasAllPermissions User Role_find permissions (Some u)
        = Permissions.Next <->
        forall s, s ∈ permissions -> s ∈ result)).
Proof.
  intros found result.
  assert (Hspec : NoDup result /\
            forall s, s ∈ result <->
              exists roles role p,
                found = Ok (Some roles) /\ role ∈ roles /\ Role.isActive role = true /\
                p ∈ Role.permissions role /\ Permission.isActive p = true /\
                Permissions.fullPermission p = s).
  { subst result. destruct found as [[roles|]|e]; simpl.
    - rewrite getUserPermissions_active.
      destruct (collect_roles_spec
                  (filter (fun role => Role.isActive role = true) roles) [])
        as [Hnd Hin].
      split; [apply Hnd, NoDup_nil_2|]. intros s. rewrite Hin. split.
      + intros [H|(role & p & Hr & Hp & Ha & Hs)]; [inversion H|].
        apply list_elem_of_filter in Hr as [Hact Hr].
        exists roles, role, p. auto 10.
      + intros (roles' & role & p & E & Hr & Hact & Hp & Ha & Hs).
        injection E as <-. right. exists role, p.
        split; [apply list_elem_of_filter; auto|auto].
    - split; [apply NoDup_nil_2|]. intros s. split; [intros H; inversion H|].
      intros (roles & role & p & E & _). discriminate E.
    - split; [apply NoDup_nil_2|]. intros s. split; [intros H; inversion H|].
      intros (roles & role & p & E & _). discriminate E. }
  destruct Hspec as [Hnd Hin]. split; [exact Hnd|]. split; [exact Hin|].
  intros User Role_find u roles active permissions Hfound Hq Hactive.
  unfold Permissions.hasAllPermissions. rewrite (check_next _ _ _ _ _ _ Hq).
  rewrite forallb_elem_of.
  destruct (collect_roles_spec active []) as [_ Hset].
  assert (Hsame : forall s, s ∈ fold_left Permissions.collect active [] <-> s ∈ result).
  { intros s. rewrite Hset, Hin. split.
    - intros [H|(role & p & Hr & Hp & Ha & Hs)]; [inversion H|].
      apply Hactive in Hr as [Hr Hact]. exists roles, role, p. auto 10.
    - intros (roles' & role & p & E & Hr & Hact & Hp & Ha & Hs).
      rewrite Hfound in E. injection E as <-.
      right. exists role, p. split; [apply Hactive; auto|auto]. }
  unfold Permissions.setHas. split.
  - intros H s Hs. apply Hsame. specialize (H s Hs).
    apply bool_decide_eq_true in H. exact H.
  - intros H s Hs. apply bool_decide_eq_true, Hsame, H, Hs.
Qed.

(** The permissions of a user with an inactive role between two active
    ones: the inactive role and the inactive permission add nothing, and
    a permission held twice is listed once. *)
Example getUserPermissions_staff :
  Permissions.getUserPermissions (Ok (Some [Staff.clerk; Staff.retired; Staff.auditor]))
  = ["users:read"; "roles:read"].
Proof. reflexivity. Qed.
